(** * biz-tracker-mobile: sale and purchase totals

    A shallow embedding of the two form screens that carry the monetary
    logic of the application:

    - [NewSale]      (app/sales/new.tsx; source in src/unnamed/part_000)
    - [EditPurchase] (app/(tabs)/purchases/[id]/edit.tsx; the second
                      document of src/app/(tabs)/purchases/_layout.tsx)

    together with the data shapes of src/services/api.ts
    (src/unnamed/part_007).

    State.  A component is the record of its [useState] cells.  An effect
    or an event handler is a function from the state, or from the form it
    rewrites, to the new one; a functional update
    [setFormData(prev => ...)] is applied to the form of the same render.
    The asynchronous tail of a submission (the REST call and what follows
    it) is not modelled: a submit handler returns the new state and the
    document it hands to the client, if any.

    Numbers.  The screens compute with JavaScript numbers.  The model
    keeps what the screens can observe of them apart from rounding: a
    number is [NaN], an infinity, or an exact rational.  Arithmetic on
    finite numbers is exact; rounding, overflow and the sign of zero are
    outside the model.  [NaN] and its absorbing behaviour, the falsiness
    of [0] and [NaN] under [||], and the comparisons that are false on
    [NaN] are modelled as the language defines them, since the guards of
    the screens depend on them.

    Since the code rounds where the model does not, a statement about an
    amount names the operations of the code in the order in which the
    code applies them ([leftSum] for a [reduce] from 0, the tax as
    subtotal times the hundredth part of the rate), and no proof uses a
    law of exact arithmetic that rounding breaks: a sum is never
    reassociated or reordered, a product never redistributed.

    Further components.  The second part of the development follows the
    same screens through whole sessions ([NewSaleFlow]) and covers what
    surrounds them:

    - [NewInventoryItem] (app/inventory/new.tsx, second document of that
                          file): the fields and the tags of a new item
    - [InventoryList]    (third document of
                          src/app/(tabs)/purchases/_layout.tsx): the
                          search box and the filter of the route
    - [Dashboard]        (src/app/index.tsx): the inventory figures
    - [SalesReport]      (second document of
                          src/app/(tabs)/inventory/new.tsx): the
                          breakdowns by payment method and by status

    Text.  [toLowerCase] is modelled on the letters A to Z and [trim] on
    the white space of [JS.isWhite]; other characters are left as they
    are.  What is stated about the case of letters is stated for
    [plainText], text of characters below code 128, on which the
    function of the language does the same.  [Array.prototype.sort] is the stable sort the language
    prescribes, written as an insertion sort.  An object used as a table
    of counts is an association list in the order in which its keys were
    first written. *)

From Stdlib Require Import ZArith QArith Qcanon Lqa Bool List String Ascii Lia.
From Stdlib Require Import Sorting.Permutation Sorting.Sorted.
Import ListNotations.
Local Open Scope string_scope.

(** ** The host language: numbers, [parseFloat], [parseInt], [toString] *)

Module JS.

Inductive num : Type :=
| NaN
| Inf (neg : bool)
| Fin (q : Qc).

Definition of_Z (z : Z) : num := Fin (Q2Qc (inject_Z z)).
Definition zero : num := of_Z 0.

Definition qneg (q : Qc) : bool :=
  match (q ?= 0)%Qc with Lt => true | _ => false end.

Definition qzero (q : Qc) : bool :=
  match (q ?= 0)%Qc with Eq => true | _ => false end.

Definition isNaN (x : num) : bool :=
  match x with NaN => true | _ => false end.

(** [x + y] *)
Definition add (x y : num) : num :=
  match x, y with
  | NaN, _ | _, NaN => NaN
  | Inf a, Inf b => if Bool.eqb a b then Inf a else NaN
  | Inf a, Fin _ => Inf a
  | Fin _, Inf b => Inf b
  | Fin p, Fin q => Fin (p + q)
  end.

(** [- x] *)
Definition neg (x : num) : num :=
  match x with
  | NaN => NaN
  | Inf a => Inf (negb a)
  | Fin q => Fin (- q)
  end.

(** [x - y] *)
Definition sub (x y : num) : num := add x (neg y).

(** [x * y]: an infinity times zero is [NaN]. *)
Definition mul (x y : num) : num :=
  match x, y with
  | NaN, _ | _, NaN => NaN
  | Inf a, Inf b => Inf (xorb a b)
  | Inf a, Fin q => if qzero q then NaN else Inf (xorb a (qneg q))
  | Fin p, Inf b => if qzero p then NaN else Inf (xorb (qneg p) b)
  | Fin p, Fin q => Fin (p * q)
  end.

(** [x / y]: zero over zero and infinity over infinity are [NaN]; a
    non-zero number over zero is an infinity (the zero counts as [+0]). *)
Definition div (x y : num) : num :=
  match x, y with
  | NaN, _ | _, NaN => NaN
  | Inf _, Inf _ => NaN
  | Inf a, Fin q => Inf (xorb a (qneg q))
  | Fin _, Inf _ => Fin 0
  | Fin p, Fin q =>
      if qzero q then (if qzero p then NaN else Inf (qneg p))
      else Fin (p / q)
  end.

(** [x < y]: false when either side is [NaN]. *)
Definition ltb (x y : num) : bool :=
  match x, y with
  | NaN, _ | _, NaN => false
  | Inf a, Inf b => a && negb b
  | Inf a, Fin _ => a
  | Fin _, Inf b => negb b
  | Fin p, Fin q => match (p ?= q)%Qc with Lt => true | _ => false end
  end.

(** [x > y] *)
Definition gtb (x y : num) : bool := ltb y x.

(** [x <= y]: false when either side is [NaN]. *)
Definition leb (x y : num) : bool :=
  match x, y with
  | NaN, _ | _, NaN => false
  | _, _ => negb (ltb y x)
  end.

(** [Math.max(x, y)], used to state the clamp; the screens never call it. *)
Definition max (x y : num) : num :=
  match x, y with
  | NaN, _ | _, NaN => NaN
  | _, _ => if ltb x y then y else x
  end.

(** Truthiness of a number: [0] and [NaN] are falsy. *)
Definition truthy (x : num) : bool :=
  match x with
  | NaN => false
  | Inf _ => true
  | Fin q => negb (qzero q)
  end.

(** [x || 0] for a number [x]. *)
Definition orZero (x : num) : num := if truthy x then x else zero.

(** [x || 0] for an optional number: [undefined] is falsy. *)
Definition optOrZero (x : option num) : num :=
  match x with
  | Some v => orZero v
  | None => zero
  end.

(** [s || d] for strings: the empty string is falsy. *)
Definition strOr (s d : string) : string :=
  match s with
  | EmptyString => d
  | _ => s
  end.

(** [s || d] for an optional string. *)
Definition optStrOr (s : option string) (d : string) : string :=
  match s with
  | Some v => strOr v d
  | None => d
  end.

(** *** Reading numbers from text *)

(** White space skipped by [parseFloat] and [parseInt] (the ASCII part of
    StrWhiteSpaceChar: TAB, LF, VT, FF, CR, SP). *)
Definition isWhite (c : ascii) : bool :=
  let n := N_of_ascii c in
  ((9 <=? n) && (n <=? 13) || (n =? 32))%N.

Fixpoint trimStart (s : string) : string :=
  match s with
  | String c r => if isWhite c then trimStart r else s
  | EmptyString => s
  end.

Definition digitVal (c : ascii) : option Z :=
  let n := N_of_ascii c in
  if ((48 <=? n) && (n <=? 57))%N then Some (Z.of_N (n - 48)) else None.

Definition hexVal (c : ascii) : option Z :=
  let n := N_of_ascii c in
  if ((48 <=? n) && (n <=? 57))%N then Some (Z.of_N (n - 48))
  else if ((65 <=? n) && (n <=? 70))%N then Some (Z.of_N (n - 55))
  else if ((97 <=? n) && (n <=? 102))%N then Some (Z.of_N (n - 87))
  else None.

(** The longest run of digits at the head of [s], read in base [radix]
    on top of [acc]; returns the value, the number of digits read and the
    rest of the text. *)
Fixpoint readDigits (val : ascii -> option Z) (radix : Z)
         (s : string) (acc : Z) (cnt : nat) : Z * nat * string :=
  match s with
  | String c r =>
      match val c with
      | Some d => readDigits val radix r (radix * acc + d) (S cnt)
      | None => (acc, cnt, s)
      end
  | EmptyString => (acc, cnt, s)
  end.

Definition readSign (s : string) : bool * string :=
  match s with
  | String "-"%char r => (true, r)
  | String "+"%char r => (false, r)
  | _ => (false, s)
  end.

(** The exponent part [e±ddd] at the head of [s]; [0] when it is absent or
    has no digit (the literal then ends before the [e]). *)
Definition readExponent (s : string) : Z :=
  match s with
  | String c r =>
      if (Ascii.eqb c "e" || Ascii.eqb c "E")%bool then
        let '(sg, r') := readSign r in
        let '(v, n, _) := readDigits digitVal 10 r' 0 0 in
        match n with
        | O => 0
        | S _ => if sg then - v else v
        end
      else 0
  | EmptyString => 0
  end%Z.

(** [m * 10^e] as an exact rational. *)
Definition scale10 (m e : Z) : Qc :=
  if (0 <=? e)%Z then Q2Qc (inject_Z (m * 10 ^ e))
  else Q2Qc (Qmake m (Z.to_pos (10 ^ (- e)))).

(** [parseFloat(s)]: leading white space is skipped and the longest prefix
    that is a decimal literal is read; [NaN] when there is none. *)
Definition parseFloat (s : string) : num :=
  let '(sg, s1) := readSign (trimStart s) in
  if String.prefix "Infinity" s1 then Inf sg
  else
    let '(ip, ni, s2) := readDigits digitVal 10 s1 0 0 in
    let '(fp, nf, s3) :=
      match s2 with
      | String "."%char r => readDigits digitVal 10 r ip 0
      | _ => (ip, O, s2)
      end in
    match (ni + nf)%nat with
    | O => NaN
    | S _ =>
        Fin (scale10 (if sg then - fp else fp)
                     (readExponent s3 - Z.of_nat nf))
    end.

(** [parseInt(s)] with no radix: white space, a sign, an optional [0x]
    prefix selecting base 16, then the longest run of digits; [NaN] when
    that run is empty. *)
Definition parseInt (s : string) : num :=
  let '(sg, s1) := readSign (trimStart s) in
  let '(v, n, _) :=
    match s1 with
    | String "0"%char (String x r) =>
        if (Ascii.eqb x "x" || Ascii.eqb x "X")%bool
        then readDigits hexVal 16 r 0 0
        else readDigits digitVal 10 s1 0 0
    | _ => readDigits digitVal 10 s1 0 0
    end in
  match n with
  | O => NaN
  | S _ => of_Z (if sg then - v else v)
  end.

(** *** Printing numbers *)

Definition digitChar (d : Z) : ascii := ascii_of_N (48 + Z.to_N d).

Fixpoint natDigits (fuel : nat) (n : Z) (acc : string) : string :=
  match fuel with
  | O => acc
  | S f =>
      let acc' := String (digitChar (n mod 10)) acc in
      if (n / 10 =? 0)%Z then acc' else natDigits f (n / 10) acc'
  end.

Definition intToString (n : Z) : string :=
  natDigits (S (Z.to_nat (Z.log2 n))) n EmptyString.

(** Digits after the point of [r / den], for [0 <= r < den], until the
    remainder vanishes. *)
Fixpoint fracDigits (fuel : nat) (r den : Z) : string :=
  match fuel with
  | O => EmptyString
  | S f =>
      if (r =? 0)%Z then EmptyString
      else String (digitChar (10 * r / den))
                  (fracDigits f ((10 * r) mod den) den)
  end.

(** [x.toString()].  A finite number is printed positionally, sign,
    whole part, and after the point the digits of the fraction until the
    remainder vanishes.  Every number the screens print is a product of
    numbers read from text, hence a decimal fraction, and is printed with
    all its digits; the exponent form that the language uses for very
    large and very small magnitudes is not produced ([parseFloat] reads
    both forms to the same number). *)
Definition toString (x : num) : string :=
  match x with
  | NaN => "NaN"
  | Inf false => "Infinity"
  | Inf true => "-Infinity"
  | Fin q =>
      let n := Qnum q in
      let d := Zpos (Qden q) in
      let a := Z.abs n in
      let ip := intToString (a / d) in
      let fp := fracDigits (S (Z.to_nat (Z.log2 d))) (a mod d) d in
      let body :=
        match fp with
        | EmptyString => ip
        | _ => (ip ++ "." ++ fp)%string
        end in
      if (n <? 0)%Z then ("-" ++ body)%string else body
  end.

End JS.

(** ** Data shapes of the REST client (src/services/api.ts)

    An optional property [p?: T] is an [option]; the forms hold
    [Partial<Sale>] and [Partial<Purchase>], where every property is
    optional.  Dates are carried as text. *)

Inductive TrackingType := TrackQuantity | TrackWeight.
Inductive WeightUnit := oz | lb | g | kg.
Inductive PriceType := Each | PerWeightUnit.

Module Item.
Record t := mk {
  _id : option string;
  name : string;
  sku : string;
  category : string;
  quantity : JS.num;
  price : JS.num;
  description : option string;
  imageUrl : option string;
  tags : option (list string);
  lastUpdated : option string;
  trackingType : option TrackingType;
  weight : option JS.num;
  weightUnit : option WeightUnit;
  priceType : option PriceType
}.
End Item.

(** [item: string | Item]: an identifier, or the whole item when the
    server has expanded it. *)
Inductive ItemRef :=
| RefId (id : string)
| RefItem (i : Item.t).

Module SaleItem.
Record t := mk {
  item : ItemRef;
  quantity : JS.num;
  priceAtSale : JS.num
}.
End SaleItem.

Inductive SalePayment := SaleCash | SaleCredit | SaleDebit | SaleCheck | SaleOther.
Inductive SaleStatus := Completed | Refunded | PartiallyRefunded.

Module Sale.
Record t := mk {
  _id : option string;
  customerName : option string;
  customerEmail : option string;
  customerPhone : option string;
  items : option (list SaleItem.t);
  subtotal : option JS.num;
  taxRate : option JS.num;
  taxAmount : option JS.num;
  discountAmount : option JS.num;
  total : option JS.num;
  paymentMethod : option SalePayment;
  notes : option string;
  status : option SaleStatus;
  createdAt : option string;
  updatedAt : option string
}.

(** [{...prev, subtotal, taxAmount, total}] *)
Definition withTotals (prev : t) (s ta to : JS.num) : t :=
  mk (_id prev) (customerName prev) (customerEmail prev) (customerPhone prev)
     (items prev) (Some s) (taxRate prev) (Some ta) (discountAmount prev)
     (Some to) (paymentMethod prev) (notes prev) (status prev)
     (createdAt prev) (updatedAt prev).

(** [{...prev, items}] *)
Definition withItems (prev : t) (its : option (list SaleItem.t)) : t :=
  mk (_id prev) (customerName prev) (customerEmail prev) (customerPhone prev)
     its (subtotal prev) (taxRate prev) (taxAmount prev) (discountAmount prev)
     (total prev) (paymentMethod prev) (notes prev) (status prev)
     (createdAt prev) (updatedAt prev).

Definition withTaxRate (prev : t) (v : JS.num) : t :=
  mk (_id prev) (customerName prev) (customerEmail prev) (customerPhone prev)
     (items prev) (subtotal prev) (Some v) (taxAmount prev)
     (discountAmount prev) (total prev) (paymentMethod prev) (notes prev)
     (status prev) (createdAt prev) (updatedAt prev).

Definition withDiscountAmount (prev : t) (v : JS.num) : t :=
  mk (_id prev) (customerName prev) (customerEmail prev) (customerPhone prev)
     (items prev) (subtotal prev) (taxRate prev) (taxAmount prev) (Some v)
     (total prev) (paymentMethod prev) (notes prev) (status prev)
     (createdAt prev) (updatedAt prev).

Definition withCustomerName (prev : t) (v : string) : t :=
  mk (_id prev) (Some v) (customerEmail prev) (customerPhone prev)
     (items prev) (subtotal prev) (taxRate prev) (taxAmount prev)
     (discountAmount prev) (total prev) (paymentMethod prev) (notes prev)
     (status prev) (createdAt prev) (updatedAt prev).

Definition withCustomerEmail (prev : t) (v : string) : t :=
  mk (_id prev) (customerName prev) (Some v) (customerPhone prev)
     (items prev) (subtotal prev) (taxRate prev) (taxAmount prev)
     (discountAmount prev) (total prev) (paymentMethod prev) (notes prev)
     (status prev) (createdAt prev) (updatedAt prev).

Definition withCustomerPhone (prev : t) (v : string) : t :=
  mk (_id prev) (customerName prev) (customerEmail prev) (Some v)
     (items prev) (subtotal prev) (taxRate prev) (taxAmount prev)
     (discountAmount prev) (total prev) (paymentMethod prev) (notes prev)
     (status prev) (createdAt prev) (updatedAt prev).

Definition withNotes (prev : t) (v : string) : t :=
  mk (_id prev) (customerName prev) (customerEmail prev) (customerPhone prev)
     (items prev) (subtotal prev) (taxRate prev) (taxAmount prev)
     (discountAmount prev) (total prev) (paymentMethod prev) (Some v)
     (status prev) (createdAt prev) (updatedAt prev).
End Sale.

Module PurchaseItem.
Record t := mk {
  item : ItemRef;
  quantity : option JS.num;
  weight : option JS.num;
  weightUnit : option WeightUnit;
  costPerUnit : JS.num;
  totalCost : JS.num
}.
End PurchaseItem.

Module Supplier.
Record t := mk {
  name : option string;
  contactName : option string;
  email : option string;
  phone : option string
}.
End Supplier.

Inductive PurchasePayment :=
  PurCash | PurCredit | PurDebit | PurCheck | PurBankTransfer | PurOther.
Inductive PurchaseStatus := Pending | Received | PartiallyReceived | Cancelled.

Module Purchase.
Record t := mk {
  _id : option string;
  supplier : option Supplier.t;
  items : option (list PurchaseItem.t);
  invoiceNumber : option string;
  purchaseDate : option string;
  subtotal : option JS.num;
  taxRate : option JS.num;
  taxAmount : option JS.num;
  shippingCost : option JS.num;
  total : option JS.num;
  notes : option string;
  paymentMethod : option PurchasePayment;
  status : option PurchaseStatus;
  createdAt : option string;
  updatedAt : option string
}.

(** [{...prev, subtotal, taxAmount, total}] *)
Definition withTotals (prev : t) (s ta to : JS.num) : t :=
  mk (_id prev) (supplier prev) (items prev) (invoiceNumber prev)
     (purchaseDate prev) (Some s) (taxRate prev) (Some ta)
     (shippingCost prev) (Some to) (notes prev) (paymentMethod prev)
     (status prev) (createdAt prev) (updatedAt prev).

(** [{...prev, items}] *)
Definition withItems (prev : t) (its : option (list PurchaseItem.t)) : t :=
  mk (_id prev) (supplier prev) its (invoiceNumber prev)
     (purchaseDate prev) (subtotal prev) (taxRate prev) (taxAmount prev)
     (shippingCost prev) (total prev) (notes prev) (paymentMethod prev)
     (status prev) (createdAt prev) (updatedAt prev).

Definition withSupplier (prev : t) (v : Supplier.t) : t :=
  mk (_id prev) (Some v) (items prev) (invoiceNumber prev)
     (purchaseDate prev) (subtotal prev) (taxRate prev) (taxAmount prev)
     (shippingCost prev) (total prev) (notes prev) (paymentMethod prev)
     (status prev) (createdAt prev) (updatedAt prev).

Definition withTaxRate (prev : t) (v : JS.num) : t :=
  mk (_id prev) (supplier prev) (items prev) (invoiceNumber prev)
     (purchaseDate prev) (subtotal prev) (Some v) (taxAmount prev)
     (shippingCost prev) (total prev) (notes prev) (paymentMethod prev)
     (status prev) (createdAt prev) (updatedAt prev).

Definition withShippingCost (prev : t) (v : JS.num) : t :=
  mk (_id prev) (supplier prev) (items prev) (invoiceNumber prev)
     (purchaseDate prev) (subtotal prev) (taxRate prev) (taxAmount prev)
     (Some v) (total prev) (notes prev) (paymentMethod prev)
     (status prev) (createdAt prev) (updatedAt prev).

Definition withInvoiceNumber (prev : t) (v : string) : t :=
  mk (_id prev) (supplier prev) (items prev) (Some v)
     (purchaseDate prev) (subtotal prev) (taxRate prev) (taxAmount prev)
     (shippingCost prev) (total prev) (notes prev) (paymentMethod prev)
     (status prev) (createdAt prev) (updatedAt prev).

Definition withPurchaseDate (prev : t) (v : string) : t :=
  mk (_id prev) (supplier prev) (items prev) (invoiceNumber prev)
     (Some v) (subtotal prev) (taxRate prev) (taxAmount prev)
     (shippingCost prev) (total prev) (notes prev) (paymentMethod prev)
     (status prev) (createdAt prev) (updatedAt prev).

Definition withNotes (prev : t) (v : string) : t :=
  mk (_id prev) (supplier prev) (items prev) (invoiceNumber prev)
     (purchaseDate prev) (subtotal prev) (taxRate prev) (taxAmount prev)
     (shippingCost prev) (total prev) (Some v) (paymentMethod prev)
     (status prev) (createdAt prev) (updatedAt prev).
End Purchase.

(** ** The new-sale screen (app/sales/new.tsx) *)

Module NewSale.

(** The component state, one field per [useState]. *)
Record State := mkState {
  formData : Sale.t;
  availableItems : list Item.t;
  selectedItem : option Item.t;
  selectedQuantity : string;
  loading : bool;
  saving : bool;
  error : option string;
  itemSelectVisible : bool
}.

Definition initialFormData : Sale.t :=
  Sale.mk None (Some EmptyString) (Some EmptyString) (Some EmptyString)
          (Some [])
          (Some JS.zero) (Some (JS.parseFloat "7.5")) (Some JS.zero)
          (Some JS.zero) (Some JS.zero) (Some SaleCash) (Some EmptyString)
          (Some Completed) None None.

Definition initialState : State :=
  mkState initialFormData [] None "1" true false None false.

Definition setFormData (st : State) (f : Sale.t) : State :=
  mkState f (availableItems st) (selectedItem st) (selectedQuantity st)
          (loading st) (saving st) (error st) (itemSelectVisible st).

Definition setError (st : State) (e : option string) : State :=
  mkState (formData st) (availableItems st) (selectedItem st)
          (selectedQuantity st) (loading st) (saving st) e
          (itemSelectVisible st).

Definition setSelectedQuantity (st : State) (v : string) : State :=
  mkState (formData st) (availableItems st) (selectedItem st) v
          (loading st) (saving st) (error st) (itemSelectVisible st).

(** [item.quantity * item.priceAtSale] *)
Definition lineTotal (item : SaleItem.t) : JS.num :=
  JS.mul (SaleItem.quantity item) (SaleItem.priceAtSale item).

(** The effect "Recalculate totals when items, tax rate, or discount
    change" (lines 65-90), as a function of the form it reads and
    rewrites. *)
Definition recalcTotals (formData : Sale.t) : Sale.t :=
  match Sale.items formData with
  | None | Some [] => Sale.withTotals formData JS.zero JS.zero JS.zero
  | Some its =>
      let subtotal :=
        fold_left (fun sum item => JS.add sum (lineTotal item)) its JS.zero in
      let taxAmount :=
        JS.mul subtotal
               (JS.div (JS.optOrZero (Sale.taxRate formData)) (JS.of_Z 100)) in
      let total :=
        JS.sub (JS.add subtotal taxAmount)
               (JS.optOrZero (Sale.discountAmount formData)) in
      Sale.withTotals formData subtotal taxAmount
                      (if JS.ltb total JS.zero then JS.zero else total)
  end.

(** The fields [handleTextChange] is called with (the [onChangeText]
    handlers of the text inputs of the screen). *)
Inductive Field :=
| FcustomerName | FcustomerEmail | FcustomerPhone | Fnotes
| FtaxRate | FdiscountAmount.

Definition handleTextChange (field : Field) (value : string)
           (prev : Sale.t) : Sale.t :=
  match field with
  | FtaxRate =>
      Sale.withTaxRate prev (JS.orZero (JS.parseFloat value))
  | FdiscountAmount =>
      Sale.withDiscountAmount prev (JS.orZero (JS.parseFloat value))
  | FcustomerName => Sale.withCustomerName prev value
  | FcustomerEmail => Sale.withCustomerEmail prev value
  | FcustomerPhone => Sale.withCustomerPhone prev value
  | Fnotes => Sale.withNotes prev value
  end.

Definition handleSelectItem (item : Item.t) (st : State) : State :=
  mkState (formData st) (availableItems st) (Some item) "1"
          (loading st) (saving st) (error st) false.

(** [prev.items || []] *)
Definition itemsOrEmpty (prev : Sale.t) : list SaleItem.t :=
  match Sale.items prev with
  | Some its => its
  | None => []
  end.

Definition newItem (sel : Item.t) (quantity : JS.num) : SaleItem.t :=
  SaleItem.mk (RefId (JS.optStrOr (Item._id sel) EmptyString))
              quantity (Item.price sel).

Definition handleAddItem (st : State) : State :=
  match selectedItem st with
  | None => setError st (Some "Please select an item")
  | Some sel =>
      let quantity := JS.parseInt (selectedQuantity st) in
      if JS.isNaN quantity || JS.leb quantity JS.zero then
        setError st (Some "Quantity must be a positive number")
      else if JS.gtb quantity (Item.quantity sel) then
        setError st (Some ("Only " ++ JS.toString (Item.quantity sel)
                                   ++ " items available in stock"))
      else
        mkState (Sale.withItems (formData st)
                   (Some (itemsOrEmpty (formData st) ++ [newItem sel quantity])%list))
                (availableItems st) None "1" (loading st) (saving st)
                None (itemSelectVisible st)
  end.

(** [xs.filter((_, i) => i !== index)] *)
Fixpoint removeAt {A : Type} (index : nat) (xs : list A) : list A :=
  match xs, index with
  | [], _ => []
  | _ :: r, O => r
  | x :: r, S i => x :: removeAt i r
  end.

Definition handleRemoveItem (index : nat) (prev : Sale.t) : Sale.t :=
  Sale.withItems prev (option_map (removeAt index) (Sale.items prev)).

Definition validateForm (formData : Sale.t) : option string :=
  match Sale.items formData with
  | None | Some [] => Some "At least one item is required"
  | Some _ =>
      if JS.leb (JS.optOrZero (Sale.total formData)) JS.zero
      then Some "Sale total must be greater than zero"
      else None
  end.

(** [handleSubmit] up to the call of the REST client: the new state and,
    when validation passes, the sale handed to [salesApi.create]. *)
Definition handleSubmit (st : State) : State * option Sale.t :=
  match validateForm (formData st) with
  | Some validationError => (setError st (Some validationError), None)
  | None =>
      (mkState (formData st) (availableItems st) (selectedItem st)
               (selectedQuantity st) (loading st) true None
               (itemSelectVisible st),
       Some (formData st))
  end.

End NewSale.

(** ** The edit-purchase screen (app/(tabs)/purchases/[id]/edit.tsx) *)

Module EditPurchase.

(** The component state, one field per [useState].  The entry fields of
    the line being added ([quantity], [weight], [costPerUnit],
    [totalCost]) are kept as text. *)
Record State := mkState {
  formData : Purchase.t;
  availableItems : list Item.t;
  selectedItem : option Item.t;
  quantity : string;
  weight : string;
  weightUnit : WeightUnit;
  costPerUnit : string;
  totalCost : string;
  loading : bool;
  saving : bool;
  error : option string;
  itemSelectVisible : bool
}.

Definition initialFormData : Purchase.t :=
  Purchase.mk None
    (Some (Supplier.mk (Some EmptyString) (Some EmptyString)
                       (Some EmptyString) (Some EmptyString)))
    (Some []) None None (Some JS.zero) (Some JS.zero) (Some JS.zero)
    (Some JS.zero) (Some JS.zero) None (Some PurCash) (Some Received)
    None None.

Definition initialState : State :=
  mkState initialFormData [] None "1" "0" lb "0" "0" true false None false.

Definition setFormData (st : State) (f : Purchase.t) : State :=
  mkState f (availableItems st) (selectedItem st) (quantity st) (weight st)
          (weightUnit st) (costPerUnit st) (totalCost st) (loading st)
          (saving st) (error st) (itemSelectVisible st).

Definition setError (st : State) (e : option string) : State :=
  mkState (formData st) (availableItems st) (selectedItem st) (quantity st)
          (weight st) (weightUnit st) (costPerUnit st) (totalCost st)
          (loading st) (saving st) e (itemSelectVisible st).

Definition setTotalCost (st : State) (v : string) : State :=
  mkState (formData st) (availableItems st) (selectedItem st) (quantity st)
          (weight st) (weightUnit st) (costPerUnit st) v (loading st)
          (saving st) (error st) (itemSelectVisible st).

Definition setQuantity (st : State) (v : string) : State :=
  mkState (formData st) (availableItems st) (selectedItem st) v
          (weight st) (weightUnit st) (costPerUnit st) (totalCost st)
          (loading st) (saving st) (error st) (itemSelectVisible st).

Definition setWeight (st : State) (v : string) : State :=
  mkState (formData st) (availableItems st) (selectedItem st) (quantity st)
          v (weightUnit st) (costPerUnit st) (totalCost st)
          (loading st) (saving st) (error st) (itemSelectVisible st).

Definition setWeightUnit (st : State) (v : WeightUnit) : State :=
  mkState (formData st) (availableItems st) (selectedItem st) (quantity st)
          (weight st) v (costPerUnit st) (totalCost st)
          (loading st) (saving st) (error st) (itemSelectVisible st).

Definition setCostPerUnit (st : State) (v : string) : State :=
  mkState (formData st) (availableItems st) (selectedItem st) (quantity st)
          (weight st) (weightUnit st) v (totalCost st)
          (loading st) (saving st) (error st) (itemSelectVisible st).

Definition setSelectedItem (st : State) (v : option Item.t) : State :=
  mkState (formData st) (availableItems st) v (quantity st)
          (weight st) (weightUnit st) (costPerUnit st) (totalCost st)
          (loading st) (saving st) (error st) (itemSelectVisible st).

(** The effect "Recalculate totals when items, tax rate, or shipping
    change" (lines 125-151). *)
Definition recalcTotals (formData : Purchase.t) : Purchase.t :=
  match Purchase.items formData with
  | None | Some [] => Purchase.withTotals formData JS.zero JS.zero JS.zero
  | Some its =>
      let subtotal :=
        fold_left (fun sum item => JS.add sum (PurchaseItem.totalCost item))
                  its JS.zero in
      let taxAmount :=
        JS.mul subtotal
               (JS.div (JS.optOrZero (Purchase.taxRate formData))
                       (JS.of_Z 100)) in
      let shippingCost := JS.optOrZero (Purchase.shippingCost formData) in
      let total := JS.add (JS.add subtotal taxAmount) shippingCost in
      Purchase.withTotals formData subtotal taxAmount total
  end.

(** [selectedItem.trackingType === 'weight'] *)
Definition tracksWeight (sel : Item.t) : bool :=
  match Item.trackingType sel with
  | Some TrackWeight => true
  | _ => false
  end.

(** The effect "Update total cost when quantity or costPerUnit changes"
    (lines 154-162). *)
Definition updateTotalCost (st : State) : State :=
  match selectedItem st with
  | Some sel =>
      if tracksWeight sel then
        setTotalCost st
          (JS.toString (JS.mul (JS.parseFloat (weight st))
                               (JS.parseFloat (JS.strOr (costPerUnit st) "0"))))
      else
        setTotalCost st
          (JS.toString (JS.mul (JS.parseInt (quantity st))
                               (JS.parseFloat (JS.strOr (costPerUnit st) "0"))))
  | None => st
  end.

(** The fields [handleTextChange] is called with. *)
Inductive Field :=
| FsupplierName | FsupplierContactName | FsupplierEmail | FsupplierPhone
| FinvoiceNumber | FpurchaseDate | Fnotes
| FtaxRate | FshippingCost.

(** [{...prev.supplier}]: an absent supplier spreads to no property. *)
Definition supplierOrEmpty (prev : Purchase.t) : Supplier.t :=
  match Purchase.supplier prev with
  | Some s => s
  | None => Supplier.mk None None None None
  end.

Definition handleTextChange (field : Field) (value : string)
           (prev : Purchase.t) : Purchase.t :=
  let s := supplierOrEmpty prev in
  match field with
  | FsupplierName =>
      Purchase.withSupplier prev
        (Supplier.mk (Some value) (Supplier.contactName s)
                     (Supplier.email s) (Supplier.phone s))
  | FsupplierContactName =>
      Purchase.withSupplier prev
        (Supplier.mk (Supplier.name s) (Some value)
                     (Supplier.email s) (Supplier.phone s))
  | FsupplierEmail =>
      Purchase.withSupplier prev
        (Supplier.mk (Supplier.name s) (Supplier.contactName s)
                     (Some value) (Supplier.phone s))
  | FsupplierPhone =>
      Purchase.withSupplier prev
        (Supplier.mk (Supplier.name s) (Supplier.contactName s)
                     (Supplier.email s) (Some value))
  | FtaxRate =>
      Purchase.withTaxRate prev (JS.orZero (JS.parseFloat value))
  | FshippingCost =>
      Purchase.withShippingCost prev (JS.orZero (JS.parseFloat value))
  | FinvoiceNumber => Purchase.withInvoiceNumber prev value
  | FpurchaseDate => Purchase.withPurchaseDate prev value
  | Fnotes => Purchase.withNotes prev value
  end.

(** [prev.items || []] *)
Definition itemsOrEmpty (prev : Purchase.t) : list PurchaseItem.t :=
  match Purchase.items prev with
  | Some its => its
  | None => []
  end.

(** The line built by [handleAddItem]: cost fields first, then the
    quantity or the weight and its unit, by the item's tracking type. *)
Definition newItem (sel : Item.t) (st : State) : PurchaseItem.t :=
  let item := RefId (JS.optStrOr (Item._id sel) EmptyString) in
  let costPerUnit := JS.parseFloat (costPerUnit st) in
  let totalCost := JS.parseFloat (totalCost st) in
  if tracksWeight sel then
    PurchaseItem.mk item None (Some (JS.parseFloat (weight st)))
                    (Some (weightUnit st)) costPerUnit totalCost
  else
    PurchaseItem.mk item (Some (JS.parseInt (quantity st))) None None
                    costPerUnit totalCost.

Definition handleAddItem (st : State) : State :=
  match selectedItem st with
  | None => st
  | Some sel =>
      mkState (Purchase.withItems (formData st)
                 (Some (itemsOrEmpty (formData st) ++ [newItem sel st])%list))
              (availableItems st) None "1" "0" (weightUnit st) "0" "0"
              (loading st) (saving st) (error st) (itemSelectVisible st)
  end.

Definition handleRemoveItem (index : nat) (prev : Purchase.t) : Purchase.t :=
  Purchase.withItems prev
    (option_map (NewSale.removeAt index) (Purchase.items prev)).

(** [!formData.supplier?.name] *)
Definition supplierNameMissing (formData : Purchase.t) : bool :=
  match Purchase.supplier formData with
  | Some s =>
      match Supplier.name s with
      | Some EmptyString | None => true
      | Some _ => false
      end
  | None => true
  end.

(** [!formData.items?.length] *)
Definition itemsMissing (formData : Purchase.t) : bool :=
  match Purchase.items formData with
  | None | Some [] => true
  | Some _ => false
  end.

(** [handleSave] up to the call of the REST client: the new state and,
    when both checks pass, the purchase handed to [purchasesApi.update]. *)
Definition handleSave (st : State) : State * option Purchase.t :=
  if supplierNameMissing (formData st) then
    (setError st (Some "Supplier name is required"), None)
  else if itemsMissing (formData st) then
    (setError st (Some "At least one item is required"), None)
  else
    (mkState (formData st) (availableItems st) (selectedItem st)
             (quantity st) (weight st) (weightUnit st) (costPerUnit st)
             (totalCost st) (loading st) true None (itemSelectVisible st),
     Some (formData st)).

End EditPurchase.

(** ** Reference notions used to state the properties *)

(** The sum of a sequence of amounts, as a right-nested sum.  It is
    used for sums of whole numbers only, where the order of the additions
    does not matter. *)
Fixpoint sigma (xs : list JS.num) : JS.num :=
  match xs with
  | [] => JS.zero
  | x :: r => JS.add x (sigma r)
  end.

(** The sum of a sequence of amounts taken from left to right, starting
    from 0: the order in which [reduce((sum, x) => sum + x, 0)] adds. *)
Definition leftSum (xs : list JS.num) : JS.num :=
  fold_left JS.add xs JS.zero.

(** A number that is not [NaN]. *)
Definition isNumber (x : JS.num) : Prop := JS.isNaN x = false.

(** A positive whole number. *)
Definition positiveInteger (x : JS.num) : Prop :=
  exists z : Z, (0 < z)%Z /\ x = JS.of_Z z.

(** The numbers whose decimal expansion ends. *)
Definition isDecimal (x : JS.num) : Prop :=
  match x with
  | JS.Fin q => exists k : nat, (Zpos (Qden q) | 10 ^ Z.of_nat k)%Z
  | _ => True
  end.

(** The three grounds on which the sale screen refuses a line. *)
Definition saleRejection (st : NewSale.State) : Prop :=
  NewSale.selectedItem st = None
  \/ ~ positiveInteger (JS.parseInt (NewSale.selectedQuantity st))
  \/ exists sel, NewSale.selectedItem st = Some sel /\
       JS.gtb (JS.parseInt (NewSale.selectedQuantity st)) (Item.quantity sel)
       = true.

(** The supplier name as the purchase form holds it. *)
Definition supplierName (f : Purchase.t) : option string :=
  match Purchase.supplier f with
  | Some s => Supplier.name s
  | None => None
  end.

(** A name that is absent or the empty text: what [!supplier?.name]
    tests. *)
Definition absentOrEmpty (name : option string) : Prop :=
  name = None \/ name = Some EmptyString.

(** Deciding equality of numbers by computation, for the worked
    scenarios. *)
Definition num_eqb (x y : JS.num) : bool :=
  match x, y with
  | JS.NaN, JS.NaN => true
  | JS.Inf a, JS.Inf b => Bool.eqb a b
  | JS.Fin p, JS.Fin q => Qeq_bool p q
  | _, _ => false
  end.

Definition opt_num_eqb (x y : option JS.num) : bool :=
  match x, y with
  | Some a, Some b => num_eqb a b
  | None, None => true
  | _, _ => false
  end.

(** ** Worked scenarios *)

Module Scenario.
Import JS.

(** A catalogue item tracked by quantity: 10 on hand, price 10.00. *)
Definition widget : Item.t :=
  Item.mk (Some "w1") "Widget" "W-1" "parts" (of_Z 10) (parseFloat "10.00")
          None None None None (Some TrackQuantity) None None None.

(** A catalogue item tracked by weight. *)
Definition flour : Item.t :=
  Item.mk (Some "f1") "Flour" "F-1" "baking" (of_Z 0) (parseFloat "1.20")
          None None None None (Some TrackWeight) (Some (of_Z 40)) (Some kg)
          (Some PerWeightUnit).

Definition saleOf (its : list SaleItem.t) (taxRate discount : string) : Sale.t :=
  NewSale.handleTextChange NewSale.FdiscountAmount discount
    (NewSale.handleTextChange NewSale.FtaxRate taxRate
       (Sale.withItems NewSale.initialFormData (Some its))).

Definition purchaseOf (its : list PurchaseItem.t) (taxRate shipping : string)
  : Purchase.t :=
  EditPurchase.handleTextChange EditPurchase.FshippingCost shipping
    (EditPurchase.handleTextChange EditPurchase.FtaxRate taxRate
       (Purchase.withItems EditPurchase.initialFormData (Some its))).

(** Scenario A: two lines, tax 7.5, discount 2.00. *)
Definition saleA : Sale.t :=
  saleOf [SaleItem.mk (RefId "a") (of_Z 2) (parseFloat "10.00");
          SaleItem.mk (RefId "b") (of_Z 1) (parseFloat "5.00")]
         "7.5" "2.00".

(** Scenario B: the discount exceeds the total. *)
Definition saleB : Sale.t :=
  saleOf [SaleItem.mk (RefId "a") (of_Z 1) (parseFloat "1.00")] "0" "50.00".

(** Scenario C: a purchase of 10 units at 2.50, tax 5, shipping 12.00. *)
Definition purchaseC : Purchase.t :=
  purchaseOf [PurchaseItem.mk (RefId "w1") (Some (of_Z 10)) None None
                              (parseFloat "2.50") (parseFloat "25")]
             "5" "12.00".

(** The sale screen with [widget] selected and [q] typed as quantity. *)
Definition saleEntry (q : string) : NewSale.State :=
  NewSale.setSelectedQuantity
    (NewSale.handleSelectItem widget NewSale.initialState) q.

(** The purchase screen with [sel] selected and the three entry fields
    typed in, after the line-total effect has run. *)
Definition purchaseEntry (sel : Item.t) (q w c : string) : EditPurchase.State :=
  EditPurchase.updateTotalCost
    (EditPurchase.setCostPerUnit
       (EditPurchase.setWeight
          (EditPurchase.setQuantity
             (EditPurchase.setSelectedItem EditPurchase.initialState (Some sel))
             q) w) c).

End Scenario.

(** * Further components *)

Module JSArray.

(** [xs.filter((x, i) => keep(x, i))], the index counted from [i]. *)
Fixpoint filterFrom {A : Type} (keep : A -> nat -> bool) (i : nat)
         (xs : list A) : list A :=
  match xs with
  | [] => []
  | x :: r =>
      if keep x i then x :: filterFrom keep (S i) r
      else filterFrom keep (S i) r
  end.

Definition filterIndexed {A : Type} (keep : A -> nat -> bool) (xs : list A)
  : list A := filterFrom keep 0 xs.

End JSArray.

Module NewSaleFlow.
Import NewSale.

(** The effect "Fetch available items" (lines 48-62) once the catalogue
    has arrived: the items in stock are kept, the spinner stops. *)
Definition fetchItemsDone (items : list Item.t) (st : State) : State :=
  mkState (formData st)
          (List.filter (fun item => JS.gtb (Item.quantity item) JS.zero) items)
          (selectedItem st) (selectedQuantity st) false (saving st)
          (error st) (itemSelectVisible st).

(** The same effect when the request fails. *)
Definition fetchItemsFailed (st : State) : State :=
  mkState (formData st) (availableItems st) (selectedItem st)
          (selectedQuantity st) false (saving st)
          (Some "Failed to load inventory items. Please check your connection.")
          (itemSelectVisible st).

(** What the user can do on the screen: the handlers as the widgets call
    them.  An item is picked from the list of available items by its
    position. *)
Inductive Event :=
| TextChange (field : Field) (value : string)
| PickItem (position : nat)
| TypeQuantity (value : string)
| AddItem
| RemoveItem (index : nat).

Definition handle (ev : Event) (st : State) : State :=
  match ev with
  | TextChange field value =>
      setFormData st (handleTextChange field value (formData st))
  | PickItem position =>
      match nth_error (availableItems st) position with
      | Some item => handleSelectItem item st
      | None => st
      end
  | TypeQuantity value => setSelectedQuantity st value
  | AddItem => handleAddItem st
  | RemoveItem index =>
      setFormData st (handleRemoveItem index (formData st))
  end.

(** One turn of the screen: the handler, then the totals effect. *)
Definition step (st : State) (ev : Event) : State :=
  let st1 := handle ev st in
  setFormData st1 (recalcTotals (formData st1)).

(** What the catalogue request brought: the items, or nothing when it
    failed. *)
Definition fetched (response : option (list Item.t)) (st : State) : State :=
  match response with
  | Some items => fetchItemsDone items st
  | None => fetchItemsFailed st
  end.

(** The screen after the catalogue request has ended with [response] and
    the user has done [evs]; nothing can be done before, the screen shows
    a spinner while [loading] is set. *)
Definition run (response : option (list Item.t)) (evs : list Event) : State :=
  fold_left step evs
    (let st0 := fetched response initialState in
     setFormData st0 (recalcTotals (formData st0))).

(** The items the request brought. *)
Definition catalogue (response : option (list Item.t)) : list Item.t :=
  match response with
  | Some items => items
  | None => []
  end.

End NewSaleFlow.


(** A line taken from the catalogue [items]. *)
Definition lineFromCatalogue (items : list Item.t) (line : SaleItem.t) : Prop :=
  exists item,
    In item items /\
    JS.gtb (Item.quantity item) JS.zero = true /\
    SaleItem.item line = RefId (JS.optStrOr (Item._id item) EmptyString) /\
    SaleItem.priceAtSale line = Item.price item /\
    positiveInteger (SaleItem.quantity line) /\
    JS.gtb (SaleItem.quantity line) (Item.quantity item) = false.

(** An item of the catalogue with stock above zero. *)
Definition inStock (items : list Item.t) (item : Item.t) : Prop :=
  In item items /\ JS.gtb (Item.quantity item) JS.zero = true.

(** What the new-sale screen keeps true from one event to the next. *)
Definition saleInvariant (items : list Item.t) (st : NewSale.State) : Prop :=
  NewSale.availableItems st
  = List.filter (fun item => JS.gtb (Item.quantity item) JS.zero) items /\
  (forall sel, NewSale.selectedItem st = Some sel -> inStock items sel) /\
  Forall (lineFromCatalogue items)
         (NewSale.itemsOrEmpty (NewSale.formData st)) /\
  NewSale.formData st = NewSale.recalcTotals (NewSale.formData st).


(** ** More of the host language: text and arrays *)

Module JSString.

(** [c] in lower case, for the letters A to Z; other characters are
    outside the model and are left as they are. *)
Definition lowerChar (c : ascii) : ascii :=
  let n := N_of_ascii c in
  if ((65 <=? n) && (n <=? 90))%N then ascii_of_N (n + 32) else c.

(** [s.toLowerCase()] *)
Fixpoint toLowerCase (s : string) : string :=
  match s with
  | EmptyString => EmptyString
  | String c r => String (lowerChar c) (toLowerCase r)
  end.

(** [s.includes(sub)]: [sub] occurs somewhere in [s]. *)
Fixpoint includes (s sub : string) : bool :=
  String.prefix sub s ||
  match s with
  | String _ r => includes r sub
  | EmptyString => false
  end.

(** [s.trimEnd()], with the white space of [JS.isWhite]. *)
Fixpoint trimEnd (s : string) : string :=
  match s with
  | EmptyString => EmptyString
  | String c r =>
      match trimEnd r with
      | EmptyString => if JS.isWhite c then EmptyString else String c EmptyString
      | r' => String c r'
      end
  end.

(** [s.trim()] *)
Definition trim (s : string) : string := trimEnd (JS.trimStart s).

End JSString.

(** A blank name: absent, empty, or white space only. *)
Definition blank (name : option string) : Prop :=
  match name with
  | Some s => JSString.trim s = EmptyString
  | None => True
  end.

(** Text of characters with a code below 128.  On such text
    [toLowerCase] acts character by character and changes the letters A
    to Z only, which is what [JSString.toLowerCase] does; the statements
    about searching are made for such text. *)
Fixpoint plainText (s : string) : Prop :=
  match s with
  | EmptyString => True
  | String c r => (N_of_ascii c < 128)%N /\ plainText r
  end.

(** Two texts with the same characters, the case of the letters set
    aside. *)
Fixpoint sameLetters (a b : string) : Prop :=
  match a, b with
  | EmptyString, EmptyString => True
  | String c a', String d b' =>
      JSString.lowerChar c = JSString.lowerChar d /\ sameLetters a' b'
  | _, _ => False
  end.

(** [query] occurs in [text]. *)
Definition contains (text query : string) : Prop :=
  exists before after, text = (before ++ query ++ after)%string.

(** [query] occurs in [text], the case of the letters set aside. *)
Definition containsIgnoringCase (text query : string) : Prop :=
  exists before fragment after,
    text = (before ++ fragment ++ after)%string /\
    sameLetters fragment query.

Module JSSort.

(** Where [x] goes in an array already in order: before the first element
    it compares below, so after the elements it compares equal to (a
    comparison that gives [NaN] counts as equal). *)
Fixpoint insert {A : Type} (compare : A -> A -> JS.num) (x : A)
         (sorted : list A) : list A :=
  match sorted with
  | [] => [x]
  | y :: r =>
      if JS.ltb (compare x y) JS.zero then x :: y :: r
      else y :: insert compare x r
  end.

(** [xs.sort(compare)]: the stable sort the language prescribes, here by
    insertion from left to right. *)
Definition sort {A : Type} (compare : A -> A -> JS.num) (xs : list A)
  : list A :=
  fold_left (fun sorted x => insert compare x sorted) xs [].

End JSSort.

(** ** The new-item screen with tags (app/inventory/new.tsx, second
    document) *)

Module NewInventoryItem.

Record State := mkState {
  formData : Item.t;
  imageUri : option string;
  currentTag : string;
  saving : bool;
  error : option string
}.

Definition initialFormData : Item.t :=
  Item.mk None EmptyString EmptyString EmptyString JS.zero JS.zero
          (Some EmptyString) None (Some []) None None None None None.

Definition initialState : State :=
  mkState initialFormData None EmptyString false None.

Definition setFormData (st : State) (f : Item.t) : State :=
  mkState f (imageUri st) (currentTag st) (saving st) (error st).

Definition setCurrentTag (st : State) (v : string) : State :=
  mkState (formData st) (imageUri st) v (saving st) (error st).

Definition setError (st : State) (e : option string) : State :=
  mkState (formData st) (imageUri st) (currentTag st) (saving st) e.

(** [{...prev, tags}] *)
Definition withTags (prev : Item.t) (tags : option (list string)) : Item.t :=
  Item.mk (Item._id prev) (Item.name prev) (Item.sku prev)
          (Item.category prev) (Item.quantity prev) (Item.price prev)
          (Item.description prev) (Item.imageUrl prev) tags
          (Item.lastUpdated prev) (Item.trackingType prev)
          (Item.weight prev) (Item.weightUnit prev) (Item.priceType prev).

(** The fields [handleChange] is called with. *)
Inductive Field :=
| Fname | Fsku | Fcategory | Fdescription | Fquantity | Fprice.

Definition handleChange (field : Field) (value : string) (prev : Item.t)
  : Item.t :=
  match field with
  | Fquantity =>
      Item.mk (Item._id prev) (Item.name prev) (Item.sku prev)
              (Item.category prev) (JS.orZero (JS.parseFloat value))
              (Item.price prev) (Item.description prev) (Item.imageUrl prev)
              (Item.tags prev) (Item.lastUpdated prev)
              (Item.trackingType prev) (Item.weight prev)
              (Item.weightUnit prev) (Item.priceType prev)
  | Fprice =>
      Item.mk (Item._id prev) (Item.name prev) (Item.sku prev)
              (Item.category prev) (Item.quantity prev)
              (JS.orZero (JS.parseFloat value)) (Item.description prev)
              (Item.imageUrl prev) (Item.tags prev) (Item.lastUpdated prev)
              (Item.trackingType prev) (Item.weight prev)
              (Item.weightUnit prev) (Item.priceType prev)
  | Fname =>
      Item.mk (Item._id prev) value (Item.sku prev)
              (Item.category prev) (Item.quantity prev) (Item.price prev)
              (Item.description prev) (Item.imageUrl prev) (Item.tags prev)
              (Item.lastUpdated prev) (Item.trackingType prev)
              (Item.weight prev) (Item.weightUnit prev) (Item.priceType prev)
  | Fsku =>
      Item.mk (Item._id prev) (Item.name prev) value
              (Item.category prev) (Item.quantity prev) (Item.price prev)
              (Item.description prev) (Item.imageUrl prev) (Item.tags prev)
              (Item.lastUpdated prev) (Item.trackingType prev)
              (Item.weight prev) (Item.weightUnit prev) (Item.priceType prev)
  | Fcategory =>
      Item.mk (Item._id prev) (Item.name prev) (Item.sku prev)
              value (Item.quantity prev) (Item.price prev)
              (Item.description prev) (Item.imageUrl prev) (Item.tags prev)
              (Item.lastUpdated prev) (Item.trackingType prev)
              (Item.weight prev) (Item.weightUnit prev) (Item.priceType prev)
  | Fdescription =>
      Item.mk (Item._id prev) (Item.name prev) (Item.sku prev)
              (Item.category prev) (Item.quantity prev) (Item.price prev)
              (Some value) (Item.imageUrl prev) (Item.tags prev)
              (Item.lastUpdated prev) (Item.trackingType prev)
              (Item.weight prev) (Item.weightUnit prev) (Item.priceType prev)
  end.

(** [formData.tags || []] *)
Definition tagsOrEmpty (f : Item.t) : list string :=
  match Item.tags f with
  | Some tags => tags
  | None => []
  end.

(** [formData.tags && formData.tags.includes(tag)] *)
Definition hasTag (f : Item.t) (tag : string) : bool :=
  match Item.tags f with
  | Some tags => existsb (String.eqb tag) tags
  | None => false
  end.

Definition handleAddTag (st : State) : State :=
  let tag := JSString.trim (currentTag st) in
  match tag with
  | EmptyString => st
  | _ =>
      if hasTag (formData st) tag then setCurrentTag st EmptyString
      else
        mkState (withTags (formData st)
                          (Some (tagsOrEmpty (formData st) ++ [tag])%list))
                (imageUri st) EmptyString (saving st) (error st)
  end.

Definition handleRemoveTag (tagToRemove : string) (st : State) : State :=
  match Item.tags (formData st) with
  | None => st
  | Some tags =>
      setFormData st
        (withTags (formData st)
           (Some (List.filter (fun tag => negb (String.eqb tag tagToRemove))
                              tags)))
  end.

Definition validateForm (formData : Item.t) : option string :=
  match JSString.trim (Item.name formData) with
  | EmptyString => Some "Name is required"
  | _ =>
  match JSString.trim (Item.sku formData) with
  | EmptyString => Some "SKU is required"
  | _ =>
  match JSString.trim (Item.category formData) with
  | EmptyString => Some "Category is required"
  | _ =>
      if JS.ltb (Item.quantity formData) JS.zero
      then Some "Quantity cannot be negative"
      else if JS.ltb (Item.price formData) JS.zero
      then Some "Price cannot be negative"
      else None
  end end end.

(** What the user can do with the tags and the fields of the form. *)
Inductive Event :=
| Change (field : Field) (value : string)
| TypeTag (value : string)
| AddTag
| RemoveTag (tag : string).

Definition handle (st : State) (ev : Event) : State :=
  match ev with
  | Change field value => setFormData st (handleChange field value (formData st))
  | TypeTag value => setCurrentTag st value
  | AddTag => handleAddTag st
  | RemoveTag tag => handleRemoveTag tag st
  end.

Definition run (evs : list Event) : State := fold_left handle evs initialState.

End NewInventoryItem.

(** A tag as the form stores it: not empty, no white space around it. *)
Definition cleanTag (tag : string) : Prop :=
  tag <> EmptyString /\ JSString.trim tag = tag.

(** What the item form keeps true of its tags from one event to the
    next. *)
Definition tagsKept (st : NewInventoryItem.State) : Prop :=
  exists tags,
    Item.tags (NewInventoryItem.formData st) = Some tags /\
    NoDup tags /\ Forall cleanTag tags.

(** ** The inventory list (app/(tabs)/inventory/index.tsx with the filter
    of the route; third document of src/app/(tabs)/purchases/_layout.tsx) *)

Module InventoryList.

(** What [item[key]] can be, as far as [typeof] and [Array.isArray] tell
    the filter apart: a string, a number, an array of strings, or
    anything else ([undefined] for a missing property). *)
Inductive Value :=
| VString (s : string)
| VNumber (n : JS.num)
| VArray (xs : list string)
| VOther.

Definition trackingTypeText (t : TrackingType) : string :=
  match t with TrackQuantity => "quantity" | TrackWeight => "weight" end.

Definition weightUnitText (u : WeightUnit) : string :=
  match u with oz => "oz" | lb => "lb" | g => "g" | kg => "kg" end.

Definition priceTypeText (p : PriceType) : string :=
  match p with Each => "each" | PerWeightUnit => "per_weight_unit" end.

Definition optional {A : Type} (wrap : A -> Value) (o : option A) : Value :=
  match o with
  | Some v => wrap v
  | None => VOther
  end.

(** [item[key as keyof Item]] *)
Definition property (item : Item.t) (key : string) : Value :=
  if (key =? "_id")%string then optional VString (Item._id item)
  else if (key =? "name")%string then VString (Item.name item)
  else if (key =? "sku")%string then VString (Item.sku item)
  else if (key =? "category")%string then VString (Item.category item)
  else if (key =? "quantity")%string then VNumber (Item.quantity item)
  else if (key =? "price")%string then VNumber (Item.price item)
  else if (key =? "description")%string
       then optional VString (Item.description item)
  else if (key =? "imageUrl")%string then optional VString (Item.imageUrl item)
  else if (key =? "tags")%string then optional VArray (Item.tags item)
  else if (key =? "lastUpdated")%string
       then optional VString (Item.lastUpdated item)
  else if (key =? "trackingType")%string
       then optional (fun t => VString (trackingTypeText t))
                     (Item.trackingType item)
  else if (key =? "weight")%string then optional VNumber (Item.weight item)
  else if (key =? "weightUnit")%string
       then optional (fun u => VString (weightUnitText u))
                     (Item.weightUnit item)
  else if (key =? "priceType")%string
       then optional (fun p => VString (priceTypeText p))
                     (Item.priceType item)
  else VOther.

(** The test of the filter taken from the route parameters. *)
Definition matchesFilter (filter value : string) (item : Item.t) : bool :=
  match property item filter with
  | VString itemValue =>
      JSString.includes (JSString.toLowerCase itemValue)
                        (JSString.toLowerCase value)
  | VNumber itemValue => JSString.includes (JS.toString itemValue) value
  | VArray itemValue =>
      existsb (fun v => JSString.includes (JSString.toLowerCase v)
                                          (JSString.toLowerCase value))
              itemValue
  | VOther => false
  end.

(** The test of the search box. *)
Definition matchesQuery (lowerCaseQuery : string) (item : Item.t) : bool :=
  JSString.includes (JSString.toLowerCase (Item.name item)) lowerCaseQuery
  || JSString.includes (JSString.toLowerCase (Item.sku item)) lowerCaseQuery
  || JSString.includes (JSString.toLowerCase (Item.category item))
                       lowerCaseQuery
  || match Item.tags item with
     | Some tags =>
         existsb (fun tag => JSString.includes (JSString.toLowerCase tag)
                                               lowerCaseQuery) tags
     | None => false
     end.

(** The effect that fills [filteredItems] (lines 1140-1167). *)
Definition filteredItems (filter value : option string)
           (searchQuery : string) (items : list Item.t) : list Item.t :=
  match filter, value with
  | Some (String _ _ as f), Some (String _ _ as v) =>
      List.filter (matchesFilter f v) items
  | _, _ =>
      match searchQuery with
      | EmptyString => items
      | _ =>
          List.filter (matchesQuery (JSString.toLowerCase searchQuery)) items
      end
  end.

End InventoryList.

(** The texts the search box looks at are plain. *)
Definition plainItem (item : Item.t) : Prop :=
  plainText (Item.name item) /\
  plainText (Item.sku item) /\
  plainText (Item.category item) /\
  forall tags, Item.tags item = Some tags -> Forall plainText tags.

(** The value of a property is plain text, or no text at all. *)
Definition plainValue (v : InventoryList.Value) : Prop :=
  match v with
  | InventoryList.VString s => plainText s
  | InventoryList.VArray xs => Forall plainText xs
  | _ => True
  end.

(** What the filter of the route looks for in the value of a property:
    the text in a text or in one of the texts of an array, the case of
    the letters set aside; the text in the printed number; nothing
    else. *)
Definition valueMatches (v : InventoryList.Value) (value : string) : Prop :=
  match v with
  | InventoryList.VString s => containsIgnoringCase s value
  | InventoryList.VNumber n => contains (JS.toString n) value
  | InventoryList.VArray xs =>
      exists x, In x xs /\ containsIgnoringCase x value
  | InventoryList.VOther => False
  end.

(** The keys of the [Item] interface. *)
Definition itemKeys : list string :=
  ["_id"; "name"; "sku"; "category"; "quantity"; "price"; "description";
   "imageUrl"; "tags"; "lastUpdated"; "trackingType"; "weight";
   "weightUnit"; "priceType"].

(** ** The dashboard (app/index.tsx) *)

Module Dashboard.

Record InventoryStats := mkStats {
  totalItems : nat;
  totalValue : JS.num;
  lowStockItems : list Item.t
}.

(** The inventory part of [fetchData] (lines 29-38), from the items the
    request returned. *)
Definition inventoryStats (items : list Item.t) : InventoryStats :=
  mkStats
    (List.length items)
    (fold_left (fun sum item =>
                  JS.add sum (JS.mul (Item.price item) (Item.quantity item)))
               items JS.zero)
    (JSSort.sort
       (fun a b => JS.sub (Item.quantity a) (Item.quantity b))
       (List.filter (fun item => JS.ltb (Item.quantity item) (JS.of_Z 5))
                    items)).

(** The comparison the low-stock list is sorted with. *)
Definition byStock (a b : Item.t) : JS.num :=
  JS.sub (Item.quantity a) (Item.quantity b).

(** [b] is not below [a] in stock. *)
Definition stockOrder (a b : Item.t) : Prop :=
  JS.ltb (Item.quantity b) (Item.quantity a) = false.

End Dashboard.

(** ** The sales report (app/(tabs)/sales/reports.tsx; second document of
    src/app/(tabs)/inventory/new.tsx) *)

Module SalesReport.

Record ReportData := mkReport {
  totalSales : JS.num;
  totalRevenue : JS.num;
  averageOrderValue : JS.num;
  sales : list Sale.t
}.

(** [counts[key] = (counts[key] || 0) + 1] on an object used as a table:
    the keys stay in the order in which they were first written. *)
Fixpoint bump {K : Type} (same : K -> K -> bool) (key : K)
         (counts : list (K * nat)) : list (K * nat) :=
  match counts with
  | [] => [(key, 1%nat)]
  | (k, c) :: r =>
      if same k key then (k, S c) :: r else (k, c) :: bump same key r
  end.

(** The [forEach] loop that fills the table. *)
Definition tally {A K : Type} (same : K -> K -> bool) (key : A -> K)
           (xs : list A) : list (K * nat) :=
  fold_left (fun counts x => bump same (key x) counts) xs [].

Definition samePayment (a b : option SalePayment) : bool :=
  match a, b with
  | None, None => true
  | Some SaleCash, Some SaleCash | Some SaleCredit, Some SaleCredit
  | Some SaleDebit, Some SaleDebit | Some SaleCheck, Some SaleCheck
  | Some SaleOther, Some SaleOther => true
  | _, _ => false
  end.

Definition sameStatus (a b : option SaleStatus) : bool :=
  match a, b with
  | None, None => true
  | Some Completed, Some Completed | Some Refunded, Some Refunded
  | Some PartiallyRefunded, Some PartiallyRefunded => true
  | _, _ => false
  end.

Record Stat (K : Type) := mkStat {
  key : K;
  count : JS.num;
  percentage : JS.num
}.
Arguments mkStat {K}.
Arguments key {K}.
Arguments count {K}.
Arguments percentage {K}.

Definition ofNat (n : nat) : JS.num := JS.of_Z (Z.of_nat n).

(** [Object.entries(counts).map(([key, count]) => ({key, count,
    percentage: (count / reportData.sales.length) * 100}))] *)
Definition stats {K : Type} (total : nat) (counts : list (K * nat))
  : list (Stat K) :=
  map (fun '(k, c) =>
         mkStat k (ofNat c)
                (JS.mul (JS.div (ofNat c) (ofNat total)) (JS.of_Z 100)))
      counts.

Definition getPaymentMethodStats (reportData : option ReportData)
  : list (Stat (option SalePayment)) :=
  match reportData with
  | None => []
  | Some r =>
      stats (List.length (sales r))
            (tally samePayment Sale.paymentMethod (sales r))
  end.

Definition getStatusStats (reportData : option ReportData)
  : list (Stat (option SaleStatus)) :=
  match reportData with
  | None => []
  | Some r =>
      stats (List.length (sales r))
            (tally sameStatus Sale.status (sales r))
  end.

End SalesReport.

(** Notions used to state what the report counts. *)
Module SalesStats.

(** The count a table holds for [k], 0 when [k] is not in it. *)
Fixpoint countFor {K : Type} (same : K -> K -> bool) (k : K)
         (counts : list (K * nat)) : nat :=
  match counts with
  | [] => O
  | (k', c) :: r => if same k' k then c else countFor same k r
  end.

(** How many elements of [xs] have the key [k]. *)
Definition occurrences {A K : Type} (same : K -> K -> bool) (keyOf : A -> K)
           (k : K) (xs : list A) : nat :=
  List.length (List.filter (fun x => same (keyOf x) k) xs).

(** The sales a report lists; none while no report is loaded. *)
Definition reportSales (reportData : option SalesReport.ReportData)
  : list Sale.t :=
  match reportData with
  | Some r => SalesReport.sales r
  | None => []
  end.

End SalesStats.

(** ** More sample data *)

Module Sample.
Import JS.

Definition lineA1 : SaleItem.t :=
  SaleItem.mk (RefId "a") (of_Z 2) (parseFloat "10.00").

Definition lineA2 : SaleItem.t :=
  SaleItem.mk (RefId "b") (of_Z 1) (parseFloat "5.00").

Definition lineC : PurchaseItem.t :=
  PurchaseItem.mk (RefId "w1") (Some (of_Z 10)) None None
                  (parseFloat "2.50") (parseFloat "25").

(** The catalogue as the server returns it: [flour] is out of stock. *)
Definition catalogue : list Item.t := [Scenario.widget; Scenario.flour].

(** An item sold by the metre, with half a metre left. *)
Definition ribbon : Item.t :=
  Item.mk (Some "r1") "Ribbon" "R-1" "craft" (parseFloat "0.5")
          (parseFloat "3.00") None None None None (Some TrackQuantity)
          None None None.

(** The purchase screen with [widget] selected, 4 units at 2.50 typed. *)
Definition purchaseTyped : EditPurchase.State :=
  EditPurchase.setCostPerUnit
    (EditPurchase.setQuantity
       (EditPurchase.setSelectedItem EditPurchase.initialState
                                     (Some Scenario.widget))
       "4")
    "2.50".

(** The item form with [tag] typed in the tag box. *)
Definition tagTyped (tags : list string) (tag : string)
  : NewInventoryItem.State :=
  NewInventoryItem.setCurrentTag
    (NewInventoryItem.setFormData NewInventoryItem.initialState
       (NewInventoryItem.withTags NewInventoryItem.initialFormData
                                  (Some tags)))
    tag.

(** The item form with its three required texts typed. *)
Definition itemNamed : Item.t :=
  NewInventoryItem.handleChange NewInventoryItem.Fname "Widget"
    (NewInventoryItem.handleChange NewInventoryItem.Fsku "W-1"
       (NewInventoryItem.handleChange NewInventoryItem.Fcategory "parts"
          NewInventoryItem.initialFormData)).

End Sample.

(** * Facts about the number model *)

Section NumFacts.
Import JS.
Local Open Scope Qc_scope.

Lemma qzero_eq (q : Qc) : qzero q = true -> q = 0.
Proof.
  unfold qzero. destruct (q ?= 0) eqn:E; try discriminate.
  intros _. now apply Qceq_alt.
Qed.

Lemma qzero_0 : qzero 0 = true.
Proof. reflexivity. Qed.

Lemma Fin_zero (q : Qc) : qzero q = true -> Fin q = zero.
Proof. intros H. apply qzero_eq in H. now subst q. Qed.

Lemma orZero_number (x : num) : isNumber x -> orZero x = x.
Proof.
  unfold isNumber, orZero. destruct x as [|a|q]; simpl; try easy.
  intros _. destruct (qzero q) eqn:E; simpl; [|reflexivity].
  symmetry. now apply Fin_zero.
Qed.

Lemma orZero_isNumber (x : num) : isNumber (orZero x).
Proof.
  unfold isNumber, orZero. destruct x as [|a|q]; simpl; try reflexivity.
  now destruct (qzero q).
Qed.

Lemma orZero_NaN : orZero NaN = zero.
Proof. reflexivity. Qed.

Lemma optOrZero_isNumber (x : option num) : isNumber (optOrZero x).
Proof. destruct x; [apply orZero_isNumber | reflexivity]. Qed.

(** The fold of the screens adds the line totals from left to right. *)
Lemma fold_left_add_map {A : Type} (f : A -> num) (xs : list A) (acc : num) :
  fold_left (fun sum item => add sum (f item)) xs acc
  = fold_left add (map f xs) acc.
Proof.
  revert acc. induction xs as [|x r IH]; intros acc; [reflexivity|].
  cbn [fold_left map]. apply IH.
Qed.

Lemma leftSum_snoc (xs : list num) (x : num) :
  leftSum (xs ++ [x]) = add (leftSum xs) x.
Proof. unfold leftSum. now rewrite fold_left_app. Qed.

End NumFacts.

Lemma num_eqb_eq (x y : JS.num) : num_eqb x y = true <-> x = y.
Proof.
  destruct x as [|a|p], y as [|b|q]; simpl; split; intros H;
    try reflexivity; try discriminate.
  - f_equal. now apply eqb_prop.
  - injection H as ->. apply eqb_reflx.
  - f_equal. apply Qc_is_canon. now apply Qeq_bool_iff.
  - injection H as ->. apply Qeq_bool_iff. reflexivity.
Qed.

Lemma num_eqb_neq (x y : JS.num) : num_eqb x y = false -> x <> y.
Proof.
  intros H E. apply num_eqb_eq in E. congruence.
Qed.

Lemma opt_num_eqb_eq (x y : option JS.num) : opt_num_eqb x y = true -> x = y.
Proof.
  destruct x as [a|], y as [b|]; simpl; try discriminate; try reflexivity.
  intros H. f_equal. now apply num_eqb_eq.
Qed.

Lemma opt_num_eqb_neq (x y : option JS.num) :
  opt_num_eqb x y = false -> x <> y.
Proof.
  destruct x as [a|], y as [b|]; simpl; try discriminate.
  intros H E. injection E as E. now apply num_eqb_neq in H.
Qed.

(** Closed equations between amounts are settled by evaluation. *)
Ltac by_evaluation :=
  cbv zeta;
  repeat match goal with |- _ /\ _ => split end;
  first [ reflexivity
        | apply opt_num_eqb_eq; vm_compute; reflexivity
        | apply opt_num_eqb_neq; vm_compute; reflexivity
        | apply num_eqb_eq; vm_compute; reflexivity
        | apply num_eqb_neq; vm_compute; reflexivity ].

(** * The totals of a sale and of a purchase *)

Section Totals.
Import JS.

Lemma sale_recalc_nonempty (f : Sale.t) (its : list SaleItem.t) :
  Sale.items f = Some its -> its <> [] ->
  NewSale.recalcTotals f =
  let s := leftSum (map NewSale.lineTotal its) in
  let t := mul s (div (optOrZero (Sale.taxRate f)) (of_Z 100)) in
  let total := sub (add s t) (optOrZero (Sale.discountAmount f)) in
  Sale.withTotals f s t (if ltb total zero then zero else total).
Proof.
  intros Hits Hne. unfold NewSale.recalcTotals. rewrite Hits.
  destruct its as [|i r]; [congruence|].
  rewrite fold_left_add_map. reflexivity.
Qed.

Lemma purchase_recalc_nonempty (f : Purchase.t) (its : list PurchaseItem.t) :
  Purchase.items f = Some its -> its <> [] ->
  EditPurchase.recalcTotals f =
  let s := leftSum (map PurchaseItem.totalCost its) in
  let t := mul s (div (optOrZero (Purchase.taxRate f)) (of_Z 100)) in
  Purchase.withTotals f s t
    (add (add s t) (optOrZero (Purchase.shippingCost f))).
Proof.
  intros Hits Hne. unfold EditPurchase.recalcTotals. rewrite Hits.
  destruct its as [|i r]; [congruence|].
  rewrite fold_left_add_map. reflexivity.
Qed.


(** C4.  Recomputing over an empty (or absent) line-item sequence gives
    subtotal, tax and total 0, whatever the tax rate, discount or
    shipping cost, for the sale and for the purchase. *)
Theorem recompute_empty :
  (forall f : Sale.t,
      NewSale.itemsOrEmpty f = [] ->
      Sale.subtotal (NewSale.recalcTotals f) = Some zero /\
      Sale.taxAmount (NewSale.recalcTotals f) = Some zero /\
      Sale.total (NewSale.recalcTotals f) = Some zero)
  /\
  (forall f : Purchase.t,
      EditPurchase.itemsOrEmpty f = [] ->
      Purchase.subtotal (EditPurchase.recalcTotals f) = Some zero /\
      Purchase.taxAmount (EditPurchase.recalcTotals f) = Some zero /\
      Purchase.total (EditPurchase.recalcTotals f) = Some zero).
Proof.
  split; intros f.
  - unfold NewSale.itemsOrEmpty, NewSale.recalcTotals.
    destruct (Sale.items f) as [[|i r]|]; intros H;
      [| discriminate H |]; repeat split; reflexivity.
  - unfold EditPurchase.itemsOrEmpty, EditPurchase.recalcTotals.
    destruct (Purchase.items f) as [[|i r]|]; intros H;
      [| discriminate H |]; repeat split; reflexivity.
Qed.

Lemma sale_recalc_shape (f : Sale.t) :
  exists s t tot, NewSale.recalcTotals f = Sale.withTotals f s t tot.
Proof.
  unfold NewSale.recalcTotals.
  destruct (Sale.items f) as [[|i r]|]; do 3 eexists; reflexivity.
Qed.

Lemma purchase_recalc_shape (f : Purchase.t) :
  exists s t tot, EditPurchase.recalcTotals f = Purchase.withTotals f s t tot.
Proof.
  unfold EditPurchase.recalcTotals.
  destruct (Purchase.items f) as [[|i r]|]; do 3 eexists; reflexivity.
Qed.

(** Recomputing twice is recomputing once. *)
Lemma sale_recalc_idempotent (f : Sale.t) :
  NewSale.recalcTotals (NewSale.recalcTotals f) = NewSale.recalcTotals f.
Proof.
  destruct f as [i cn ce cp its s tr ta da to pm no stt ca ua].
  destruct its as [[|x r]|]; reflexivity.
Qed.

Lemma purchase_recalc_idempotent (f : Purchase.t) :
  EditPurchase.recalcTotals (EditPurchase.recalcTotals f)
  = EditPurchase.recalcTotals f.
Proof.
  destruct f as [i su its inv pd s tr ta sc to no pm stt ca ua].
  destruct its as [[|x r]|]; reflexivity.
Qed.

(** C10.  A recomputation rewrites the form with new subtotal, tax and
    total and nothing else: the line items, the tax rate, the discount or
    shipping cost, the customer or supplier fields, the payment method,
    the status, the notes and every other property keep their values, for
    the sale and for the purchase. *)
Theorem recompute_frame :
  (forall f : Sale.t,
      let f' := NewSale.recalcTotals f in
      (exists s t tot, f' = Sale.withTotals f s t tot) /\
      Sale._id f' = Sale._id f /\
      Sale.customerName f' = Sale.customerName f /\
      Sale.customerEmail f' = Sale.customerEmail f /\
      Sale.customerPhone f' = Sale.customerPhone f /\
      Sale.items f' = Sale.items f /\
      Sale.taxRate f' = Sale.taxRate f /\
      Sale.discountAmount f' = Sale.discountAmount f /\
      Sale.paymentMethod f' = Sale.paymentMethod f /\
      Sale.notes f' = Sale.notes f /\
      Sale.status f' = Sale.status f /\
      Sale.createdAt f' = Sale.createdAt f /\
      Sale.updatedAt f' = Sale.updatedAt f)
  /\
  (forall f : Purchase.t,
      let f' := EditPurchase.recalcTotals f in
      (exists s t tot, f' = Purchase.withTotals f s t tot) /\
      Purchase._id f' = Purchase._id f /\
      Purchase.supplier f' = Purchase.supplier f /\
      Purchase.items f' = Purchase.items f /\
      Purchase.invoiceNumber f' = Purchase.invoiceNumber f /\
      Purchase.purchaseDate f' = Purchase.purchaseDate f /\
      Purchase.taxRate f' = Purchase.taxRate f /\
      Purchase.shippingCost f' = Purchase.shippingCost f /\
      Purchase.notes f' = Purchase.notes f /\
      Purchase.paymentMethod f' = Purchase.paymentMethod f /\
      Purchase.status f' = Purchase.status f /\
      Purchase.createdAt f' = Purchase.createdAt f /\
      Purchase.updatedAt f' = Purchase.updatedAt f).
Proof.
  split; intros f f'; subst f'.
  - destruct (sale_recalc_shape f) as (s & t & tot & E). rewrite E.
    split; [now exists s, t, tot | repeat split; reflexivity].
  - destruct (purchase_recalc_shape f) as (s & t & tot & E). rewrite E.
    split; [now exists s, t, tot | repeat split; reflexivity].
Qed.

Lemma zero_Fin : zero = Fin 0%Qc.
Proof. reflexivity. Qed.

(** The conditional of the sale screen is the clamp [max(0, t)]. *)
Lemma clamp_is_max (t : num) :
  (if ltb t zero then zero else t) = max zero t.
Proof.
  destruct t as [|a|q]; try reflexivity.
  - destruct a; reflexivity.
  - rewrite zero_Fin. unfold max, ltb.
    destruct (Qc_dec q 0) as [[H|H]|H].
    + rewrite (proj1 (Qclt_alt q 0) H), (proj1 (Qcgt_alt 0 q) H).
      reflexivity.
    + rewrite (proj1 (Qcgt_alt q 0) H), (proj1 (Qclt_alt 0 q) H).
      reflexivity.
    + subst q. reflexivity.
Qed.

Lemma clamp_not_negative (t : num) :
  ltb (if ltb t zero then zero else t) zero = false.
Proof.
  destruct (ltb t zero) eqn:E; [reflexivity | exact E].
Qed.

Lemma max_zero_minus (d : num) :
  leb zero d = true -> max zero (sub (add zero zero) d) = zero.
Proof.
  destruct d as [|a|q]; try discriminate.
  - destruct a; [discriminate | reflexivity].
  - rewrite zero_Fin. unfold leb, ltb. intros H.
    cbn [sub add JS.neg max ltb].
    destruct (0 ?= 0 + 0 + - q)%Qc eqn:E; try reflexivity.
    apply Qclt_alt in E.
    destruct (q ?= 0)%Qc eqn:E'; try discriminate.
    + apply Qceq_alt in E'. subst q. discriminate E.
    + apply Qcgt_alt in E'. exfalso.
      unfold Qclt, Qcplus, Qcopp, Q2Qc in *; cbn [this] in *.
      rewrite !Qred_correct in E. rewrite Qred_correct in E'.
      lra.
Qed.

(** C1 (as stated, it fails).  Clearing the list of a sale that carries a
    negative discount: the recomputation short-circuits to total 0, while
    [max(0, subtotal + taxAmount - discountAmount)] is 5. *)
Lemma sale_total_formula_fails_on_empty_sale :
  let f := NewSale.handleTextChange NewSale.FdiscountAmount "-5"
                                    NewSale.initialFormData in
  let f' := NewSale.recalcTotals f in
  Sale.items f' = Some [] /\
  Sale.discountAmount f' = Some (of_Z (-5)) /\
  Sale.subtotal f' = Some zero /\
  Sale.taxAmount f' = Some zero /\
  Sale.total f' = Some zero /\
  max zero (sub (add zero zero) (of_Z (-5))) = of_Z 5 /\
  Sale.total f' <> Some (max zero (sub (add zero zero) (of_Z (-5)))).
Proof.
  cbv zeta.
  split; [reflexivity|].
  split; [cbn; f_equal; now apply num_eqb_eq|].
  do 3 (split; [reflexivity|]).
  split; [now apply num_eqb_eq|].
  change (Some zero <> Some (max zero (sub (add zero zero) (of_Z (-5))))).
  intros H.
  assert (E : zero = max zero (sub (add zero zero) (of_Z (-5))))
    by congruence.
  apply num_eqb_eq in E. discriminate E.
Qed.

(** C1 (amended).  After every recomputation the sale total is not
    negative; and whenever the line-item sequence is non-empty, or the
    discount is not negative, the total is
    [max(0, subtotal + taxAmount - discountAmount)]. *)
Theorem sale_total_clamped :
  (forall f : Sale.t,
      exists tot, Sale.total (NewSale.recalcTotals f) = Some tot /\
                  ltb tot zero = false)
  /\
  (forall (f : Sale.t) (d : num),
      Sale.discountAmount f = Some d -> isNumber d ->
      NewSale.itemsOrEmpty f <> [] \/ leb zero d = true ->
      exists s t,
        Sale.subtotal (NewSale.recalcTotals f) = Some s /\
        Sale.taxAmount (NewSale.recalcTotals f) = Some t /\
        Sale.total (NewSale.recalcTotals f)
        = Some (max zero (sub (add s t) d))).
Proof.
  split.
  - intros f. unfold NewSale.recalcTotals.
    destruct (Sale.items f) as [[|i r]|];
      (eexists; split; [reflexivity|]);
      solve [reflexivity | apply clamp_not_negative].
  - intros f d Hd Hnum Hcase.
    destruct (Sale.items f) as [[|i r]|] eqn:Hits.
    + assert (Hle : leb zero d = true).
      { destruct Hcase as [H|H]; [|exact H].
        unfold NewSale.itemsOrEmpty in H. rewrite Hits in H. now elim H. }
      unfold NewSale.recalcTotals. rewrite Hits.
      exists zero, zero. repeat split.
      cbn [Sale.total Sale.withTotals]. now rewrite max_zero_minus.
    + rewrite (sale_recalc_nonempty f (i :: r) Hits) by discriminate.
      cbv zeta. do 2 eexists. repeat split.
      cbn [Sale.total Sale.withTotals]. rewrite Hd. cbn [optOrZero].
      rewrite (orZero_number d Hnum). f_equal. apply clamp_is_max.
    + assert (Hle : leb zero d = true).
      { destruct Hcase as [H|H]; [|exact H].
        unfold NewSale.itemsOrEmpty in H. rewrite Hits in H. now elim H. }
      unfold NewSale.recalcTotals. rewrite Hits.
      exists zero, zero. repeat split.
      cbn [Sale.total Sale.withTotals]. now rewrite max_zero_minus.
Qed.

(** C3 (as stated, it fails).  A purchase with no line item and a
    shipping cost of 12: the recomputation short-circuits to total 0,
    while [subtotal + taxAmount + shippingCost] is 12. *)
Lemma purchase_total_formula_fails_on_empty_purchase :
  let f := EditPurchase.handleTextChange EditPurchase.FshippingCost "12"
                                         EditPurchase.initialFormData in
  let f' := EditPurchase.recalcTotals f in
  Purchase.items f' = Some [] /\
  Purchase.shippingCost f' = Some (of_Z 12) /\
  leb zero (of_Z 12) = true /\
  Purchase.subtotal f' = Some zero /\
  Purchase.taxAmount f' = Some zero /\
  Purchase.total f' = Some zero /\
  add (add zero zero) (of_Z 12) = of_Z 12 /\
  Purchase.total f' <> Some (add (add zero zero) (of_Z 12)).
Proof.
  cbv zeta.
  split; [reflexivity|].
  split; [cbn; f_equal; now apply num_eqb_eq|].
  do 4 (split; [reflexivity|]).
  split; [now apply num_eqb_eq|].
  change (Some zero <> Some (add (add zero zero) (of_Z 12))).
  intros H.
  assert (E : zero = add (add zero zero) (of_Z 12)) by congruence.
  apply num_eqb_eq in E. discriminate E.
Qed.

(** C3 (amended).  Over a non-empty line-item sequence the purchase total
    is exactly [subtotal + taxAmount + shippingCost]; no clamp is applied,
    whatever the sign of the result. *)
Theorem purchase_total_unclamped :
  forall (f : Purchase.t) (its : list PurchaseItem.t) (sh : num),
    Purchase.items f = Some its -> its <> [] ->
    Purchase.shippingCost f = Some sh -> isNumber sh ->
    exists s t,
      Purchase.subtotal (EditPurchase.recalcTotals f) = Some s /\
      Purchase.taxAmount (EditPurchase.recalcTotals f) = Some t /\
      Purchase.total (EditPurchase.recalcTotals f) = Some (add (add s t) sh).
Proof.
  intros f its sh Hits Hne Hsh Hnum.
  rewrite (purchase_recalc_nonempty f its Hits Hne). cbv zeta.
  do 2 eexists. repeat split.
  cbn [Purchase.total Purchase.withTotals]. rewrite Hsh. cbn [optOrZero].
  now rewrite (orZero_number sh Hnum).
Qed.

End Totals.

(** * Reading text: what [parseInt] and [parseFloat] can return *)

Section Parsing.
Import JS.

(** [parseInt] returns [NaN] or a whole number. *)
Lemma parseInt_range (s : string) :
  parseInt s = NaN \/ exists z : Z, parseInt s = of_Z z.
Proof.
  unfold parseInt.
  destruct (readSign (trimStart s)) as [sg s1].
  assert (H : forall t : Z * nat * string,
             (let '(v, n, _) := t in
              match n with
              | O => NaN
              | S _ => of_Z (if sg then - v else v)
              end) = NaN \/
             exists z : Z,
               (let '(v, n, _) := t in
                match n with
                | O => NaN
                | S _ => of_Z (if sg then - v else v)
                end) = of_Z z).
  { intros [[v n] rest]. destruct n as [|n]; [now left | right; eauto]. }
  apply H.
Qed.

Lemma compare_of_Z (a b : Z) :
  (Q2Qc (inject_Z a) ?= Q2Qc (inject_Z b))%Qc = (a ?= b)%Z.
Proof.
  unfold Qccompare, Q2Qc. cbn [this].
  rewrite <- Qred_compare. unfold Qcompare, inject_Z. cbn [Qnum Qden].
  now rewrite !Z.mul_1_r.
Qed.

Lemma of_Z_inj (a b : Z) : of_Z a = of_Z b -> a = b.
Proof.
  unfold of_Z. intros H.
  assert (E : Q2Qc (inject_Z a) = Q2Qc (inject_Z b)) by congruence.
  apply Q2Qc_eq_iff in E. unfold Qeq, inject_Z in E. cbn in E. lia.
Qed.

Lemma ltb_of_Z (a b : Z) : ltb (of_Z a) (of_Z b) = (a <? b)%Z.
Proof.
  unfold ltb, of_Z. rewrite compare_of_Z. unfold Z.ltb.
  now destruct (a ?= b)%Z.
Qed.

Lemma leb_of_Z (a b : Z) : leb (of_Z a) (of_Z b) = (a <=? b)%Z.
Proof.
  unfold leb. change (negb (ltb (of_Z b) (of_Z a)) = (a <=? b)%Z).
  rewrite ltb_of_Z. rewrite Z.leb_antisym. reflexivity.
Qed.

Lemma positiveInteger_of_Z (z : Z) : positiveInteger (of_Z z) <-> (0 < z)%Z.
Proof.
  split.
  - intros (z' & Hpos & E). apply of_Z_inj in E. now subst.
  - intros H. now exists z.
Qed.

Lemma positiveInteger_NaN : ~ positiveInteger NaN.
Proof. intros (z & _ & E). discriminate E. Qed.

(** The guard of the sale screen, [isNaN(q) || q <= 0], fails exactly on
    the positive whole numbers among the results of [parseInt]. *)
Lemma quantity_guard (s : string) :
  isNaN (parseInt s) || leb (parseInt s) zero = false
  <-> positiveInteger (parseInt s).
Proof.
  destruct (parseInt_range s) as [E | [z E]]; rewrite E.
  - split; [discriminate | intros H; now apply positiveInteger_NaN in H].
  - rewrite positiveInteger_of_Z. unfold zero. rewrite leb_of_Z.
    cbn [isNaN of_Z orb]. rewrite Z.leb_gt. reflexivity.
Qed.

(** The empty text and text with no leading number do not parse. *)
Lemma parseFloat_empty : parseFloat EmptyString = NaN.
Proof. reflexivity. Qed.

Lemma parseFloat_abc : parseFloat "abc" = NaN.
Proof. reflexivity. Qed.

Lemma parseInt_empty : parseInt EmptyString = NaN.
Proof. reflexivity. Qed.

End Parsing.

(** * Printing a number and reading it back *)

Section ReadBack.
Import JS.
Local Open Scope Z_scope.

Lemma digit_cases (k : Z) :
  0 <= k <= 9 ->
  k = 0 \/ k = 1 \/ k = 2 \/ k = 3 \/ k = 4 \/ k = 5 \/ k = 6 \/ k = 7 \/
  k = 8 \/ k = 9.
Proof. lia. Qed.

Lemma digitVal_digitChar (k : Z) :
  0 <= k <= 9 -> digitVal (digitChar k) = Some k.
Proof.
  intros H. apply digit_cases in H.
  repeat (destruct H as [-> | H]; [reflexivity|]). subst k. reflexivity.
Qed.

(** A digit is no white space, no sign, and does not start [Infinity]. *)
Lemma digitChar_plain (k : Z) (r : string) :
  0 <= k <= 9 ->
  trimStart (String (digitChar k) r) = String (digitChar k) r /\
  readSign (String (digitChar k) r) = (false, String (digitChar k) r) /\
  String.prefix "Infinity" (String (digitChar k) r) = false.
Proof.
  intros H. apply digit_cases in H.
  repeat (destruct H as [-> | H]; [repeat split|]). subst k. repeat split.
Qed.

Lemma append_assoc (a b c : string) :
  ((a ++ b) ++ c = a ++ (b ++ c))%string.
Proof. induction a as [|x a IH]; cbn; [reflexivity | now rewrite IH]. Qed.

Lemma natDigits_suffix (fuel : nat) (n : Z) (acc : string) :
  natDigits fuel n acc = (natDigits fuel n EmptyString ++ acc)%string.
Proof.
  revert n acc. induction fuel as [|f IH]; intros n acc; [reflexivity|].
  cbn [natDigits]. destruct (n / 10 =? 0); [reflexivity|].
  rewrite IH. rewrite (IH _ (String _ EmptyString)).
  now rewrite append_assoc.
Qed.

Lemma mod10_digit (n : Z) : 0 <= n mod 10 <= 9.
Proof. pose proof (Z.mod_pos_bound n 10). lia. Qed.

Lemma natDigits_head (f : nat) (n : Z) (acc : string) :
  0 <= n ->
  exists k r, 0 <= k <= 9 /\ natDigits (S f) n acc = String (digitChar k) r.
Proof.
  revert n acc. induction f as [|f IH]; intros n acc Hn.
  - cbn [natDigits]. exists (n mod 10). 
    destruct (n / 10 =? 0); eexists; (split; [apply mod10_digit | reflexivity]).
  - remember (S f) as f1. cbn [natDigits]. subst f1.
    destruct (n / 10 =? 0).
    + exists (n mod 10). eexists; (split; [apply mod10_digit | reflexivity]).
    + apply IH. apply Z.div_pos; lia.
Qed.

Lemma readDigits_natDigits (f : nat) (n : Z) (suffix : string) (acc : Z) (cnt : nat) :
  0 <= n < 10 ^ Z.of_nat (S f) ->
  exists len : nat,
    readDigits digitVal 10 (natDigits (S f) n suffix) acc cnt
    = readDigits digitVal 10 suffix (acc * 10 ^ Z.of_nat (S len) + n) (cnt + S len).
Proof.
  revert n suffix. induction f as [|f IH]; intros n suffix Hn.
  - exists O. cbn [natDigits].
    change (10 ^ Z.of_nat 1) with 10 in Hn.
    rewrite (Z.div_small n 10 Hn). cbn [Z.eqb readDigits].
    rewrite digitVal_digitChar by apply mod10_digit.
    rewrite (Z.mod_small n 10 Hn).
    change (10 ^ Z.of_nat 1) with 10.
    f_equal; [f_equal; lia | lia].
  - remember (S f) as f1. cbn [natDigits].
    destruct (n / 10 =? 0) eqn:E.
    + exists O. apply Z.eqb_eq in E.
      cbn [readDigits].
      rewrite digitVal_digitChar by apply mod10_digit.
      assert (n mod 10 = n) as ->.
      { pose proof (Z.div_mod n 10 ltac:(lia)). lia. }
      change (10 ^ Z.of_nat 1) with 10.
      f_equal; [f_equal; lia | lia].
    + subst f1.
      destruct (IH (n / 10) (String (digitChar (n mod 10)) suffix)) as [len Hlen].
      { split; [apply Z.div_pos; lia|].
        apply Z.div_lt_upper_bound; [lia|].
        rewrite (Nat2Z.inj_succ (S f)) in Hn. rewrite Z.pow_succ_r in Hn by lia.
        lia. }
      exists (S len). rewrite Hlen. cbn [readDigits].
      rewrite digitVal_digitChar by apply mod10_digit.
      f_equal.
      * rewrite (Nat2Z.inj_succ (S len)). rewrite (Z.pow_succ_r _ (Z.of_nat (S len))) by lia.
        pose proof (Z.div_mod n 10 ltac:(lia)). lia.
      * lia.
Qed.

Lemma intToString_fuel (n : Z) :
  0 <= n -> n < 10 ^ Z.of_nat (S (Z.to_nat (Z.log2 n))).
Proof.
  intros Hn. rewrite Nat2Z.inj_succ, Z2Nat.id by apply Z.log2_nonneg.
  destruct (Z.eq_dec n 0) as [->|Hne]; [reflexivity|].
  destruct (Z.log2_spec n ltac:(lia)) as [_ Hlt].
  eapply Z.lt_le_trans; [exact Hlt|].
  apply Z.pow_le_mono_l. lia.
Qed.

Lemma readDigits_fracDigits (fuel : nat) (r d acc : Z) (cnt : nat) :
  0 <= r < d -> (d | r * 10 ^ Z.of_nat fuel) ->
  exists (nf : nat) (v : Z),
    readDigits digitVal 10 (fracDigits fuel r d) acc cnt
    = (acc * 10 ^ Z.of_nat nf + v, (cnt + nf)%nat, EmptyString) /\
    v * d = r * 10 ^ Z.of_nat nf /\
    (fracDigits fuel r d = EmptyString -> r = 0).
Proof.
  revert r acc cnt. induction fuel as [|f IH]; intros r acc cnt Hr Hdiv.
  - exists O, 0. cbn [fracDigits readDigits].
    assert (r = 0) as ->.
    { change (10 ^ Z.of_nat 0) with 1 in Hdiv. rewrite Z.mul_1_r in Hdiv.
      apply Z.mod_divide in Hdiv; [|lia].
      now rewrite Z.mod_small in Hdiv. }
    change (10 ^ Z.of_nat 0) with 1.
    split; [|split; [lia | reflexivity]].
    replace (acc * 1 + 0) with acc by lia.
    now replace (cnt + 0)%nat with cnt by lia.
  - cbn [fracDigits]. destruct (r =? 0) eqn:E.
    + apply Z.eqb_eq in E. subst r. exists O, 0. cbn [readDigits].
      change (10 ^ Z.of_nat 0) with 1.
      split; [|split; [lia | reflexivity]].
    replace (acc * 1 + 0) with acc by lia.
    now replace (cnt + 0)%nat with cnt by lia.
    + apply Z.eqb_neq in E.
      assert (Hk : 0 <= 10 * r / d <= 9).
      { split; [apply Z.div_pos; lia|].
        assert (10 * r / d < 10); [|lia].
        apply Z.div_lt_upper_bound; lia. }
      assert (Hr' : 0 <= (10 * r) mod d < d) by (apply Z.mod_pos_bound; lia).
      assert (Hdiv' : (d | (10 * r) mod d * 10 ^ Z.of_nat f)).
      { rewrite Nat2Z.inj_succ, Z.pow_succ_r in Hdiv by lia.
        rewrite Z.mod_eq by lia.
        replace ((10 * r - d * (10 * r / d)) * 10 ^ Z.of_nat f)
          with (r * (10 * 10 ^ Z.of_nat f)
                - d * ((10 * r / d) * 10 ^ Z.of_nat f)) by ring.
        apply Z.divide_sub_r; [exact Hdiv|]. apply Z.divide_factor_l. }
      destruct (IH ((10 * r) mod d) (10 * acc + 10 * r / d) (S cnt) Hr' Hdiv')
        as (nf & v & Hread & Hv & _).
      exists (S nf), (10 * r / d * 10 ^ Z.of_nat nf + v).
      cbn [readDigits]. rewrite digitVal_digitChar by exact Hk.
      rewrite Hread. rewrite Nat2Z.inj_succ, Z.pow_succ_r by lia.
      split; [|split; [|discriminate]].
      { replace (S cnt + nf)%nat with (cnt + S nf)%nat by lia.
        f_equal. f_equal. ring. }
      pose proof (Z.div_mod (10 * r) d ltac:(lia)) as Hdm.
      replace ((10 * r / d * 10 ^ Z.of_nat nf + v) * d)
        with (d * (10 * r / d) * 10 ^ Z.of_nat nf + v * d) by ring.
      rewrite Hv. 
      replace (r * (10 * 10 ^ Z.of_nat nf)) with ((10 * r) * 10 ^ Z.of_nat nf) by ring.
      rewrite Hdm at 3. ring.
Qed.

(** A number that neither 2 nor 5 divides has no factor in common
    with 10. *)
Lemma gcd_10 (d : Z) : ~ (2 | d) -> ~ (5 | d) -> Z.gcd d 10 = 1.
Proof.
  intros H2 H5.
  pose proof (Z.gcd_divide_l d 10) as Hl.
  pose proof (Z.gcd_divide_r d 10) as Hr.
  pose proof (Z.gcd_nonneg d 10) as Hn.
  assert (Hle : Z.gcd d 10 <= 10) by (apply Z.divide_pos_le; [lia | exact Hr]).
  remember (Z.gcd d 10) as g eqn:Hg. clear Hg.
  destruct Hr as [c Hc].
  assert (Hcases : g = 1 \/ g = 2 \/ g = 5 \/ g = 10 \/
                   (g <> 1 /\ g <> 2 /\ g <> 5 /\ g <> 10)) by lia.
  destruct Hcases as [E|[E|[E|[E|E]]]]; subst; try lia.
  - contradiction.
  - contradiction.
  - exfalso. apply H2. apply Z.divide_trans with 10; [now exists 5 | exact Hl].
  - exfalso.
    assert (g = 0 \/ g = 3 \/ g = 4 \/ g = 6 \/ g = 7 \/ g = 8 \/ g = 9)
      as Hc' by lia.
    repeat (destruct Hc' as [->|Hc']; [lia|]). subst g. lia.
Qed.

Lemma coprime_10_pow (d : Z) (k : nat) :
  Z.gcd d 10 = 1 -> (d | 10 ^ Z.of_nat k) -> (d | 1).
Proof.
  intros Hg. induction k as [|k IH]; intros Hk; [exact Hk|].
  apply IH. rewrite Nat2Z.inj_succ, Z.pow_succ_r in Hk by lia.
  apply Z.gauss with 10; assumption.
Qed.

Lemma divide_dec (a d : Z) : 0 < a -> (a | d) \/ ~ (a | d).
Proof.
  intros Ha. destruct (Z.eq_dec (d mod a) 0) as [E|E].
  - left. apply Z.mod_divide; [lia | exact E].
  - right. intros H. apply E. apply Z.mod_divide; [lia | exact H].
Qed.

(** A denominator that divides a power of ten divides the power of ten
    counted by its binary length. *)
Lemma decimal_bound (n : nat) (d : Z) :
  1 <= d < 2 ^ Z.of_nat n -> (exists k : nat, (d | 10 ^ Z.of_nat k)) ->
  (d | 10 ^ Z.of_nat n).
Proof.
  revert d. induction n as [|n IH]; intros d Hd [k Hk].
  - change (2 ^ Z.of_nat 0) with 1 in Hd. lia.
  - rewrite Nat2Z.inj_succ, Z.pow_succ_r in * by lia.
    destruct (divide_dec 2 d ltac:(lia)) as [[c Hc]|H2].
    + subst d.
      assert (Hc' : (c | 10 ^ Z.of_nat n)).
      { apply IH; [lia|]. exists k.
        apply Z.divide_trans with (c * 2);
          [apply Z.divide_factor_l | exact Hk]. }
      destruct Hc' as [e He]. exists (5 * e). rewrite He. ring.
    + destruct (divide_dec 5 d ltac:(lia)) as [[c Hc]|H5].
      * subst d.
        assert (Hc' : (c | 10 ^ Z.of_nat n)).
        { apply IH; [lia|]. exists k.
          apply Z.divide_trans with (c * 5);
            [apply Z.divide_factor_l | exact Hk]. }
        destruct Hc' as [e He]. exists (2 * e). rewrite He. ring.
      * assert (H1 : (d | 1)).
        { apply coprime_10_pow with k; [now apply gcd_10 | exact Hk]. }
        apply Z.divide_1_r_nonneg in H1; [|lia]. subst d.
        apply Z.divide_1_l.
Qed.

Lemma append_empty (a : string) : (a ++ EmptyString)%string = a.
Proof. induction a as [|x a IH]; cbn; [reflexivity | now rewrite IH]. Qed.

(** The value read back from the printed digits. *)
Lemma scale10_value (q : Qc) (fpv : Z) (nf : nat) :
  fpv * Zpos (Qden q) = Z.abs (Qnum q) * 10 ^ Z.of_nat nf ->
  scale10 (if Qnum q <? 0 then - fpv else fpv) (0 - Z.of_nat nf) = q.
Proof.
  intros H. apply Qc_is_canon.
  set (m := if Qnum q <? 0 then - fpv else fpv).
  assert (Hm : m * Zpos (Qden q) = Qnum q * 10 ^ Z.of_nat nf).
  { subst m. destruct (Qnum q <? 0) eqn:E.
    - apply Z.ltb_lt in E. rewrite Z.abs_neq in H by lia. lia.
    - apply Z.ltb_ge in E. rewrite Z.abs_eq in H by lia. lia. }
  unfold scale10. destruct nf as [|nf].
  - change (0 - Z.of_nat 0) with 0. cbn [Z.leb Z.compare].
    unfold Q2Qc. cbn [this]. rewrite Qred_correct.
    unfold Qeq, inject_Z. cbn [Qnum Qden].
    change (10 ^ Z.of_nat 0) with 1 in Hm. change (10 ^ 0) with 1. lia.
  - assert (Hneg : (0 <=? 0 - Z.of_nat (S nf)) = false)
      by (apply Z.leb_gt; lia).
    rewrite Hneg. unfold Q2Qc. cbn [this]. rewrite Qred_correct.
    unfold Qeq. cbn [Qnum Qden].
    replace (- (0 - Z.of_nat (S nf))) with (Z.of_nat (S nf)) by lia.
    rewrite Z2Pos.id by (apply Z.pow_pos_nonneg; lia).
    exact Hm.
Qed.

Lemma readDigits_stop (s : string) (acc : Z) (cnt : nat) :
  s = EmptyString \/ (exists r, s = String "."%char r) ->
  readDigits digitVal 10 s acc cnt = (acc, cnt, s).
Proof. intros [-> | [r ->]]; reflexivity. Qed.

(** Reading back what was printed gives the number printed. *)
Theorem parseFloat_toString (x : num) :
  isDecimal x -> parseFloat (toString x) = x.
Proof.
  destruct x as [|[|]|q]; try reflexivity. intros Hdec.
  cbn [isDecimal] in Hdec. cbn [toString].
  set (n := Qnum q). set (d := Zpos (Qden q)). set (a := Z.abs n).
  set (fuel := S (Z.to_nat (Z.log2 d))).
  assert (Hd : 0 < d) by (subst d; lia).
  assert (Ha : 0 <= a) by (subst a; lia).
  assert (Hip : 0 <= a / d) by (apply Z.div_pos; lia).
  assert (Hr : 0 <= a mod d < d) by (apply Z.mod_pos_bound; lia).
  assert (Hdiv : (d | a mod d * 10 ^ Z.of_nat fuel)).
  { apply Z.divide_mul_r. apply decimal_bound; [|exact Hdec].
    subst fuel. rewrite Nat2Z.inj_succ, Z2Nat.id by apply Z.log2_nonneg.
    destruct (Z.log2_spec d Hd) as [_ Hlt]. lia. }
  destruct (readDigits_fracDigits fuel (a mod d) d (a / d) 0 Hr Hdiv)
    as (nf & v & Hfrac & Hv & Hempty).
  set (fp := fracDigits fuel (a mod d) d) in *. clearbody fp.
  set (tail := match fp with
               | EmptyString => EmptyString
               | _ => ("." ++ fp)%string
               end).
  assert (Hbody : match fp with
                  | EmptyString => intToString (a / d)
                  | String _ _ => (intToString (a / d) ++ "." ++ fp)%string
                  end
                  = natDigits (S (Z.to_nat (Z.log2 (a / d)))) (a / d) tail).
  { unfold intToString. rewrite (natDigits_suffix _ _ tail). subst tail.
    destruct fp; [now rewrite append_empty | reflexivity]. }
  rewrite Hbody.
  destruct (natDigits_head (Z.to_nat (Z.log2 (a / d))) (a / d) tail Hip)
    as (k & r & Hk & Hhead).
  destruct (digitChar_plain k r Hk) as (Htrim & Hsign & Hinf).
  destruct (readDigits_natDigits (Z.to_nat (Z.log2 (a / d))) (a / d) tail 0 0)
    as [len Hlen].
  { split; [exact Hip | now apply intToString_fuel]. }
  assert (Hint : readDigits digitVal 10
                   (natDigits (S (Z.to_nat (Z.log2 (a / d)))) (a / d) tail) 0 0
                 = (a / d, S len, tail)).
  { rewrite Hlen. rewrite readDigits_stop.
    - reflexivity.
    - subst tail. destruct fp; [now left | right; eexists; reflexivity]. }
  assert (Hparse :
    (let '(sg, s1) := (n <? 0, natDigits (S (Z.to_nat (Z.log2 (a / d))))
                                         (a / d) tail) in
     if String.prefix "Infinity" s1 then Inf sg
     else
       let '(ip, ni, s2) := readDigits digitVal 10 s1 0 0 in
       let '(fp, nf, s3) :=
         match s2 with
         | String "."%char r => readDigits digitVal 10 r ip 0
         | _ => (ip, O, s2)
         end in
       match (ni + nf)%nat with
       | O => NaN
       | S _ =>
           Fin (scale10 (if sg then - fp else fp)
                        (readExponent s3 - Z.of_nat nf))
       end) = Fin q).
  { cbv beta iota. rewrite Hhead at 1. rewrite Hinf. rewrite Hint.
    subst tail. destruct fp as [|c fp'] eqn:Efp.
    - cbn [Nat.add]. f_equal. 
      specialize (Hempty eq_refl).
      apply (scale10_value q (a / d) 0).
      change (10 ^ Z.of_nat 0) with 1. fold d. fold n. fold a.
      pose proof (Z.div_mod a d ltac:(lia)). lia.
    - cbn [append]. rewrite Hfrac. cbn [Nat.add].
      f_equal. cbn [readExponent].
      apply (scale10_value q (a / d * 10 ^ Z.of_nat nf + v) nf).
      fold d. fold n. fold a.
      pose proof (Z.div_mod a d ltac:(lia)) as Hdm.
      replace ((a / d * 10 ^ Z.of_nat nf + v) * d)
        with (d * (a / d) * 10 ^ Z.of_nat nf + v * d) by ring.
      rewrite Hv. rewrite Hdm at 3. ring. }
  unfold parseFloat. destruct (n <? 0) eqn:En.
  - cbn [append]. cbn [trimStart]. 
    change (isWhite "-") with false. cbv iota. cbn [readSign].
    exact Hparse.
  - rewrite Hhead. rewrite Htrim, Hsign. rewrite <- Hhead. exact Hparse.
Qed.

Lemma Qred_den_divide (x : Q) : (Zpos (Qden (Qred x)) | Zpos (Qden x)).
Proof.
  destruct x as [a b]. unfold Qred.
  pose proof (Z.ggcd_correct_divisors a (Zpos b)) as H.
  pose proof (Z.ggcd_gcd a (Zpos b)) as Hg.
  pose proof (Z.gcd_nonneg a (Zpos b)) as Hn.
  destruct (Z.ggcd a (Zpos b)) as [g [aa bb]]. cbn [fst snd] in *.
  destruct H as [_ Hb]. cbn [Qden].
  assert (0 < bb) by nia.
  rewrite Z2Pos.id by lia. exists g. lia.
Qed.

Lemma isDecimal_Q2Qc (x : Q) (k : nat) :
  (Zpos (Qden x) | 10 ^ Z.of_nat k) -> isDecimal (Fin (Q2Qc x)).
Proof.
  intros H. exists k. unfold Q2Qc. cbn [this].
  eapply Z.divide_trans; [apply Qred_den_divide | exact H].
Qed.

Lemma isDecimal_of_Z (z : Z) : isDecimal (of_Z z).
Proof.
  apply (isDecimal_Q2Qc (inject_Z z) 0). apply Z.divide_refl.
Qed.

Lemma isDecimal_scale10 (m e : Z) : isDecimal (Fin (scale10 m e)).
Proof.
  unfold scale10. destruct (0 <=? e) eqn:E.
  - apply (isDecimal_Q2Qc _ 0). apply Z.divide_refl.
  - apply Z.leb_gt in E. apply (isDecimal_Q2Qc _ (Z.to_nat (- e))).
    cbn [Qden]. rewrite Z2Pos.id by (apply Z.pow_pos_nonneg; lia).
    rewrite Z2Nat.id by lia. apply Z.divide_refl.
Qed.

Lemma isDecimal_parseInt (s : string) : isDecimal (parseInt s).
Proof.
  destruct (parseInt_range s) as [-> | [z ->]];
    [exact I | apply isDecimal_of_Z].
Qed.

Lemma isDecimal_parseFloat (s : string) : isDecimal (parseFloat s).
Proof.
  unfold parseFloat.
  destruct (readSign (trimStart s)) as [sg s1].
  destruct (String.prefix "Infinity" s1); [exact I|].
  destruct (readDigits digitVal 10 s1 0 0) as [[ip ni] s2].
  assert (H : forall t : Z * nat * string,
             isDecimal
               (let '(fp, nf, s3) := t in
                match (ni + nf)%nat with
                | O => NaN
                | S _ =>
                    Fin (scale10 (if sg then - fp else fp)
                                 (readExponent s3 - Z.of_nat nf))
                end)).
  { intros [[fp nf] s3]. destruct (ni + nf)%nat;
      [exact I | apply isDecimal_scale10]. }
  apply H.
Qed.

Lemma isDecimal_mul (x y : num) :
  isDecimal x -> isDecimal y -> isDecimal (mul x y).
Proof.
  destruct x as [|a|p], y as [|b|q]; cbn [mul isDecimal]; try (intros; exact I).
  - intros _ _. now destruct (qzero q).
  - intros _ _. now destruct (qzero p).
  - intros [k1 H1] [k2 H2]. unfold Qcmult.
    apply (isDecimal_Q2Qc _ (k1 + k2)). cbn [Qmult Qden].
    rewrite Pos2Z.inj_mul, Nat2Z.inj_add, Z.pow_add_r by lia.
    destruct H1 as [c1 E1], H2 as [c2 E2]. exists (c1 * c2).
    rewrite E1, E2. ring.
Qed.

End ReadBack.

(** * Adding a line item *)

Section AddItem.
Import JS.

Lemma sale_add_cases (st : NewSale.State) :
  (saleRejection st /\
   NewSale.formData (NewSale.handleAddItem st) = NewSale.formData st /\
   NewSale.error (NewSale.handleAddItem st) <> None)
  \/
  (~ saleRejection st /\
   exists sel,
     NewSale.selectedItem st = Some sel /\
     NewSale.handleAddItem st =
     NewSale.mkState
       (Sale.withItems (NewSale.formData st)
          (Some (NewSale.itemsOrEmpty (NewSale.formData st)
                 ++ [SaleItem.mk (RefId (optStrOr (Item._id sel) EmptyString))
                                 (parseInt (NewSale.selectedQuantity st))
                                 (Item.price sel)])%list))
       (NewSale.availableItems st) None "1" (NewSale.loading st)
       (NewSale.saving st) None (NewSale.itemSelectVisible st)).
Proof.
  unfold saleRejection, NewSale.handleAddItem.
  destruct (NewSale.selectedItem st) as [sel|] eqn:Hsel.
  - destruct (isNaN (parseInt (NewSale.selectedQuantity st))
              || leb (parseInt (NewSale.selectedQuantity st)) zero) eqn:Hq.
    + left. split; [|split; [reflexivity | discriminate]].
      right; left. intros Hpos. apply quantity_guard in Hpos. congruence.
    + apply quantity_guard in Hq.
      destruct (gtb (parseInt (NewSale.selectedQuantity st))
                    (Item.quantity sel)) eqn:Hgt.
      * left. split; [|split; [reflexivity | discriminate]].
        right; right. now exists sel.
      * right. split.
        -- intros [H | [H | (sel' & E & H)]];
             [discriminate | now apply H | ].
           injection E as <-. congruence.
        -- exists sel. split; reflexivity.
  - left. split; [now left | split; [reflexivity | discriminate]].
Qed.

(** C7.  The sale screen refuses a line exactly when no item is selected,
    or the parsed quantity is not a positive whole number, or it exceeds
    the quantity on hand of the selected item.  A refusal leaves the form,
    and with it the line-item sequence, unchanged; otherwise one line is
    appended, carrying the parsed quantity and the current price of the
    selected item as priceAtSale. *)
Theorem sale_add_item_validation :
  forall st : NewSale.State,
    let st' := NewSale.handleAddItem st in
    (saleRejection st <-> NewSale.error st' <> None)
    /\ (saleRejection st <->
        Sale.items (NewSale.formData st') = Sale.items (NewSale.formData st))
    /\ (saleRejection st -> NewSale.formData st' = NewSale.formData st)
    /\ (~ saleRejection st ->
        exists sel line,
          NewSale.selectedItem st = Some sel /\
          Sale.items (NewSale.formData st')
          = Some (NewSale.itemsOrEmpty (NewSale.formData st) ++ [line])%list /\
          SaleItem.quantity line = parseInt (NewSale.selectedQuantity st) /\
          SaleItem.priceAtSale line = Item.price sel).
Proof.
  intros st st'. subst st'.
  destruct (sale_add_cases st) as [(Hrej & Hform & Herr) | (Hacc & sel & Hsel & E)].
  - split; [|split; [|split]].
    + tauto.
    + split; [intros _; now rewrite Hform | tauto].
    + tauto.
    + tauto.
  - rewrite E. cbn [NewSale.error NewSale.formData Sale.items Sale.withItems].
    split; [|split; [|split]].
    + split; [tauto | intros H; now elim H].
    + split; [tauto|].
      intros H. exfalso. unfold NewSale.itemsOrEmpty in H.
      destruct (Sale.items (NewSale.formData st)) as [its|]; [|discriminate].
      injection H as H. apply (f_equal (@List.length _)) in H.
      rewrite length_app in H. cbn in H. lia.
    + tauto.
    + intros _. eexists sel, _.
      split; [exact Hsel|]. split; [reflexivity|]. split; reflexivity.
Qed.

End AddItem.

(** * The scenarios of the specification *)

Section Scenarios.
Import JS.

Example scenario_A :
  let f := NewSale.recalcTotals Scenario.saleA in
  Sale.subtotal f = Some (parseFloat "25.00") /\
  Sale.taxAmount f = Some (parseFloat "1.875") /\
  Sale.total f = Some (parseFloat "24.875").
Proof. by_evaluation. Qed.

Example scenario_B :
  let f := NewSale.recalcTotals Scenario.saleB in
  Sale.subtotal f = Some (parseFloat "1.00") /\
  Sale.taxAmount f = Some zero /\
  Sale.total f = Some zero.
Proof. by_evaluation. Qed.

Example scenario_C :
  let f := EditPurchase.recalcTotals Scenario.purchaseC in
  Purchase.subtotal f = Some (parseFloat "25.00") /\
  Purchase.taxAmount f = Some (parseFloat "1.25") /\
  Purchase.total f = Some (parseFloat "38.25").
Proof. by_evaluation. Qed.

Example scenario_D :
  let st := Scenario.saleEntry "0" in
  NewSale.formData (NewSale.handleAddItem st) = NewSale.formData st /\
  NewSale.error (NewSale.handleAddItem st)
  = Some "Quantity must be a positive number".
Proof. split; reflexivity. Qed.

Example scenario_E :
  Sale.discountAmount
    (NewSale.handleTextChange NewSale.FdiscountAmount "abc"
                              NewSale.initialFormData)
  = Some zero.
Proof. reflexivity. Qed.

Example stock_message :
  NewSale.error (NewSale.handleAddItem (Scenario.saleEntry "11"))
  = Some "Only 10 items available in stock".
Proof. reflexivity. Qed.

End Scenarios.

(** * Adding a line to a purchase *)

Section PurchaseLines.
Import JS.

(** The purchase screen appends a line whenever an item is selected; it
    looks at none of the entry fields before doing so. *)
Lemma purchase_add_appends (st : EditPurchase.State) (sel : Item.t) :
  EditPurchase.selectedItem st = Some sel ->
  Purchase.items (EditPurchase.formData (EditPurchase.handleAddItem st))
  = Some (EditPurchase.itemsOrEmpty (EditPurchase.formData st)
          ++ [EditPurchase.newItem sel st])%list.
Proof.
  intros Hsel. unfold EditPurchase.handleAddItem. now rewrite Hsel.
Qed.

Lemma purchase_add_nothing_selected (st : EditPurchase.State) :
  EditPurchase.selectedItem st = None -> EditPurchase.handleAddItem st = st.
Proof.
  intros Hsel. unfold EditPurchase.handleAddItem. now rewrite Hsel.
Qed.

(** C6 (as stated, it fails).  On the purchase screen an item tracked by
    weight is selected and added with the weight field as the screen
    presets it, [0]: the line is appended with weight 0.  The same happens
    with quantity 0 for an item tracked by quantity. *)
Lemma purchase_accepts_zero_weight :
  let st := Scenario.purchaseEntry Scenario.flour "1" "0" "1.20" in
  let st' := EditPurchase.handleAddItem st in
  let sq := Scenario.purchaseEntry Scenario.widget "0" "0" "2.5" in
  let sq' := EditPurchase.handleAddItem sq in
  (leb (parseFloat (EditPurchase.weight st)) zero = true /\
   Purchase.items (EditPurchase.formData st) = Some [] /\
   exists line,
     Purchase.items (EditPurchase.formData st') = Some [line] /\
     PurchaseItem.weight line = Some zero /\
     PurchaseItem.weightUnit line = Some lb /\
     PurchaseItem.quantity line = None)
  /\
  (leb (parseInt (EditPurchase.quantity sq)) zero = true /\
   Purchase.items (EditPurchase.formData sq) = Some [] /\
   exists line,
     Purchase.items (EditPurchase.formData sq') = Some [line] /\
     PurchaseItem.quantity line = Some zero /\
     PurchaseItem.weight line = None).
Proof.
  cbv zeta. split.
  - split; [reflexivity|]. split; [reflexivity|].
    eexists. split; [reflexivity|]. repeat split; reflexivity.
  - split; [reflexivity|]. split; [reflexivity|].
    eexists. split; [reflexivity|]. repeat split; reflexivity.
Qed.

(** C6 (amended).  On the sale screen a quantity that is zero or negative
    is refused where the line is added: the form is left as it was and a
    message is set.  The purchase screen makes no such check: with an item
    selected the line is always appended. *)
Theorem nonpositive_quantity_rejected_on_sale :
  (forall st : NewSale.State,
      leb (parseInt (NewSale.selectedQuantity st)) zero = true ->
      NewSale.formData (NewSale.handleAddItem st) = NewSale.formData st /\
      NewSale.error (NewSale.handleAddItem st) <> None)
  /\
  (forall (st : EditPurchase.State) (sel : Item.t),
      EditPurchase.selectedItem st = Some sel ->
      Purchase.items (EditPurchase.formData (EditPurchase.handleAddItem st))
      = Some (EditPurchase.itemsOrEmpty (EditPurchase.formData st)
              ++ [EditPurchase.newItem sel st])%list).
Proof.
  split.
  - intros st Hle. unfold NewSale.handleAddItem.
    destruct (NewSale.selectedItem st) as [sel|].
    + rewrite Hle, orb_true_r. split; [reflexivity | discriminate].
    + split; [reflexivity | discriminate].
  - exact purchase_add_appends.
Qed.

(** C5 (as stated, it fails).  On the purchase screen a quantity field
    that is cleared (or holds [abc]) is not turned into 0: the line is
    stored with quantity [NaN] and total cost [NaN], and the next
    recomputation carries [NaN] into the subtotal, the tax and the
    total. *)
Lemma purchase_quantity_text_not_coerced :
  let st := Scenario.purchaseEntry Scenario.widget EmptyString "0" "2.5" in
  let st' := EditPurchase.handleAddItem st in
  let f' := EditPurchase.recalcTotals (EditPurchase.formData st') in
  let sa := Scenario.purchaseEntry Scenario.widget "abc" "0" "2.5" in
  let sa' := EditPurchase.handleAddItem sa in
  let fa' := EditPurchase.recalcTotals (EditPurchase.formData sa') in
  (exists line,
     Purchase.items (EditPurchase.formData st') = Some [line] /\
     PurchaseItem.quantity line = Some NaN /\
     PurchaseItem.quantity line <> Some zero /\
     PurchaseItem.totalCost line = NaN /\
     Purchase.subtotal f' = Some NaN /\
     Purchase.taxAmount f' = Some NaN /\
     Purchase.total f' = Some NaN)
  /\
  (exists line,
     Purchase.items (EditPurchase.formData sa') = Some [line] /\
     PurchaseItem.quantity line = Some NaN /\
     PurchaseItem.quantity line <> Some zero /\
     PurchaseItem.totalCost line = NaN /\
     Purchase.subtotal fa' = Some NaN /\
     Purchase.taxAmount fa' = Some NaN /\
     Purchase.total fa' = Some NaN).
Proof.
  cbv zeta. split.
  - eexists. split; [reflexivity|].
    split; [reflexivity|]. split; [discriminate|].
    repeat split; reflexivity.
  - eexists. split; [reflexivity|].
    split; [reflexivity|]. split; [discriminate|].
    repeat split; reflexivity.
Qed.

(** What [handleTextChange] stores in a numeric field: the parsed number,
    or 0 when the text does not parse. *)
Lemma coerced_value (v : string) :
  isNumber (orZero (parseFloat v)) /\
  (parseFloat v = NaN -> orZero (parseFloat v) = zero) /\
  (isNumber (parseFloat v) -> orZero (parseFloat v) = parseFloat v).
Proof.
  split; [apply orZero_isNumber|]. split.
  - intros ->. reflexivity.
  - apply orZero_number.
Qed.

(** C5 (amended).  Text typed into the tax-rate, discount and
    shipping-cost fields is read with [parseFloat] and stored as a number:
    0 when the text does not parse (the empty text and [abc] do not), the
    parsed number otherwise; [NaN] is never stored.  Quantity text of the
    sale screen that does not parse is not turned into 0: the line is
    refused and the form is left as it was. *)
Theorem numeric_text_coercion :
  (forall (v : string) (f : Sale.t),
      Sale.taxRate (NewSale.handleTextChange NewSale.FtaxRate v f)
      = Some (orZero (parseFloat v)) /\
      Sale.discountAmount
        (NewSale.handleTextChange NewSale.FdiscountAmount v f)
      = Some (orZero (parseFloat v)))
  /\
  (forall (v : string) (f : Purchase.t),
      Purchase.taxRate
        (EditPurchase.handleTextChange EditPurchase.FtaxRate v f)
      = Some (orZero (parseFloat v)) /\
      Purchase.shippingCost
        (EditPurchase.handleTextChange EditPurchase.FshippingCost v f)
      = Some (orZero (parseFloat v)))
  /\
  (forall v : string,
      isNumber (orZero (parseFloat v)) /\
      (parseFloat v = NaN -> orZero (parseFloat v) = zero) /\
      (isNumber (parseFloat v) -> orZero (parseFloat v) = parseFloat v))
  /\
  parseFloat EmptyString = NaN
  /\
  parseFloat "abc" = NaN
  /\
  (forall st : NewSale.State,
      parseInt (NewSale.selectedQuantity st) = NaN ->
      NewSale.formData (NewSale.handleAddItem st) = NewSale.formData st /\
      NewSale.error (NewSale.handleAddItem st) <> None).
Proof.
  split; [intros v f; split; reflexivity|].
  split; [intros v f; split; reflexivity|].
  split; [exact coerced_value|].
  split; [reflexivity|]. split; [reflexivity|].
  intros st Hq. unfold NewSale.handleAddItem.
  destruct (NewSale.selectedItem st) as [sel|].
  - rewrite Hq. cbn [isNaN orb]. split; [reflexivity | discriminate].
  - split; [reflexivity | discriminate].
Qed.

(** The shape of a purchase line: the quantity alone for an item tracked
    by quantity, the weight and its unit alone for an item tracked by
    weight; the unit is stored as chosen and takes no part in the cost. *)
Lemma purchase_line_shape (st : EditPurchase.State) (sel : Item.t) :
  let line := EditPurchase.newItem sel st in
  (Item.trackingType sel = Some TrackWeight ->
   PurchaseItem.quantity line = None /\
   PurchaseItem.weight line = Some (parseFloat (EditPurchase.weight st)) /\
   PurchaseItem.weightUnit line = Some (EditPurchase.weightUnit st))
  /\
  (Item.trackingType sel <> Some TrackWeight ->
   PurchaseItem.quantity line = Some (parseInt (EditPurchase.quantity st)) /\
   PurchaseItem.weight line = None /\
   PurchaseItem.weightUnit line = None).
Proof.
  cbv zeta. unfold EditPurchase.newItem, EditPurchase.tracksWeight.
  destruct (Item.trackingType sel) as [[|]|]; split; intros H;
    try discriminate; try (now elim H); repeat split.
Qed.

(** The line total that [handleAddItem] reads back is the product the
    effect printed. *)
Lemma totalCost_read_back (st : EditPurchase.State) (sel : Item.t) :
  EditPurchase.selectedItem st = Some sel ->
  parseFloat (EditPurchase.totalCost (EditPurchase.updateTotalCost st))
  = mul (if EditPurchase.tracksWeight sel
         then parseFloat (EditPurchase.weight st)
         else parseInt (EditPurchase.quantity st))
        (parseFloat (strOr (EditPurchase.costPerUnit st) "0")).
Proof.
  intros Hsel. unfold EditPurchase.updateTotalCost. rewrite Hsel.
  destruct (EditPurchase.tracksWeight sel);
    cbn [EditPurchase.totalCost EditPurchase.setTotalCost];
    apply parseFloat_toString; apply isDecimal_mul;
    auto using isDecimal_parseFloat, isDecimal_parseInt.
Qed.

(** With a cost text that is not empty, the line that is added carries
    as total cost its quantity, or its weight, times its cost per unit. *)
Lemma purchase_line_total (st : EditPurchase.State) (sel : Item.t) :
  EditPurchase.selectedItem st = Some sel ->
  EditPurchase.costPerUnit st <> EmptyString ->
  let line := EditPurchase.newItem sel (EditPurchase.updateTotalCost st) in
  exists amount,
    (if EditPurchase.tracksWeight sel
     then PurchaseItem.weight line = Some amount /\
          PurchaseItem.quantity line = None
     else PurchaseItem.quantity line = Some amount /\
          PurchaseItem.weight line = None)
    /\ PurchaseItem.totalCost line
       = mul amount (PurchaseItem.costPerUnit line).
Proof.
  intros Hsel Hcost line.
  pose proof (totalCost_read_back st sel Hsel) as Hread.
  assert (Hor : strOr (EditPurchase.costPerUnit st) "0"
                = EditPurchase.costPerUnit st).
  { destruct (EditPurchase.costPerUnit st); [now elim Hcost | reflexivity]. }
  rewrite Hor in Hread. subst line. unfold EditPurchase.newItem.
  assert (Hq : EditPurchase.quantity (EditPurchase.updateTotalCost st)
               = EditPurchase.quantity st /\
               EditPurchase.weight (EditPurchase.updateTotalCost st)
               = EditPurchase.weight st /\
               EditPurchase.costPerUnit (EditPurchase.updateTotalCost st)
               = EditPurchase.costPerUnit st).
  { unfold EditPurchase.updateTotalCost. rewrite Hsel.
    destruct (EditPurchase.tracksWeight sel); repeat split. }
  destruct Hq as (Hq & Hw & Hc). rewrite Hq, Hw, Hc, Hread.
  destruct (EditPurchase.tracksWeight sel); eexists; split;
    try (split; reflexivity); reflexivity.
Qed.

(** C8 (the code departs from it).  With the cost field cleared, the
    line-total effect prices the line at cost 0 while [handleAddItem]
    stores the cost as [NaN]: the stored total cost, 0, is not the stored
    quantity times the stored cost per unit. *)
Theorem purchase_line_total_with_cleared_cost :
  let st := Scenario.purchaseEntry Scenario.widget "2" "0" EmptyString in
  let st' := EditPurchase.handleAddItem st in
  exists line,
    Purchase.items (EditPurchase.formData st') = Some [line] /\
    PurchaseItem.quantity line = Some (of_Z 2) /\
    PurchaseItem.weight line = None /\
    PurchaseItem.costPerUnit line = NaN /\
    PurchaseItem.totalCost line = zero /\
    mul (of_Z 2) (PurchaseItem.costPerUnit line) = NaN /\
    PurchaseItem.totalCost line
    <> mul (of_Z 2) (PurchaseItem.costPerUnit line).
Proof.
  cbv zeta. eexists. split; [reflexivity|].
  repeat split; try reflexivity. discriminate.
Qed.

End PurchaseLines.

(** * Validation before submission *)

Section Submission.
Import JS.

Lemma supplierNameMissing_absentOrEmpty (f : Purchase.t) :
  EditPurchase.supplierNameMissing f = true <-> absentOrEmpty (supplierName f).
Proof.
  unfold EditPurchase.supplierNameMissing, absentOrEmpty, supplierName.
  destruct (Purchase.supplier f) as [s|]; [|tauto].
  destruct (Supplier.name s) as [[|c r]|]; split; intros H;
    try tauto; try discriminate.
  destruct H as [H|H]; discriminate H.
Qed.

Lemma itemsMissing_empty (f : Purchase.t) :
  EditPurchase.itemsMissing f = true <-> EditPurchase.itemsOrEmpty f = [].
Proof.
  unfold EditPurchase.itemsMissing, EditPurchase.itemsOrEmpty.
  destruct (Purchase.items f) as [[|i r]|]; split; intros H;
    try reflexivity; discriminate.
Qed.

Lemma leb_orZero (x : num) : leb (orZero x) zero = negb (gtb x zero).
Proof.
  destruct x as [|[|]|q]; try reflexivity.
  unfold orZero, truthy. destruct (qzero q) eqn:E; cbn [negb].
  - apply qzero_eq in E. subst q. reflexivity.
  - reflexivity.
Qed.

(** C9 (as stated, it fails).  A purchase with one line whose supplier
    name was typed as three spaces: the name is blank, and the purchase
    is handed to the REST client all the same, since [handleSave] tests
    the name as it is and does not trim it. *)
Lemma purchase_with_blank_name_is_saved :
  let st := EditPurchase.setFormData EditPurchase.initialState
              (EditPurchase.handleTextChange EditPurchase.FsupplierName "   "
                 Scenario.purchaseC) in
  supplierName (EditPurchase.formData st) = Some "   " /\
  blank (supplierName (EditPurchase.formData st)) /\
  EditPurchase.itemsOrEmpty (EditPurchase.formData st) <> [] /\
  snd (EditPurchase.handleSave st) = Some (EditPurchase.formData st).
Proof.
  cbv zeta. split; [reflexivity|]. split; [reflexivity|].
  split; [discriminate | reflexivity].
Qed.

(** C9 (amended).  A sale is refused at submission exactly when it has no
    line item or its total is not a number above zero (a total that is
    absent or [NaN] is refused as 0 is); a purchase exactly when the
    supplier name is absent or the empty text, or it has no line item:
    its total plays no part, and a name of white space only is accepted.
    A refused document is not handed to the REST client; an accepted one
    is handed over as the form holds it. *)
Theorem submission_validation :
  (forall st : NewSale.State,
      (snd (NewSale.handleSubmit st) = None <->
       NewSale.itemsOrEmpty (NewSale.formData st) = [] \/
       ~ (exists t, Sale.total (NewSale.formData st) = Some t /\
                    gtb t zero = true))
      /\
      (snd (NewSale.handleSubmit st) <> None ->
       snd (NewSale.handleSubmit st) = Some (NewSale.formData st)))
  /\
  (forall st : EditPurchase.State,
      (snd (EditPurchase.handleSave st) = None <->
       (supplierName (EditPurchase.formData st) = None \/
        supplierName (EditPurchase.formData st) = Some EmptyString) \/
       EditPurchase.itemsOrEmpty (EditPurchase.formData st) = [])
      /\
      (snd (EditPurchase.handleSave st) <> None ->
       snd (EditPurchase.handleSave st) = Some (EditPurchase.formData st))).
Proof.
  split.
  - intros st.
    unfold NewSale.handleSubmit, NewSale.validateForm, NewSale.itemsOrEmpty.
    destruct (Sale.items (NewSale.formData st)) as [[|i r]|];
      cbn [snd]; try (split; [tauto | congruence]).
    assert (Hleb : leb (optOrZero (Sale.total (NewSale.formData st))) zero
                   = true
                   <-> ~ (exists t, Sale.total (NewSale.formData st) = Some t
                                    /\ gtb t zero = true)).
    { destruct (Sale.total (NewSale.formData st)) as [t|]; cbn [optOrZero].
      - rewrite leb_orZero. destruct (gtb t zero) eqn:G; cbn [negb]; split.
        + discriminate.
        + intros H. exfalso. apply H. now exists t.
        + intros _ (t' & E & H). congruence.
        + reflexivity.
      - split; [intros _ (t & E & _); discriminate E | reflexivity]. }
    destruct (leb _ zero); cbn [snd]; split.
    + split; [intros _; right; now apply Hleb | reflexivity].
    + congruence.
    + split; [discriminate|]. intros [H|H]; [discriminate H|].
      apply Hleb in H. discriminate H.
    + reflexivity.
  - intros st. unfold EditPurchase.handleSave.
    change (supplierName (EditPurchase.formData st) = None \/
            supplierName (EditPurchase.formData st) = Some EmptyString)
      with (absentOrEmpty (supplierName (EditPurchase.formData st))).
    rewrite <- supplierNameMissing_absentOrEmpty, <- itemsMissing_empty.
    destruct (EditPurchase.supplierNameMissing (EditPurchase.formData st));
      cbn [snd]; [split; [tauto | congruence]|].
    destruct (EditPurchase.itemsMissing (EditPurchase.formData st));
      cbn [snd]; [split; [tauto | congruence]|].
    split; [|reflexivity].
    split; [discriminate|]. intros [H|H]; discriminate H.
Qed.

End Submission.

(** * The properties at the scenarios *)

Section Witnesses.
Import JS.


Lemma recompute_empty_witness :
  (NewSale.itemsOrEmpty (Scenario.saleOf [] "7.5" "3") = [] /\
   Sale.subtotal (NewSale.recalcTotals (Scenario.saleOf [] "7.5" "3"))
   = Some zero /\
   Sale.taxAmount (NewSale.recalcTotals (Scenario.saleOf [] "7.5" "3"))
   = Some zero /\
   Sale.total (NewSale.recalcTotals (Scenario.saleOf [] "7.5" "3"))
   = Some zero)
  /\
  (EditPurchase.itemsOrEmpty (Scenario.purchaseOf [] "5" "12.00") = [] /\
   Purchase.subtotal
     (EditPurchase.recalcTotals (Scenario.purchaseOf [] "5" "12.00"))
   = Some zero /\
   Purchase.taxAmount
     (EditPurchase.recalcTotals (Scenario.purchaseOf [] "5" "12.00"))
   = Some zero /\
   Purchase.total
     (EditPurchase.recalcTotals (Scenario.purchaseOf [] "5" "12.00"))
   = Some zero).
Proof.
  split.
  - split; [reflexivity|].
    apply (proj1 recompute_empty (Scenario.saleOf [] "7.5" "3")).
    reflexivity.
  - split; [reflexivity|].
    apply (proj2 recompute_empty (Scenario.purchaseOf [] "5" "12.00")).
    reflexivity.
Defined.

Lemma sale_total_clamped_witness :
  Sale.discountAmount Scenario.saleB = Some (parseFloat "50.00") /\
  isNumber (parseFloat "50.00") /\
  NewSale.itemsOrEmpty Scenario.saleB <> [] /\
  exists s t,
    Sale.subtotal (NewSale.recalcTotals Scenario.saleB) = Some s /\
    Sale.taxAmount (NewSale.recalcTotals Scenario.saleB) = Some t /\
    Sale.total (NewSale.recalcTotals Scenario.saleB)
    = Some (max zero (sub (add s t) (parseFloat "50.00"))).
Proof.
  split; [reflexivity|]. split; [reflexivity|]. split; [discriminate|].
  apply (proj2 sale_total_clamped Scenario.saleB (parseFloat "50.00")).
  - reflexivity.
  - reflexivity.
  - left. discriminate.
Defined.

Lemma purchase_total_unclamped_witness :
  Purchase.items Scenario.purchaseC <> Some [] /\
  Purchase.shippingCost Scenario.purchaseC = Some (parseFloat "12.00") /\
  isNumber (parseFloat "12.00") /\
  exists s t,
    Purchase.subtotal (EditPurchase.recalcTotals Scenario.purchaseC) = Some s /\
    Purchase.taxAmount (EditPurchase.recalcTotals Scenario.purchaseC) = Some t /\
    Purchase.total (EditPurchase.recalcTotals Scenario.purchaseC)
    = Some (add (add s t) (parseFloat "12.00")).
Proof.
  split; [discriminate|]. split; [reflexivity|]. split; [reflexivity|].
  eapply (purchase_total_unclamped Scenario.purchaseC).
  - reflexivity.
  - discriminate.
  - reflexivity.
  - reflexivity.
Defined.

Lemma nonpositive_quantity_rejected_on_sale_witness :
  leb (parseInt (NewSale.selectedQuantity (Scenario.saleEntry "0"))) zero
  = true /\
  NewSale.formData (NewSale.handleAddItem (Scenario.saleEntry "0"))
  = NewSale.formData (Scenario.saleEntry "0") /\
  NewSale.error (NewSale.handleAddItem (Scenario.saleEntry "0")) <> None.
Proof.
  split; [reflexivity|].
  apply (proj1 nonpositive_quantity_rejected_on_sale (Scenario.saleEntry "0")).
  reflexivity.
Defined.

Lemma numeric_text_coercion_witness :
  parseInt (NewSale.selectedQuantity (Scenario.saleEntry "abc")) = NaN /\
  NewSale.formData (NewSale.handleAddItem (Scenario.saleEntry "abc"))
  = NewSale.formData (Scenario.saleEntry "abc") /\
  NewSale.error (NewSale.handleAddItem (Scenario.saleEntry "abc")) <> None.
Proof.
  split; [reflexivity|].
  apply (proj2 (proj2 (proj2 (proj2 (proj2 numeric_text_coercion))))
           (Scenario.saleEntry "abc")).
  reflexivity.
Defined.

Lemma sale_add_item_validation_witness :
  saleRejection (Scenario.saleEntry "0") /\
  NewSale.formData (NewSale.handleAddItem (Scenario.saleEntry "0"))
  = NewSale.formData (Scenario.saleEntry "0").
Proof.
  assert (H : saleRejection (Scenario.saleEntry "0")).
  { right; left. intros Hpos.
    change (positiveInteger (of_Z 0)) in Hpos.
    apply positiveInteger_of_Z in Hpos. lia. }
  split; [exact H|].
  apply (proj1 (proj2 (proj2 (sale_add_item_validation
                                (Scenario.saleEntry "0"))))).
  exact H.
Defined.

Lemma submission_validation_witness :
  let st := NewSale.setFormData NewSale.initialState
              (NewSale.recalcTotals Scenario.saleB) in
  Sale.total (NewSale.formData st) = Some zero /\
  (snd (NewSale.handleSubmit st) = None <->
   NewSale.itemsOrEmpty (NewSale.formData st) = [] \/
   ~ (exists t, Sale.total (NewSale.formData st) = Some t /\
                gtb t zero = true)).
Proof.
  cbv zeta. split; [reflexivity|].
  exact (proj1 (proj1 submission_validation
                      (NewSale.setFormData NewSale.initialState
                         (NewSale.recalcTotals Scenario.saleB)))).
Defined.

End Witnesses.

(** * Lines of a sale and of a purchase *)

Section Lines.
Import JS.

Lemma filterFrom_past {A : Type} (k j : nat) (xs : list A) :
  (k < j)%nat ->
  JSArray.filterFrom (fun _ i => negb (i =? k)%nat) j xs = xs.
Proof.
  revert j. induction xs as [|x r IH]; intros j Hj; [reflexivity|].
  cbn [JSArray.filterFrom].
  replace (j =? k)%nat with false by (symmetry; apply Nat.eqb_neq; lia).
  cbn [negb]. f_equal. apply IH. lia.
Qed.

Lemma removeAt_filterFrom {A : Type} (index k : nat) (xs : list A) :
  NewSale.removeAt index xs
  = JSArray.filterFrom (fun _ i => negb (i =? k + index)%nat) k xs.
Proof.
  revert index k. induction xs as [|x r IH]; intros index k;
    [now destruct index|].
  destruct index as [|i]; cbn [NewSale.removeAt JSArray.filterFrom].
  - rewrite Nat.add_0_r, Nat.eqb_refl. cbn [negb].
    symmetry. apply filterFrom_past. lia.
  - replace (k =? k + S i)%nat with false
      by (symmetry; apply Nat.eqb_neq; lia).
    cbn [negb]. f_equal. rewrite (IH i (S k)).
    now replace (S k + i)%nat with (k + S i)%nat by lia.
Qed.

Lemma removeAt_filterIndexed {A : Type} (index : nat) (xs : list A) :
  NewSale.removeAt index xs
  = JSArray.filterIndexed (fun _ i => negb (i =? index)%nat) xs.
Proof. exact (removeAt_filterFrom index 0 xs). Qed.

Lemma removeAt_split {A : Type} (index : nat) (xs : list A) :
  NewSale.removeAt index xs = (firstn index xs ++ skipn (S index) xs)%list.
Proof.
  revert index. induction xs as [|x r IH]; intros [|i]; cbn; try reflexivity.
  f_equal. apply IH.
Qed.

Lemma removeAt_out_of_range {A : Type} (index : nat) (xs : list A) :
  (List.length xs <= index)%nat -> NewSale.removeAt index xs = xs.
Proof.
  revert index. induction xs as [|x r IH]; intros [|i] H; cbn in *;
    try reflexivity; try lia.
  f_equal. apply IH. lia.
Qed.

Lemma removeAt_length {A : Type} (index : nat) (xs : list A) :
  (index < List.length xs)%nat ->
  S (List.length (NewSale.removeAt index xs)) = List.length xs.
Proof.
  revert index. induction xs as [|x r IH]; intros [|i] H; cbn in *;
    try reflexivity; try lia.
  f_equal. apply IH. lia.
Qed.

Lemma removeAt_last {A : Type} (xs : list A) (x : A) :
  NewSale.removeAt (List.length xs) (xs ++ [x]) = xs.
Proof. induction xs as [|y r IH]; cbn; [reflexivity | now rewrite IH]. Qed.

End Lines.

Section SaleLines.
Import JS.

Lemma sale_subtotal_leftSum (f : Sale.t) :
  Sale.subtotal (NewSale.recalcTotals f)
  = Some (leftSum (map NewSale.lineTotal (NewSale.itemsOrEmpty f))).
Proof.
  unfold NewSale.itemsOrEmpty.
  destruct (Sale.items f) as [[|i r]|] eqn:E.
  - unfold NewSale.recalcTotals. now rewrite E.
  - now rewrite (sale_recalc_nonempty f (i :: r) E).
  - unfold NewSale.recalcTotals. now rewrite E.
Qed.

Lemma purchase_subtotal_leftSum (f : Purchase.t) :
  Purchase.subtotal (EditPurchase.recalcTotals f)
  = Some (leftSum (map PurchaseItem.totalCost (EditPurchase.itemsOrEmpty f))).
Proof.
  unfold EditPurchase.itemsOrEmpty.
  destruct (Purchase.items f) as [[|i r]|] eqn:E.
  - unfold EditPurchase.recalcTotals. now rewrite E.
  - now rewrite (purchase_recalc_nonempty f (i :: r) E).
  - unfold EditPurchase.recalcTotals. now rewrite E.
Qed.

(** X1.  Removing a line, on the sale screen and on the purchase screen
    ([items.filter((_, i) => i !== index)]): the lines before [index] and
    the lines after it are kept in their order; inside the list exactly
    one line goes, past its end nothing changes. *)
Theorem remove_line_drops_that_line :
  (forall (index : nat) (f : Sale.t) (its : list SaleItem.t),
      Sale.items f = Some its ->
      let its' := JSArray.filterIndexed (fun _ i => negb (i =? index)%nat) its in
      Sale.items (NewSale.handleRemoveItem index f) = Some its' /\
      its' = (firstn index its ++ skipn (S index) its)%list /\
      ((index < List.length its)%nat -> S (List.length its') = List.length its) /\
      ((List.length its <= index)%nat -> its' = its))
  /\
  (forall (index : nat) (f : Purchase.t) (its : list PurchaseItem.t),
      Purchase.items f = Some its ->
      let its' := JSArray.filterIndexed (fun _ i => negb (i =? index)%nat) its in
      Purchase.items (EditPurchase.handleRemoveItem index f) = Some its' /\
      its' = (firstn index its ++ skipn (S index) its)%list /\
      ((index < List.length its)%nat -> S (List.length its') = List.length its) /\
      ((List.length its <= index)%nat -> its' = its)).
Proof.
  split; intros index f its Hits its'; subst its';
    rewrite <- (removeAt_filterIndexed index its).
  - unfold NewSale.handleRemoveItem.
    cbn [Sale.items Sale.withItems]. rewrite Hits. cbn [option_map].
    split; [reflexivity|]. split; [apply removeAt_split|].
    split; [apply removeAt_length | apply removeAt_out_of_range].
  - unfold EditPurchase.handleRemoveItem.
    cbn [Purchase.items Purchase.withItems]. rewrite Hits. cbn [option_map].
    split; [reflexivity|]. split; [apply removeAt_split|].
    split; [apply removeAt_length | apply removeAt_out_of_range].
Qed.

(** X2.  A line that was just added is the last one: removing the line at
    the former length gives back the lines the form had, on the sale
    screen (for an accepted quantity) and on the purchase screen (with an
    item selected). *)
Theorem add_then_remove_restores_lines :
  (forall st : NewSale.State,
      ~ saleRejection st ->
      Sale.items
        (NewSale.handleRemoveItem
           (List.length (NewSale.itemsOrEmpty (NewSale.formData st)))
           (NewSale.formData (NewSale.handleAddItem st)))
      = Some (NewSale.itemsOrEmpty (NewSale.formData st)))
  /\
  (forall (st : EditPurchase.State) (sel : Item.t),
      EditPurchase.selectedItem st = Some sel ->
      Purchase.items
        (EditPurchase.handleRemoveItem
           (List.length (EditPurchase.itemsOrEmpty (EditPurchase.formData st)))
           (EditPurchase.formData (EditPurchase.handleAddItem st)))
      = Some (EditPurchase.itemsOrEmpty (EditPurchase.formData st))).
Proof.
  split.
  - intros st Hacc.
    destruct (sale_add_cases st) as [(Hrej & _) | (_ & sel & Hsel & E)];
      [contradiction|].
    rewrite E. unfold NewSale.handleRemoveItem.
    cbn [NewSale.formData Sale.items Sale.withItems option_map].
    now rewrite removeAt_last.
  - intros st sel Hsel. unfold EditPurchase.handleRemoveItem.
    cbn [Purchase.items Purchase.withItems].
    rewrite (purchase_add_appends st sel Hsel). cbn [option_map].
    now rewrite removeAt_last.
Qed.

End SaleLines.

Section Composition.
Import JS.

(** X3.  The subtotal of a sale follows its lines at the end of the list:
    once the totals effect has run, an accepted addition raises the
    subtotal by quantity times price of the selected item, and the
    subtotal before the removal of the last line is the subtotal after it
    plus quantity times price of that line.  Both are stated with the
    additions the effect itself performs, in its order. *)
Theorem sale_subtotal_follows_lines :
  (forall st : NewSale.State,
      ~ saleRejection st ->
      exists sel old,
        NewSale.selectedItem st = Some sel /\
        Sale.subtotal (NewSale.recalcTotals (NewSale.formData st)) = Some old /\
        Sale.subtotal
          (NewSale.recalcTotals (NewSale.formData (NewSale.handleAddItem st)))
        = Some (add old (mul (parseInt (NewSale.selectedQuantity st))
                             (Item.price sel))))
  /\
  (forall (f : Sale.t) (others : list SaleItem.t) (line : SaleItem.t),
      Sale.items f = Some (others ++ [line])%list ->
      exists rest,
        Sale.items (NewSale.handleRemoveItem (List.length others) f)
        = Some others /\
        Sale.subtotal
          (NewSale.recalcTotals
             (NewSale.handleRemoveItem (List.length others) f))
        = Some rest /\
        Sale.subtotal (NewSale.recalcTotals f)
        = Some (add rest (mul (SaleItem.quantity line)
                              (SaleItem.priceAtSale line)))).
Proof.
  split.
  - intros st Hacc.
    destruct (sale_add_cases st) as [(Hrej & _) | (_ & sel & Hsel & E)];
      [contradiction|].
    exists sel. eexists. split; [exact Hsel|].
    split; [apply sale_subtotal_leftSum|].
    rewrite sale_subtotal_leftSum, E.
    cbn [NewSale.formData]. unfold NewSale.itemsOrEmpty at 1.
    cbn [Sale.items Sale.withItems].
    rewrite map_app. cbn [map]. now rewrite leftSum_snoc.
  - intros f others line Hits.
    assert (Hrem : Sale.items (NewSale.handleRemoveItem (List.length others) f)
                   = Some others).
    { unfold NewSale.handleRemoveItem. cbn [Sale.items Sale.withItems].
      rewrite Hits. cbn [option_map]. now rewrite removeAt_last. }
    eexists. split; [exact Hrem|].
    split; [apply sale_subtotal_leftSum|].
    rewrite sale_subtotal_leftSum. unfold NewSale.itemsOrEmpty.
    rewrite Hits, Hrem, map_app. cbn [map]. now rewrite leftSum_snoc.
Qed.

(** X4.  The subtotal of a purchase follows its lines at the end of the
    list: an addition raises it by the total cost read from the entry
    field, and the subtotal before the removal of the last line is the
    subtotal after it plus the total cost of that line.  Both are stated
    with the additions the effect itself performs, in its order. *)
Theorem purchase_subtotal_follows_lines :
  (forall (st : EditPurchase.State) (sel : Item.t),
      EditPurchase.selectedItem st = Some sel ->
      exists old,
        Purchase.subtotal
          (EditPurchase.recalcTotals (EditPurchase.formData st)) = Some old /\
        Purchase.subtotal
          (EditPurchase.recalcTotals
             (EditPurchase.formData (EditPurchase.handleAddItem st)))
        = Some (add old (parseFloat (EditPurchase.totalCost st))))
  /\
  (forall (f : Purchase.t) (others : list PurchaseItem.t)
          (line : PurchaseItem.t),
      Purchase.items f = Some (others ++ [line])%list ->
      exists rest,
        Purchase.items (EditPurchase.handleRemoveItem (List.length others) f)
        = Some others /\
        Purchase.subtotal
          (EditPurchase.recalcTotals
             (EditPurchase.handleRemoveItem (List.length others) f))
        = Some rest /\
        Purchase.subtotal (EditPurchase.recalcTotals f)
        = Some (add rest (PurchaseItem.totalCost line))).
Proof.
  split.
  - intros st sel Hsel. eexists. split; [apply purchase_subtotal_leftSum|].
    rewrite purchase_subtotal_leftSum.
    unfold EditPurchase.itemsOrEmpty at 1.
    rewrite (purchase_add_appends st sel Hsel).
    rewrite map_app. cbn [map]. rewrite leftSum_snoc. do 2 f_equal.
    unfold EditPurchase.newItem.
    now destruct (EditPurchase.tracksWeight sel).
  - intros f others line Hits.
    assert (Hrem : Purchase.items
                     (EditPurchase.handleRemoveItem (List.length others) f)
                   = Some others).
    { unfold EditPurchase.handleRemoveItem.
      cbn [Purchase.items Purchase.withItems].
      rewrite Hits. cbn [option_map]. now rewrite removeAt_last. }
    eexists. split; [exact Hrem|].
    split; [apply purchase_subtotal_leftSum|].
    rewrite purchase_subtotal_leftSum. unfold EditPurchase.itemsOrEmpty.
    rewrite Hits, Hrem, map_app. cbn [map]. now rewrite leftSum_snoc.
Qed.

Lemma validate_clamped (x : num) :
  leb (orZero (if ltb x zero then zero else x)) zero = negb (ltb zero x).
Proof.
  destruct x as [|[|]|q]; try reflexivity.
  unfold orZero, truthy, qzero. change zero with (Fin 0%Qc).
  cbn [ltb].
  destruct (Qc_dec q 0) as [[H|H]|H].
  - rewrite (proj1 (Qclt_alt q 0) H), (proj1 (Qcgt_alt 0 q) H). reflexivity.
  - rewrite (proj1 (Qcgt_alt q 0) H), (proj1 (Qclt_alt 0 q) H).
    rewrite (proj1 (Qcgt_alt q 0) H). cbn [negb leb ltb].
    now rewrite (proj1 (Qclt_alt 0 q) H).
  - subst q. reflexivity.
Qed.

(** X5.  Once the totals effect has run, [validateForm] accepts a sale
    exactly when it has a line and subtotal plus tax exceeds the discount,
    subtotal and tax being computed as the effect computes them (the line
    totals added from left to right, the tax as subtotal times the
    hundredth part of the rate): a sale whose discount eats the whole
    amount cannot be submitted. *)
Theorem sale_submittable_after_recompute :
  forall f : Sale.t,
    let s := leftSum (map NewSale.lineTotal (NewSale.itemsOrEmpty f)) in
    let t := mul s (div (optOrZero (Sale.taxRate f)) (of_Z 100)) in
    let d := optOrZero (Sale.discountAmount f) in
    NewSale.validateForm (NewSale.recalcTotals f) = None
    <-> NewSale.itemsOrEmpty f <> [] /\ ltb zero (sub (add s t) d) = true.
Proof.
  intros f s t d. subst s t d. unfold NewSale.itemsOrEmpty.
  destruct (Sale.items f) as [[|i r]|] eqn:E.
  - unfold NewSale.recalcTotals, NewSale.validateForm. rewrite E.
    cbn [Sale.items Sale.withTotals]. rewrite E.
    split; [discriminate | intros [H _]; now elim H].
  - rewrite (sale_recalc_nonempty f (i :: r) E) by discriminate.
    cbv zeta. unfold NewSale.validateForm.
    cbn [Sale.items Sale.total Sale.withTotals optOrZero]. rewrite E.
    rewrite validate_clamped.
    destruct (ltb zero _); cbn [negb]; split;
      try discriminate; try (intros [_ H]; discriminate H);
      try (intros _; split; [discriminate | reflexivity]).
    reflexivity.
  - unfold NewSale.recalcTotals, NewSale.validateForm. rewrite E.
    cbn [Sale.items Sale.withTotals]. rewrite E.
    split; [discriminate | intros [H _]; now elim H].
Qed.

End Composition.

Section SaleFlow.
Import JS.
Import NewSale NewSaleFlow.

Lemma gtb_of_Z (a b : Z) : gtb (of_Z a) (of_Z b) = (b <? a)%Z.
Proof. unfold gtb. apply ltb_of_Z. Qed.

(** X6.  Every item offered for selection comes from the server's list and
    has stock above zero; picking it presets the quantity to 1.  Adding it
    then succeeds when the stock is not below 1: no error, one more line
    for one unit at the item's price.  With a stock between 0 and 1 the
    item is offered all the same, and adding it is refused with the stock
    message, the sale staying as it was. *)
Theorem offered_item_added_with_preset_quantity :
  forall (items : list Item.t) (st : State) (position : nat) (item : Item.t),
    let loaded := fetchItemsDone items st in
    nth_error (availableItems loaded) position = Some item ->
    let added := handleAddItem (handle (PickItem position) loaded) in
    In item items /\
    gtb (Item.quantity item) zero = true /\
    (gtb (of_Z 1) (Item.quantity item) = false ->
     error added = None /\
     Sale.items (formData added)
     = Some (itemsOrEmpty (formData st)
             ++ [SaleItem.mk (RefId (optStrOr (Item._id item) EmptyString))
                             (of_Z 1) (Item.price item)])%list) /\
    (gtb (of_Z 1) (Item.quantity item) = true ->
     error added
     = Some ("Only " ++ toString (Item.quantity item)
                     ++ " items available in stock") /\
     formData added = formData st).
Proof.
  intros items st position item loaded Hnth added.
  assert (Hin : In item (availableItems loaded))
    by (eapply nth_error_In; eauto).
  subst loaded. cbn [availableItems fetchItemsDone] in Hin.
  apply filter_In in Hin. destruct Hin as [Hin Hstock].
  split; [exact Hin|]. split; [exact Hstock|].
  subst added. unfold handle. rewrite Hnth.
  unfold handleAddItem, handleSelectItem.
  cbn [selectedItem selectedQuantity].
  change (parseInt "1") with (of_Z 1).
  change (isNaN (of_Z 1) || leb (of_Z 1) zero) with false. cbv iota.
  split; intros Hone; rewrite Hone;
    cbn [error formData setError Sale.items Sale.withItems fetchItemsDone];
    split; reflexivity.
Qed.

Lemma Forall_removeAt {A : Type} (P : A -> Prop) (index : nat) (xs : list A) :
  Forall P xs -> Forall P (removeAt index xs).
Proof.
  intros H. revert index. induction H as [|x r Hx Hr IH]; intros [|i];
    cbn; auto.
Qed.

Lemma itemsOrEmpty_textChange (field : Field) (value : string) (f : Sale.t) :
  itemsOrEmpty (handleTextChange field value f) = itemsOrEmpty f.
Proof. now destruct field. Qed.

Lemma itemsOrEmpty_recalc (f : Sale.t) :
  itemsOrEmpty (recalcTotals f) = itemsOrEmpty f.
Proof.
  destruct (sale_recalc_shape f) as (s & t & tot & E). now rewrite E.
Qed.

Lemma handleAddItem_selected (st : State) (sel : Item.t) :
  selectedItem (handleAddItem st) = Some sel -> selectedItem st = Some sel.
Proof.
  unfold handleAddItem. destruct (selectedItem st) as [s0|] eqn:Es.
  - destruct (isNaN _ || leb _ zero); [cbn; now rewrite Es|].
    destruct (gtb _ _); cbn; [now rewrite Es | discriminate].
  - cbn. now rewrite Es.
Qed.

Lemma handleAddItem_available (st : State) :
  availableItems (handleAddItem st) = availableItems st.
Proof.
  unfold handleAddItem. destruct (selectedItem st) as [s0|]; [|reflexivity].
  destruct (isNaN _ || leb _ zero); [reflexivity|].
  now destruct (gtb _ _).
Qed.

Lemma saleInvariant_handle (items : list Item.t) (ev : Event) (st : State) :
  saleInvariant items st ->
  availableItems (handle ev st)
  = List.filter (fun item => gtb (Item.quantity item) zero) items /\
  (forall sel, selectedItem (handle ev st) = Some sel -> inStock items sel) /\
  Forall (lineFromCatalogue items) (itemsOrEmpty (formData (handle ev st))).
Proof.
  intros (Hav & Hsel & Hlines & _).
  destruct ev as [field value | position | value | | index]; cbn [handle].
  - cbn [setFormData availableItems selectedItem formData].
    rewrite itemsOrEmpty_textChange. auto.
  - destruct (nth_error (availableItems st) position) as [item|] eqn:Hnth;
      [|auto].
    cbn [handleSelectItem availableItems selectedItem formData].
    split; [exact Hav|]. split; [|exact Hlines].
    intros sel [= <-]. apply nth_error_In in Hnth. rewrite Hav in Hnth.
    apply filter_In in Hnth. exact Hnth.
  - cbn [setSelectedQuantity availableItems selectedItem formData]. auto.
  - destruct (sale_add_cases st) as [(_ & Hform & _) | (Hacc & sel & Hs & E)].
    + rewrite Hform, handleAddItem_available.
      split; [exact Hav|]. split; [|exact Hlines].
      intros sel0 H0. apply Hsel. now apply handleAddItem_selected.
    + rewrite E. cbn [availableItems selectedItem formData].
      split; [exact Hav|]. split; [discriminate|].
      unfold itemsOrEmpty at 1. cbn [Sale.items Sale.withItems].
      apply Forall_app. split; [exact Hlines|].
      constructor; [|constructor].
      destruct (Hsel sel Hs) as [Hin Hstock].
      exists sel. cbn [SaleItem.item SaleItem.priceAtSale SaleItem.quantity].
      split; [exact Hin|]. split; [exact Hstock|].
      split; [reflexivity|]. split; [reflexivity|].
      unfold saleRejection in Hacc.
      split.
      * destruct (parseInt_range (selectedQuantity st)) as [En | [z Ez]].
        -- exfalso. apply Hacc. right; left. rewrite En.
           apply positiveInteger_NaN.
        -- rewrite Ez. apply positiveInteger_of_Z.
           destruct (Z_lt_dec 0 z) as [Hz|Hz]; [exact Hz|].
           exfalso. apply Hacc. right; left. rewrite Ez.
           now rewrite positiveInteger_of_Z.
      * destruct (gtb (parseInt (selectedQuantity st)) (Item.quantity sel))
          eqn:Eg; [|reflexivity].
        exfalso. apply Hacc. right; right. now exists sel.
  - cbn [setFormData availableItems selectedItem formData].
    split; [exact Hav|]. split; [exact Hsel|].
    unfold handleRemoveItem, itemsOrEmpty in *.
    cbn [Sale.items Sale.withItems].
    destruct (Sale.items (formData st)) as [its|]; cbn [option_map];
      [now apply Forall_removeAt | constructor].
Qed.

(** X7.  Whatever the user types, picks, adds and removes on the new-sale
    screen after the catalogue request has ended (the totals effect
    running after each action), every line of the form refers to an
    in-stock item of the catalogue, carries that item's price, and has a
    quantity that is a positive whole number not above the item's stock;
    the selected item, if any, is an in-stock item of the catalogue; the
    totals are those of the lines; and when the request failed the sale
    stays without lines. *)
Theorem sale_lines_come_from_catalogue :
  forall (response : option (list Item.t)) (evs : list Event),
    let st := run response evs in
    Forall (lineFromCatalogue (catalogue response))
           (itemsOrEmpty (formData st)) /\
    (forall sel, selectedItem st = Some sel ->
                 inStock (catalogue response) sel) /\
    formData st = recalcTotals (formData st) /\
    (response = None -> itemsOrEmpty (formData st) = []).
Proof.
  intros response evs.
  assert (H : saleInvariant (catalogue response) (run response evs)).
  { unfold run.
    set (st0 := setFormData (fetched response initialState) _).
    assert (H0 : saleInvariant (catalogue response) st0).
    { subst st0. split; [now destruct response|].
      split; [destruct response; intros sel H; discriminate H|].
      split; [destruct response; constructor|].
      cbn [setFormData formData]. symmetry. apply sale_recalc_idempotent. }
    clearbody st0. revert st0 H0.
    induction evs as [|ev evs IH]; intros st0 H0; [exact H0|].
    cbn [fold_left]. apply IH.
    destruct (saleInvariant_handle _ ev st0 H0) as (Hav & Hsel & Hlines).
    unfold saleInvariant, step. cbv zeta.
    cbn [setFormData availableItems selectedItem formData].
    split; [exact Hav|]. split; [exact Hsel|].
    split; [rewrite itemsOrEmpty_recalc; exact Hlines|].
    symmetry. apply sale_recalc_idempotent. }
  destruct H as (_ & Hsel & Hlines & Hrec). cbv zeta.
  split; [exact Hlines|]. split; [exact Hsel|]. split; [exact Hrec|].
  intros ->. cbn [catalogue] in Hlines.
  destruct (itemsOrEmpty (formData (run None evs))) as [|l r]; [reflexivity|].
  inversion Hlines as [|? ? (item & Hin & _) _]. destruct Hin.
Qed.

Lemma handleAddItem_rejected (st : State) :
  saleRejection st -> exists msg, handleAddItem st = setError st (Some msg).
Proof.
  intros Hrej. unfold handleAddItem.
  destruct (selectedItem st) as [sel|] eqn:Es; [|eauto].
  destruct (isNaN _ || leb _ zero) eqn:Eq; [eauto|].
  destruct (gtb _ _) eqn:Eg; [eauto|].
  exfalso. apply quantity_guard in Eq.
  destruct Hrej as [H | [H | (sel' & E & H)]];
    [congruence | contradiction | congruence].
Qed.

(** X8.  Pressing the add button twice in a row adds at most one line: on
    both screens an addition clears the selection, and without a selection
    nothing is added. *)
Theorem add_pressed_twice_adds_once :
  (forall st : State,
      Sale.items (formData (handleAddItem (handleAddItem st)))
      = Sale.items (formData (handleAddItem st)))
  /\
  (forall st : EditPurchase.State,
      EditPurchase.handleAddItem (EditPurchase.handleAddItem st)
      = EditPurchase.handleAddItem st).
Proof.
  split.
  - intros st.
    destruct (sale_add_cases st) as [(Hrej & _) | (_ & sel & _ & E)].
    + destruct (handleAddItem_rejected st Hrej) as [msg ->].
      assert (Hrej' : saleRejection (setError st (Some msg))) by exact Hrej.
      now destruct (handleAddItem_rejected _ Hrej') as [msg' ->].
    + rewrite E. reflexivity.
  - intros st. unfold EditPurchase.handleAddItem.
    destruct (EditPurchase.selectedItem st) as [sel|] eqn:Es;
      cbn [EditPurchase.selectedItem]; [reflexivity | now rewrite Es].
Qed.

(** X9.  The stock check of the sale screen looks at one line at a time:
    after an accepted line, the same item can be selected again and the
    same quantity is accepted again, so the lines of one sale can hold
    more of an item than there is in stock. *)
Theorem stock_ceiling_is_per_line :
  forall (st : State) (sel : Item.t),
    selectedItem st = Some sel -> ~ saleRejection st ->
    let line := SaleItem.mk (RefId (optStrOr (Item._id sel) EmptyString))
                            (parseInt (selectedQuantity st)) (Item.price sel) in
    let again := setSelectedQuantity (handleSelectItem sel (handleAddItem st))
                                     (selectedQuantity st) in
    Sale.items (formData (handleAddItem again))
    = Some (itemsOrEmpty (formData st) ++ [line; line])%list.
Proof.
  intros st sel Hsel Hacc line again.
  destruct (sale_add_cases st) as [(Hrej & _) | (_ & sel' & Hsel' & E)];
    [contradiction|].
  assert (sel' = sel) as -> by congruence.
  assert (Hacc' : ~ saleRejection again).
  { intros [H | [H | (s & Es & H)]].
    - discriminate H.
    - apply Hacc. right; left. exact H.
    - apply Hacc. right; right. exists s. split; [|exact H].
      injection Es as <-. exact Hsel. }
  destruct (sale_add_cases again) as [(Hrej & _) | (_ & s2 & Hs2 & E2)];
    [contradiction|].
  injection Hs2 as <-. rewrite E2. subst again. rewrite E.
  cbn [formData handleSelectItem setSelectedQuantity selectedQuantity
       Sale.items Sale.withItems].
  unfold itemsOrEmpty at 1. cbn [Sale.items Sale.withItems].
  now rewrite <- app_assoc.
Qed.

End SaleFlow.

Section MoreComposition.
Import JS.

(** X10.  Running the totals effect a second time changes nothing, for a
    sale and for a purchase: the effect reads the lines, the tax rate and
    the discount or shipping cost, and writes none of them. *)
Theorem recompute_idempotent :
  (forall f : Sale.t,
      NewSale.recalcTotals (NewSale.recalcTotals f) = NewSale.recalcTotals f)
  /\
  (forall f : Purchase.t,
      EditPurchase.recalcTotals (EditPurchase.recalcTotals f)
      = EditPurchase.recalcTotals f).
Proof. split; [exact sale_recalc_idempotent | exact purchase_recalc_idempotent]. Qed.

(** X11.  Saving a purchase right after the supplier name was typed: it is
    refused exactly when the typed name is empty or the purchase has no
    line (a name of blanks is accepted, the name is not trimmed); a
    document that is handed over carries the typed name and the lines of
    the form. *)
Theorem purchase_save_after_typing_name :
  forall (st : EditPurchase.State) (v : string),
    let typed := EditPurchase.setFormData st
                   (EditPurchase.handleTextChange EditPurchase.FsupplierName v
                      (EditPurchase.formData st)) in
    (snd (EditPurchase.handleSave typed) = None <->
     v = EmptyString \/
     EditPurchase.itemsOrEmpty (EditPurchase.formData st) = [])
    /\
    (forall doc, snd (EditPurchase.handleSave typed) = Some doc ->
                 supplierName doc = Some v /\
                 Purchase.items doc = Purchase.items (EditPurchase.formData st)).
Proof.
  intros st v typed. subst typed. unfold EditPurchase.handleSave.
  cbn [EditPurchase.formData EditPurchase.setFormData].
  assert (Hname : EditPurchase.supplierNameMissing
                    (EditPurchase.handleTextChange EditPurchase.FsupplierName v
                       (EditPurchase.formData st))
                  = match v with EmptyString => true | _ => false end)
    by reflexivity.
  assert (Hitems : EditPurchase.itemsMissing
                     (EditPurchase.handleTextChange EditPurchase.FsupplierName v
                        (EditPurchase.formData st))
                   = EditPurchase.itemsMissing (EditPurchase.formData st))
    by reflexivity.
  rewrite Hname, Hitems, <- itemsMissing_empty.
  destruct v as [|c r]; cbn [snd].
  - split; [tauto | discriminate].
  - destruct (EditPurchase.itemsMissing (EditPurchase.formData st)); cbn [snd].
    + split; [split; [tauto | reflexivity] | discriminate].
    + split.
      * split; [discriminate | intros [H|H]; discriminate H].
      * intros doc [= <-]. split; reflexivity.
Qed.

(** X12.  With an item selected and a cost text that is not empty, the
    line-total effect followed by the add button appends a line whose
    total cost is its amount (the weight for an item tracked by weight,
    the quantity otherwise) times its cost per unit, and the subtotal
    becomes the former subtotal plus that product. *)
Theorem purchase_added_line_is_priced :
  forall (st : EditPurchase.State) (sel : Item.t),
    EditPurchase.selectedItem st = Some sel ->
    EditPurchase.costPerUnit st <> EmptyString ->
    let st' := EditPurchase.handleAddItem (EditPurchase.updateTotalCost st) in
    let amount := if EditPurchase.tracksWeight sel
                  then parseFloat (EditPurchase.weight st)
                  else parseInt (EditPurchase.quantity st) in
    let cost := parseFloat (EditPurchase.costPerUnit st) in
    let lines := EditPurchase.itemsOrEmpty (EditPurchase.formData st) in
    exists line old,
      Purchase.items (EditPurchase.formData st')
      = Some (lines ++ [line])%list /\
      PurchaseItem.costPerUnit line = cost /\
      PurchaseItem.totalCost line = mul amount cost /\
      Purchase.subtotal (EditPurchase.recalcTotals (EditPurchase.formData st))
      = Some old /\
      Purchase.subtotal (EditPurchase.recalcTotals (EditPurchase.formData st'))
      = Some (add old (mul amount cost)).
Proof.
  intros st sel Hsel Hcost st' amount cost lines.
  assert (Hsel' : EditPurchase.selectedItem (EditPurchase.updateTotalCost st)
                  = Some sel).
  { unfold EditPurchase.updateTotalCost. rewrite Hsel.
    now destruct (EditPurchase.tracksWeight sel). }
  assert (Hform : EditPurchase.formData (EditPurchase.updateTotalCost st)
                  = EditPurchase.formData st).
  { unfold EditPurchase.updateTotalCost. rewrite Hsel.
    now destruct (EditPurchase.tracksWeight sel). }
  assert (Hfields : EditPurchase.quantity (EditPurchase.updateTotalCost st)
                    = EditPurchase.quantity st /\
                    EditPurchase.weight (EditPurchase.updateTotalCost st)
                    = EditPurchase.weight st /\
                    EditPurchase.costPerUnit (EditPurchase.updateTotalCost st)
                    = EditPurchase.costPerUnit st).
  { unfold EditPurchase.updateTotalCost. rewrite Hsel.
    destruct (EditPurchase.tracksWeight sel); repeat split. }
  destruct Hfields as (Hq & Hw & Hc).
  pose proof (purchase_line_total st sel Hsel Hcost) as Hline.
  cbv zeta in Hline. destruct Hline as (a & Hamount & Htotal).
  set (line := EditPurchase.newItem sel (EditPurchase.updateTotalCost st)) in *.
  assert (Hcostline : PurchaseItem.costPerUnit line = cost).
  { subst line cost. unfold EditPurchase.newItem. rewrite Hc.
    now destruct (EditPurchase.tracksWeight sel). }
  assert (Ha : a = amount).
  { subst line amount. unfold EditPurchase.newItem in Hamount.
    rewrite Hq, Hw in Hamount.
    destruct (EditPurchase.tracksWeight sel); cbn in Hamount;
      destruct Hamount as [H _]; congruence. }
  subst a. rewrite Hcostline in Htotal.
  assert (Hitems : Purchase.items (EditPurchase.formData st')
                   = Some (lines ++ [line])%list).
  { subst st' lines line.
    rewrite (purchase_add_appends _ sel Hsel'). now rewrite Hform. }
  exists line. eexists. split; [exact Hitems|]. split; [exact Hcostline|].
  split; [exact Htotal|]. split; [apply purchase_subtotal_leftSum|].
  rewrite purchase_subtotal_leftSum. unfold EditPurchase.itemsOrEmpty at 1.
  rewrite Hitems, map_app. cbn [map]. rewrite leftSum_snoc.
  now rewrite Htotal.
Qed.

End MoreComposition.

(** * Text: trimming, lower case, search *)

Section Text.
Import JS JSString.

Lemma trimStart_head (s : string) :
  trimStart s = EmptyString \/
  exists c r, trimStart s = String c r /\ isWhite c = false.
Proof.
  induction s as [|c r IH]; [now left|].
  cbn [trimStart]. destruct (isWhite c) eqn:E; [exact IH|].
  right. now exists c, r.
Qed.

Lemma trimEnd_cons (c : ascii) (r : string) :
  trimEnd (String c r)
  = match trimEnd r with
    | EmptyString => if isWhite c then EmptyString else String c EmptyString
    | r' => String c r'
    end.
Proof. reflexivity. Qed.

Lemma trimEnd_idempotent (s : string) : trimEnd (trimEnd s) = trimEnd s.
Proof.
  induction s as [|c r IH]; [reflexivity|].
  rewrite trimEnd_cons. destruct (trimEnd r) as [|c' r'] eqn:E.
  - destruct (isWhite c) eqn:W; [reflexivity|].
    rewrite trimEnd_cons. cbn [trimEnd]. now rewrite W.
  - rewrite trimEnd_cons, IH. reflexivity.
Qed.

Lemma trimEnd_head (c : ascii) (r : string) :
  isWhite c = false -> exists r', trimEnd (String c r) = String c r'.
Proof.
  intros W. rewrite trimEnd_cons. destruct (trimEnd r) as [|c' r'].
  - rewrite W. now exists EmptyString.
  - now exists (String c' r').
Qed.

Lemma trim_idempotent (s : string) : trim (trim s) = trim s.
Proof.
  unfold trim.
  destruct (trimStart_head s) as [E | (c & r & E & W)]; rewrite E.
  - reflexivity.
  - destruct (trimEnd_head c r W) as [r' E'].
    assert (Hs : trimStart (trimEnd (String c r)) = trimEnd (String c r)).
    { rewrite E'. cbn [trimStart]. now rewrite W. }
    rewrite Hs. apply trimEnd_idempotent.
Qed.

Lemma toLowerCase_app (a b : string) :
  toLowerCase (a ++ b) = (toLowerCase a ++ toLowerCase b)%string.
Proof. induction a as [|c a IH]; cbn; [reflexivity | now rewrite IH]. Qed.

Lemma prefix_app (a b : string) : String.prefix a (a ++ b) = true.
Proof.
  induction a as [|c a IH]; cbn; [now destruct b|].
  destruct (ascii_dec c c) as [_|N]; [exact IH | now elim N].
Qed.

Lemma includes_app_l (a s sub : string) :
  includes s sub = true -> includes (a ++ s) sub = true.
Proof.
  intros H. induction a as [|c a IH]; [exact H|].
  cbn [append includes]. rewrite IH. apply orb_true_r.
Qed.

Lemma includes_fragment (before fragment after : string) :
  includes (before ++ fragment ++ after) fragment = true.
Proof.
  apply includes_app_l.
  destruct (fragment ++ after)%string eqn:E; cbn [includes];
    rewrite <- E, prefix_app; reflexivity.
Qed.

Lemma includes_refl (s : string) : includes s s = true.
Proof.
  pose proof (includes_fragment EmptyString s EmptyString) as H.
  cbn [append] in H. now rewrite append_empty in H.
Qed.

Lemma prefix_split (sub s : string) :
  String.prefix sub s = true -> exists a, s = (sub ++ a)%string.
Proof.
  revert s. induction sub as [|c sub IH]; intros s H; [now exists s|].
  destruct s as [|d s]; [discriminate H|]. cbn [String.prefix] in H.
  destruct (ascii_dec c d) as [<-|_]; [|discriminate H].
  destruct (IH s H) as [a ->]. now exists a.
Qed.

Lemma includes_contains (s sub : string) :
  includes s sub = true <-> contains s sub.
Proof.
  split.
  - induction s as [|c r IH]; cbn [includes]; intros H;
      apply orb_true_iff in H; destruct H as [H|H].
    + destruct (prefix_split _ _ H) as [a E]. now exists EmptyString, a.
    + discriminate H.
    + destruct (prefix_split _ _ H) as [a E]. now exists EmptyString, a.
    + destruct (IH H) as (b & a & ->). now exists (String c b), a.
  - intros (b & a & ->). apply includes_fragment.
Qed.

Lemma sameLetters_lower (a b : string) :
  sameLetters a b <-> toLowerCase a = toLowerCase b.
Proof.
  revert b. induction a as [|c a IH]; intros [|d b]; cbn [sameLetters toLowerCase];
    split; intros H; try reflexivity; try discriminate H; try contradiction.
  - destruct H as [Hc Hr]. rewrite Hc. f_equal. now apply IH.
  - injection H as Hc Hr. split; [exact Hc | now apply IH].
Qed.

Lemma toLowerCase_split (s x y : string) :
  toLowerCase s = (x ++ y)%string ->
  exists s1 s2, s = (s1 ++ s2)%string /\
                toLowerCase s1 = x /\ toLowerCase s2 = y.
Proof.
  revert s. induction x as [|c x IH]; intros s H.
  - now exists EmptyString, s.
  - destruct s as [|d s]; [discriminate H|].
    cbn [toLowerCase append] in H. injection H as Hc Hr.
    destruct (IH s Hr) as (s1 & s2 & -> & H1 & H2).
    exists (String d s1), s2. cbn [toLowerCase append].
    now rewrite Hc, H1.
Qed.

Lemma includes_lower (text query : string) :
  includes (toLowerCase text) (toLowerCase query) = true
  <-> containsIgnoringCase text query.
Proof.
  rewrite includes_contains. split.
  - intros (b & a & E).
    destruct (toLowerCase_split _ _ _ E) as (t1 & t23 & -> & H1 & H23).
    destruct (toLowerCase_split _ _ _ H23) as (t2 & t3 & -> & H2 & H3).
    exists t1, t2, t3. split; [reflexivity | now apply sameLetters_lower].
  - intros (b & f & a & -> & H). apply sameLetters_lower in H.
    exists (toLowerCase b), (toLowerCase a).
    now rewrite !toLowerCase_app, H.
Qed.

End Text.

(** * The tags of a new item *)

Section Tags.
Import JS JSString NewInventoryItem.

Lemma existsb_eqb_In (tag : string) (tags : list string) :
  existsb (String.eqb tag) tags = true <-> In tag tags.
Proof.
  rewrite existsb_exists. split.
  - intros (x & Hin & E). apply String.eqb_eq in E. now subst.
  - intros H. exists tag. split; [exact H | apply String.eqb_refl].
Qed.

Lemma hasTag_In (f : Item.t) (tag : string) :
  hasTag f tag = true <-> In tag (tagsOrEmpty f).
Proof.
  unfold hasTag, tagsOrEmpty. destruct (Item.tags f) as [tags|].
  - apply existsb_eqb_In.
  - split; [discriminate | intros []].
Qed.

Lemma filter_other_In (tag : string) (tags : list string) :
  ~ In tag (List.filter (fun t => negb (String.eqb t tag)) tags).
Proof.
  intros H. apply filter_In in H. destruct H as [_ H].
  now rewrite String.eqb_refl in H.
Qed.

Lemma filter_other_absent (tag : string) (tags : list string) :
  ~ In tag tags ->
  List.filter (fun t => negb (String.eqb t tag)) tags = tags.
Proof.
  induction tags as [|t r IH]; intros H; [reflexivity|].
  cbn [List.filter].
  destruct (String.eqb_spec t tag) as [->|N].
  - exfalso. apply H. now left.
  - cbn [negb]. f_equal. apply IH. intros Hin. apply H. now right.
Qed.

Lemma tagsKept_handle (st : State) (ev : Event) :
  tagsKept st -> tagsKept (handle st ev).
Proof.
  intros (tags & Htags & Hnd & Hclean).
  destruct ev as [field value | value | | tag]; cbn [handle].
  - exists tags. split; [now destruct field | auto].
  - exists tags. auto.
  - unfold handleAddTag.
    destruct (trim (currentTag st)) as [|c r] eqn:Et; [exists tags; auto|].
    destruct (hasTag (formData st) (String c r)) eqn:Eh; [exists tags; auto|].
    exists (tags ++ [String c r])%list.
    cbn [formData withTags Item.tags]. unfold tagsOrEmpty. rewrite Htags.
    split; [reflexivity|]. split.
    + apply NoDup_app; [exact Hnd | repeat constructor; intros [] | ].
      intros x Hx [<-|[]].
      assert (Hin : hasTag (formData st) (String c r) = true).
      { apply hasTag_In. unfold tagsOrEmpty. now rewrite Htags. }
      congruence.
    + apply Forall_app. split; [exact Hclean|].
      constructor; [|constructor]. split; [discriminate|].
      rewrite <- Et. apply trim_idempotent.
  - unfold handleRemoveTag. rewrite Htags.
    eexists. cbn [formData setFormData withTags Item.tags].
    split; [reflexivity|]. split.
    + now apply NoDup_filter.
    + apply Forall_forall. intros x Hx. apply filter_In in Hx.
      rewrite Forall_forall in Hclean. now apply Hclean.
Qed.

(** X13.  Whatever is typed, added and removed on the new-item form, its
    tags are always pairwise distinct, and each is a text that is not
    empty and has no white space around it.  (White space is that of
    [JS.isWhite].) *)
Theorem tags_stay_distinct_and_clean :
  forall evs : list Event,
    exists tags,
      Item.tags (formData (run evs)) = Some tags /\
      NoDup tags /\
      Forall cleanTag tags.
Proof.
  intros evs. unfold run.
  assert (H0 : tagsKept initialState).
  { exists []. repeat split; constructor. }
  revert H0. generalize initialState.
  induction evs as [|ev evs IH]; intros st H; [exact H|].
  cbn [fold_left]. apply IH. now apply tagsKept_handle.
Qed.

(** X14.  Adding a tag: a blank tag box changes nothing; a tag already
    present leaves the form as it is; any other tag is appended trimmed
    and the box is cleared, and removing it again gives back the tags.
    After a removal the removed tag is not among the tags. *)
Theorem tag_add_and_remove :
  (forall st : State,
      trim (currentTag st) = EmptyString -> handleAddTag st = st)
  /\
  (forall st : State,
      In (trim (currentTag st)) (tagsOrEmpty (formData st)) ->
      formData (handleAddTag st) = formData st)
  /\
  (forall (st : State) (tags : list string),
      Item.tags (formData st) = Some tags ->
      trim (currentTag st) <> EmptyString ->
      ~ In (trim (currentTag st)) tags ->
      Item.tags (formData (handleAddTag st))
      = Some (tags ++ [trim (currentTag st)])%list /\
      currentTag (handleAddTag st) = EmptyString /\
      Item.tags (formData (handleRemoveTag (trim (currentTag st))
                                           (handleAddTag st)))
      = Some tags)
  /\
  (forall (st : State) (tag : string),
      ~ In tag (tagsOrEmpty (formData (handleRemoveTag tag st)))).
Proof.
  split; [|split; [|split]].
  - intros st E. unfold handleAddTag. now rewrite E.
  - intros st Hin. unfold handleAddTag.
    destruct (trim (currentTag st)) as [|c r]; [reflexivity|].
    apply hasTag_In in Hin. now rewrite Hin.
  - intros st tags Htags Hne Hnin. unfold handleAddTag.
    destruct (trim (currentTag st)) as [|c r] eqn:Et; [now elim Hne|].
    assert (Hh : hasTag (formData st) (String c r) = false).
    { destruct (hasTag (formData st) (String c r)) eqn:E; [|reflexivity].
      apply hasTag_In in E. unfold tagsOrEmpty in E. rewrite Htags in E.
      contradiction. }
    rewrite Hh. unfold tagsOrEmpty. rewrite Htags.
    cbn [formData currentTag withTags Item.tags].
    split; [reflexivity|]. split; [reflexivity|].
    unfold handleRemoveTag. cbn [formData withTags Item.tags setFormData].
    f_equal. rewrite filter_app. cbn [List.filter].
    rewrite String.eqb_refl. cbn [negb].
    rewrite filter_other_absent by exact Hnin. apply app_nil_r.
  - intros st tag. unfold handleRemoveTag, tagsOrEmpty.
    destruct (Item.tags (formData st)) as [tags|] eqn:E.
    + cbn [formData setFormData withTags Item.tags]. apply filter_other_In.
    + rewrite E. intros [].
Qed.

Lemma orZero_not_negative (x : num) :
  ltb (orZero x) zero = false -> leb zero (orZero x) = true.
Proof.
  unfold orZero. destruct (truthy x) eqn:E.
  - destruct x as [|[|]|q]; try discriminate; try reflexivity.
    unfold leb. change zero with (Fin 0%Qc). now intros ->.
  - reflexivity.
Qed.

(** X15.  When the new-item form passes validation after its quantity and
    price were typed, name, SKU and category are not blank, and quantity
    and price are numbers that are not negative: text that is no number
    was stored as 0, never as [NaN]. *)
Theorem validated_item_has_usable_numbers :
  forall (f : Item.t) (quantity price : string),
    let typed := handleChange Fprice price (handleChange Fquantity quantity f) in
    validateForm typed = None ->
    trim (Item.name f) <> EmptyString /\
    trim (Item.sku f) <> EmptyString /\
    trim (Item.category f) <> EmptyString /\
    Item.quantity typed = orZero (parseFloat quantity) /\
    Item.price typed = orZero (parseFloat price) /\
    leb zero (Item.quantity typed) = true /\
    leb zero (Item.price typed) = true.
Proof.
  intros f quantity price typed. subst typed. unfold validateForm.
  cbn [handleChange Item.name Item.sku Item.category Item.quantity Item.price].
  destruct (trim (Item.name f)); [discriminate|].
  destruct (trim (Item.sku f)); [discriminate|].
  destruct (trim (Item.category f)); [discriminate|].
  destruct (ltb (orZero (parseFloat quantity)) zero) eqn:Eq; [discriminate|].
  destruct (ltb (orZero (parseFloat price)) zero) eqn:Ep; [discriminate|].
  intros _. repeat (split; [try discriminate; try reflexivity|]).
  - now apply orZero_not_negative.
  - now apply orZero_not_negative.
Qed.

End Tags.

(** * Searching the inventory *)

Section Search.
Import JS JSString InventoryList.

Lemma toString_not_empty (x : num) : toString x <> EmptyString.
Proof.
  destruct x as [|[|]|q]; try discriminate.
  cbn [toString].
  set (a := Z.abs (Qnum q)). set (d := Zpos (Qden q)).
  assert (Hip : (0 <= a / d)%Z) by (apply Z.div_pos; subst a d; lia).
  destruct (natDigits_head (Z.to_nat (Z.log2 (a / d))) (a / d)
                           EmptyString Hip) as (k & r & _ & E).
  unfold intToString. rewrite E.
  destruct (Qnum q <? 0)%Z; destruct (fracDigits _ _ _); discriminate.
Qed.

Lemma matchesQuery_spec (query : string) (item : Item.t) :
  matchesQuery (toLowerCase query) item = true
  <-> containsIgnoringCase (Item.name item) query \/
      containsIgnoringCase (Item.sku item) query \/
      containsIgnoringCase (Item.category item) query \/
      exists tags tag, Item.tags item = Some tags /\ In tag tags /\
                       containsIgnoringCase tag query.
Proof.
  unfold matchesQuery. rewrite !orb_true_iff, !includes_lower.
  assert (Htags : match Item.tags item with
                  | Some tags =>
                      existsb (fun tag => includes (toLowerCase tag)
                                                   (toLowerCase query)) tags
                  | None => false
                  end = true
                  <-> exists tags tag, Item.tags item = Some tags /\
                                       In tag tags /\
                                       containsIgnoringCase tag query).
  { destruct (Item.tags item) as [tags|].
    - rewrite existsb_exists. split.
      + intros (tag & Hin & H). exists tags, tag.
        split; [reflexivity|]. split; [exact Hin | now apply includes_lower].
      + intros (tags' & tag & [= <-] & Hin & H). exists tag.
        split; [exact Hin | now apply includes_lower].
    - split; [discriminate | intros (tags & tag & E & _); discriminate E]. }
  rewrite Htags. tauto.
Qed.

Lemma matchesFilter_spec (f v : string) (item : Item.t) :
  matchesFilter f v item = true <-> valueMatches (property item f) v.
Proof.
  unfold matchesFilter, valueMatches.
  destruct (property item f) as [s|n|xs|].
  - apply includes_lower.
  - apply includes_contains.
  - rewrite existsb_exists. split; intros (x & Hin & H); exists x;
      (split; [exact Hin | now apply includes_lower]).
  - split; [discriminate | contradiction].
Qed.

(** X16.  With no filter in the route and a search text that is not
    empty, an item is listed exactly when it is one of the items and its
    name, its SKU, its category or one of its tags contains the search
    text, the case of the letters set aside.  (Stated for plain text,
    where [toLowerCase] acts letter by letter.) *)
Theorem search_finds_item_by_fragment :
  forall (filter value : option string) (query : string)
         (items : list Item.t) (item : Item.t),
    filter = None \/ filter = Some EmptyString \/
    value = None \/ value = Some EmptyString ->
    query <> EmptyString ->
    plainText query -> plainItem item ->
    (In item (filteredItems filter value query items) <->
     In item items /\
     (containsIgnoringCase (Item.name item) query \/
      containsIgnoringCase (Item.sku item) query \/
      containsIgnoringCase (Item.category item) query \/
      exists tags tag, Item.tags item = Some tags /\ In tag tags /\
                       containsIgnoringCase tag query)).
Proof.
  intros filter value query items item Hroute Hq _ _.
  assert (Hres : filteredItems filter value query items
                 = List.filter (matchesQuery (toLowerCase query)) items).
  { unfold filteredItems.
    destruct query as [|c q]; [now elim Hq|].
    destruct Hroute as [-> | [-> | [-> | ->]]]; try reflexivity;
      destruct filter as [[|? ?]|]; reflexivity. }
  rewrite Hres, filter_In, matchesQuery_spec. reflexivity.
Qed.

(** X17.  The filter of the route on the inventory list.  Without an
    active filter and with an empty search box all items are listed.  An
    active filter (field and value both not empty) takes precedence: the
    search text is not looked at.  With an active filter on a field of
    the item, an item is listed exactly when it is one of the items and
    the value is found in that field: in its text or in one of its texts,
    the case of the letters set aside, or in its number as printed; an
    item that lacks the field is not listed.  (Stated for plain text,
    where [toLowerCase] acts letter by letter.) *)
Theorem route_filter_behaviour :
  (forall (filter value : option string) (items : list Item.t),
      filter = None \/ filter = Some EmptyString \/
      value = None \/ value = Some EmptyString ->
      filteredItems filter value EmptyString items = items)
  /\
  (forall (f v q q' : string) (items : list Item.t),
      f <> EmptyString -> v <> EmptyString ->
      filteredItems (Some f) (Some v) q items
      = filteredItems (Some f) (Some v) q' items)
  /\
  (forall (f v q : string) (items : list Item.t) (item : Item.t),
      In f itemKeys -> v <> EmptyString ->
      plainText v -> plainValue (property item f) ->
      (In item (filteredItems (Some f) (Some v) q items) <->
       In item items /\ valueMatches (property item f) v)).
Proof.
  split; [|split].
  - intros filter value items H.
    destruct H as [-> | [-> | [-> | ->]]]; try reflexivity;
      destruct filter as [[|? ?]|]; reflexivity.
  - intros f v q q' items Hf Hv.
    destruct f; [now elim Hf|]. destruct v; [now elim Hv|]. reflexivity.
  - intros f v q items item Hf Hv _ _.
    assert (Hne : f <> EmptyString).
    { intros ->. cbn in Hf. repeat (destruct Hf as [Hf|Hf]; [discriminate Hf|]).
      exact Hf. }
    destruct f as [|cf f]; [now elim Hne|].
    destruct v as [|cv v]; [now elim Hv|].
    cbn [filteredItems]. rewrite filter_In, matchesFilter_spec. reflexivity.
Qed.

End Search.

(** * The dashboard *)


Section DashboardFacts.
Import JS JSSort Dashboard.

Lemma ltb_sub_zero (a b : num) : ltb (sub a b) zero = ltb a b.
Proof.
  destruct a as [|[|]|p], b as [|[|]|q]; try reflexivity.
  change zero with (Fin 0%Qc). cbn [sub add neg ltb].
  destruct (Qc_dec p q) as [[H|H]|H].
  - rewrite (proj1 (Qclt_alt p q) H).
    assert (H' : (p + - q < 0)%Qc).
    { unfold Qclt, Qcplus, Qcopp, Q2Qc in *. cbn [this] in *.
      rewrite !Qred_correct. lra. }
    now rewrite (proj1 (Qclt_alt _ _) H').
  - rewrite (proj1 (Qcgt_alt p q) H).
    assert (H' : (0 < p + - q)%Qc).
    { unfold Qclt, Qcplus, Qcopp, Q2Qc in *. cbn [this] in *.
      rewrite !Qred_correct. lra. }
    now rewrite (proj1 (Qcgt_alt _ _) H').
  - subst q. rewrite Qcplus_opp_r.
    rewrite (proj1 (Qceq_alt p p) eq_refl). reflexivity.
Qed.

Lemma ltb_asym (a b : num) : ltb a b = true -> ltb b a = false.
Proof.
  destruct a as [|[|]|p], b as [|[|]|q]; try reflexivity; try discriminate.
  cbn [ltb]. destruct (p ?= q)%Qc eqn:E; try discriminate. intros _.
  apply Qclt_alt in E.
  destruct (q ?= p)%Qc eqn:E'; try reflexivity.
  apply Qclt_alt in E'. exfalso. apply (Qclt_not_le _ _ E).
  now apply Qclt_le_weak.
Qed.

Lemma insert_perm (x : Item.t) (l : list Item.t) :
  Permutation (x :: l) (insert byStock x l).
Proof.
  induction l as [|y r IH]; cbn [insert]; [reflexivity|].
  destruct (ltb (byStock x y) zero); [reflexivity|].
  rewrite perm_swap. now constructor.
Qed.

Lemma insert_sorted (x : Item.t) (l : list Item.t) :
  Sorted stockOrder l -> Sorted stockOrder (insert byStock x l).
Proof.
  induction l as [|y r IH]; intros Hs; cbn [insert].
  - repeat constructor.
  - unfold byStock at 1. rewrite ltb_sub_zero.
    destruct (ltb (Item.quantity x) (Item.quantity y)) eqn:E.
    + constructor; [exact Hs|]. constructor. unfold stockOrder.
      now apply ltb_asym.
    + inversion Hs as [|? ? Hr Hhd]; subst.
      constructor; [now apply IH|].
      destruct r as [|z r']; cbn [insert]; [now constructor|].
      destruct (ltb (byStock x z) zero); constructor; [exact E|].
      now inversion Hhd.
Qed.

Lemma sort_spec (xs acc : list Item.t) :
  Sorted stockOrder acc ->
  let out := fold_left (fun sorted x => insert byStock x sorted) xs acc in
  Sorted stockOrder out /\ Permutation (xs ++ acc) out.
Proof.
  revert acc. induction xs as [|x r IH]; intros acc Hs; cbn [fold_left].
  - split; [exact Hs | reflexivity].
  - destruct (IH (insert byStock x acc) (insert_sorted x acc Hs)) as [H1 H2].
    split; [exact H1|].
    rewrite <- H2. cbn [app].
    rewrite <- (insert_perm x acc). apply Permutation_middle.
Qed.

(** X18.  The inventory figures of the dashboard: the low-stock list holds
    exactly the items with a quantity below 5, each as often as the server
    sent it, in an order in which no item has less stock than the one
    before it; the total value is price times quantity, added over the
    items from left to right starting from 0; the item count is their
    number.  ([sort] is modelled as the stable sort the language
    prescribes; on quantities below 5 the comparison is a consistent
    order.) *)
Theorem dashboard_inventory_stats :
  forall items : list Item.t,
    let stats := inventoryStats items in
    Permutation
      (List.filter (fun item => ltb (Item.quantity item) (of_Z 5)) items)
      (lowStockItems stats) /\
    Sorted stockOrder (lowStockItems stats) /\
    (forall item, In item (lowStockItems stats) <->
                  In item items /\ ltb (Item.quantity item) (of_Z 5) = true) /\
    totalValue stats
    = leftSum (map (fun item => mul (Item.price item) (Item.quantity item))
                   items) /\
    totalItems stats = List.length items.
Proof.
  intros items stats. subst stats. unfold inventoryStats.
  cbn [lowStockItems totalValue totalItems].
  set (low := List.filter _ items).
  destruct (sort_spec low [] (Sorted_nil _)) as [Hs Hp].
  rewrite app_nil_r in Hp.
  change (fold_left (fun sorted x => insert byStock x sorted) low [])
    with (sort byStock low) in *.
  change (fun a b : Item.t => sub (Item.quantity a) (Item.quantity b))
    with byStock.
  split; [exact Hp|]. split; [exact Hs|]. split.
  - intros item. split; intros H.
    + apply (Permutation_in item (Permutation_sym Hp)) in H.
      subst low. now apply filter_In in H.
    + apply (Permutation_in item Hp). subst low. now apply filter_In.
  - split; [|reflexivity].
    apply fold_left_add_map.
Qed.

End DashboardFacts.

(** * The sales report *)

Section Ratios.
Import JS SalesReport.
Local Open Scope Qc_scope.

Lemma Q2Qc_inject_add (a b : Z) :
  Q2Qc (inject_Z a) + Q2Qc (inject_Z b) = Q2Qc (inject_Z (a + b)).
Proof.
  apply Qc_is_canon. unfold Qcplus, Q2Qc. cbn [this].
  rewrite !Qred_correct. rewrite inject_Z_plus. reflexivity.
Qed.

Lemma ratio_value (c n : Z) : (0 < n)%Z ->
  Q2Qc (inject_Z c) / Q2Qc (inject_Z n) * Q2Qc (inject_Z 100)
  = Q2Qc (Qmake (c * 100) (Z.to_pos n)).
Proof.
  intros Hn. apply Qc_is_canon.
  unfold Qcdiv, Qcmult, Qcinv, Q2Qc. cbn [this].
  rewrite !Qred_correct.
  rewrite (Qmake_Qdiv (c * 100) (Z.to_pos n)).
  rewrite Z2Pos.id by exact Hn.
  rewrite inject_Z_mult. unfold Qdiv. ring.
Qed.

Lemma compare_Q2Qc (a b : Q) : (Q2Qc a ?= Q2Qc b) = (a ?= b)%Q.
Proof. unfold Qccompare, Q2Qc. cbn [this]. symmetry. apply Qred_compare. Qed.

Lemma qzero_of_pos (n : Z) : (0 < n)%Z -> qzero (Q2Qc (inject_Z n)) = false.
Proof.
  intros Hn. unfold qzero.
  change 0 with (Q2Qc (inject_Z 0)). rewrite compare_of_Z.
  destruct (Z.compare_spec n 0); try lia; reflexivity.
Qed.

Lemma percentage_value (c n : nat) : (0 < n)%nat ->
  mul (div (ofNat c) (ofNat n)) (of_Z 100)
  = Fin (Q2Qc (Qmake (Z.of_nat c * 100) (Pos.of_nat n))).
Proof.
  intros Hn. unfold ofNat, of_Z. cbn [div].
  rewrite qzero_of_pos by lia. cbn [mul].
  rewrite ratio_value by lia. do 3 f_equal. lia.
Qed.

Lemma percentage_bounds (c n : nat) : (1 <= c <= n)%nat ->
  let p := mul (div (ofNat c) (ofNat n)) (of_Z 100) in
  gtb p zero = true /\ leb p (of_Z 100) = true.
Proof.
  intros [H1 H2]. cbv zeta. rewrite percentage_value by lia.
  unfold gtb, leb, zero, of_Z. cbn [ltb]. rewrite !compare_Q2Qc.
  unfold Qcompare, inject_Z. cbn [Qnum Qden].
  split.
  - destruct (Z.compare_spec (0 * Z.pos (Pos.of_nat n)) (Z.of_nat c * 100 * 1));
      try lia; reflexivity.
  - destruct (Z.compare_spec (100 * Z.pos (Pos.of_nat n)) (Z.of_nat c * 100 * 1));
      try reflexivity. exfalso.
    assert (Z.pos (Pos.of_nat n) = Z.of_nat n) by lia. lia.
Qed.

End Ratios.

Section Tally.
Import JS SalesReport SalesStats.

Variables (A K : Type) (same : K -> K -> bool) (keyOf : A -> K).
Hypothesis same_eq : forall a b, same a b = true <-> a = b.

Lemma same_refl (k : K) : same k k = true.
Proof. now apply same_eq. Qed.

Lemma bump_keys (k : K) (counts : list (K * nat)) :
  map fst (bump same k counts)
  = if existsb (fun k' => same k' k) (map fst counts)
    then map fst counts else (map fst counts ++ [k])%list.
Proof.
  induction counts as [|[k' c] r IH]; [reflexivity|].
  cbn [bump map fst existsb]. destruct (same k' k); [reflexivity|].
  cbn [map fst orb]. rewrite IH.
  now destruct (existsb _ (map fst r)).
Qed.

Lemma bump_NoDup (k : K) (counts : list (K * nat)) :
  NoDup (map fst counts) -> NoDup (map fst (bump same k counts)).
Proof.
  intros H. rewrite bump_keys.
  destruct (existsb _ (map fst counts)) eqn:E; [exact H|].
  apply NoDup_app; [exact H | repeat constructor; intros [] |].
  intros x Hx [<-|[]].
  assert (existsb (fun k' => same k' k) (map fst counts) = true); [|congruence].
  apply existsb_exists. exists k. split; [exact Hx | apply same_refl].
Qed.

Lemma bump_lookup (k k0 : K) (counts : list (K * nat)) :
  countFor same k0 (bump same k counts)
  = (countFor same k0 counts + if same k k0 then 1 else 0)%nat.
Proof.
  induction counts as [|[k' c] r IH].
  - cbn [bump countFor]. destruct (same k k0); reflexivity.
  - cbn [bump countFor]. destruct (same k' k) eqn:E.
    + apply same_eq in E. subst k'. cbn [countFor].
      destruct (same k k0); lia.
    + cbn [countFor]. destruct (same k' k0) eqn:E0; [|exact IH].
      apply same_eq in E0. subst k'.
      destruct (same k k0) eqn:E1; [|lia].
      apply same_eq in E1. subst k0. rewrite same_refl in E. discriminate E.
Qed.

Lemma bump_sum (k : K) (counts : list (K * nat)) :
  list_sum (map snd (bump same k counts)) = S (list_sum (map snd counts)).
Proof.
  induction counts as [|[k' c] r IH]; [reflexivity|].
  cbn [bump]. destruct (same k' k).
  - cbn. lia.
  - change (c + list_sum (map snd (bump same k r))
            = S (c + list_sum (map snd r)))%nat.
    rewrite IH. lia.
Qed.

Lemma tally_spec (xs : list A) (counts : list (K * nat)) (seen : list A) :
  NoDup (map fst counts) ->
  (forall k, countFor same k counts = occurrences same keyOf k seen) ->
  list_sum (map snd counts) = List.length seen ->
  (forall k, In k (map fst counts) <-> exists x, In x seen /\ keyOf x = k) ->
  let out := fold_left (fun counts x => bump same (keyOf x) counts) xs counts in
  NoDup (map fst out) /\
  (forall k, countFor same k out = occurrences same keyOf k (seen ++ xs)) /\
  list_sum (map snd out) = List.length (seen ++ xs) /\
  (forall k, In k (map fst out) <->
             exists x, In x (seen ++ xs) /\ keyOf x = k).
Proof.
  revert counts seen. induction xs as [|x r IH];
    intros counts seen Hnd Hlook Hsum Hkeys; cbn [fold_left].
  - rewrite app_nil_r. auto.
  - replace (seen ++ x :: r)%list with ((seen ++ [x]) ++ r)%list
      by (now rewrite <- app_assoc).
    apply IH.
    + now apply bump_NoDup.
    + intros k. rewrite bump_lookup, Hlook. unfold SalesStats.occurrences.
      rewrite filter_app, length_app. cbn [List.filter].
      destruct (same (keyOf x) k); reflexivity.
    + rewrite bump_sum, Hsum, length_app. cbn [List.length]. lia.
    + intros k. rewrite bump_keys.
      destruct (existsb _ (map fst counts)) eqn:E.
      * rewrite Hkeys. split; intros (y & Hy & Ey).
        -- exists y. split; [apply in_or_app; now left | exact Ey].
        -- apply in_app_or in Hy. destruct Hy as [Hy | [<-|[]]];
             [now exists y|].
           apply existsb_exists in E. destruct E as (k' & Hk' & Es).
           apply same_eq in Es. subst. now apply Hkeys.
      * rewrite in_app_iff, Hkeys. split.
        -- intros [(y & Hy & Ey) | [<-|[]]].
           ++ exists y. split; [apply in_or_app; now left | exact Ey].
           ++ exists x. split; [apply in_or_app; right; now left | reflexivity].
        -- intros (y & Hy & Ey). apply in_app_or in Hy.
           destruct Hy as [Hy | [<-|[]]]; [left; now exists y | right; now left].
Qed.

Lemma lookup_In (k : K) (c : nat) (counts : list (K * nat)) :
  NoDup (map fst counts) -> In (k, c) counts -> countFor same k counts = c.
Proof.
  induction counts as [|[k' c'] r IH]; intros Hnd Hin; [destruct Hin|].
  cbn [countFor]. inversion Hnd as [|? ? Hnotin Hnd']; subst.
  destruct Hin as [E|Hin].
  - injection E as -> ->. now rewrite same_refl.
  - destruct (same k' k) eqn:E; [|now apply IH].
    apply same_eq in E. subst k'. exfalso. apply Hnotin.
    now apply (in_map fst) in Hin.
Qed.

Lemma tally_correct (xs : list A) :
  let counts := tally same keyOf xs in
  NoDup (map fst counts) /\
  (forall k c, In (k, c) counts -> c = occurrences same keyOf k xs) /\
  list_sum (map snd counts) = List.length xs /\
  (forall k, In k (map fst counts) <-> exists x, In x xs /\ keyOf x = k).
Proof.
  destruct (tally_spec xs [] []) as (Hnd & Hlook & Hsum & Hkeys).
  - constructor.
  - reflexivity.
  - reflexivity.
  - intros k. split; [intros [] | intros (x & [] & _)].
  - cbv zeta. unfold tally. cbn [app] in *.
    split; [exact Hnd|]. split; [|split; [exact Hsum | exact Hkeys]].
    intros k c Hin. rewrite <- Hlook. symmetry. now apply lookup_In.
Qed.

Lemma occurrences_le (k : K) (xs : list A) :
  (occurrences same keyOf k xs <= List.length xs)%nat.
Proof. apply filter_length_le. Qed.

Lemma occurrences_pos (k : K) (xs : list A) :
  (exists x, In x xs /\ keyOf x = k) -> (1 <= occurrences same keyOf k xs)%nat.
Proof.
  intros (x & Hin & Hk). unfold SalesStats.occurrences.
  induction xs as [|y r IH]; [destruct Hin|].
  cbn [filter]. destruct Hin as [->|Hin].
  - rewrite Hk, same_refl. cbn. lia.
  - specialize (IH Hin). destruct (same (keyOf y) k); cbn; lia.
Qed.

Lemma stats_keys (total : nat) (counts : list (K * nat)) :
  map key (stats total counts) = map fst counts.
Proof.
  unfold stats. rewrite map_map. apply map_ext. now intros [k c].
Qed.

Lemma stats_count_sum (total : nat) (counts : list (K * nat)) :
  sigma (map count (stats total counts)) = ofNat (list_sum (map snd counts)).
Proof.
  unfold stats. rewrite map_map.
  induction counts as [|[k c] r IH]; [reflexivity|].
  cbn [map sigma snd count]. rewrite IH. unfold ofNat, of_Z. cbn [add].
  rewrite Q2Qc_inject_add. do 3 f_equal.
  change (list_sum (c :: map snd r)) with (c + list_sum (map snd r))%nat.
  lia.
Qed.

Lemma stats_correct (xs : list A) :
  let st := stats (List.length xs) (tally same keyOf xs) in
  NoDup (map key st) /\
  (forall k, In k (map key st) <-> exists x, In x xs /\ keyOf x = k) /\
  (forall s, In s st ->
     count s = ofNat (occurrences same keyOf (key s) xs) /\
     gtb (percentage s) zero = true /\
     leb (percentage s) (of_Z 100) = true) /\
  sigma (map count st) = ofNat (List.length xs).
Proof.
  destruct (tally_correct xs) as (Hnd & Hcount & Hsum & Hkeys).
  cbv zeta. rewrite stats_keys, stats_count_sum, Hsum.
  split; [exact Hnd|]. split; [exact Hkeys|]. split; [|reflexivity].
  intros s Hin. unfold stats in Hin. apply in_map_iff in Hin.
  destruct Hin as ([k c] & <- & Hin). cbn [key count percentage].
  assert (Hc := Hcount k c Hin). subst c.
  split; [reflexivity|].
  apply percentage_bounds. split; [|apply occurrences_le].
  apply occurrences_pos, Hkeys. apply in_map_iff.
  now exists (k, occurrences same keyOf k xs).
Qed.

End Tally.

Section Report.
Import JS SalesReport SalesStats.

Lemma samePayment_eq (a b : option SalePayment) :
  samePayment a b = true <-> a = b.
Proof.
  destruct a as [[]|], b as [[]|]; cbn; split; intros H;
    try reflexivity; try discriminate.
Qed.

Lemma sameStatus_eq (a b : option SaleStatus) :
  sameStatus a b = true <-> a = b.
Proof.
  destruct a as [[]|], b as [[]|]; cbn; split; intros H;
    try reflexivity; try discriminate.
Qed.

Lemma getPaymentMethodStats_eq (reportData : option ReportData) :
  getPaymentMethodStats reportData
  = stats (List.length (reportSales reportData))
          (tally samePayment Sale.paymentMethod (reportSales reportData)).
Proof. now destruct reportData. Qed.

Lemma getStatusStats_eq (reportData : option ReportData) :
  getStatusStats reportData
  = stats (List.length (reportSales reportData))
          (tally sameStatus Sale.status (reportSales reportData)).
Proof. now destruct reportData. Qed.

(** X19.  The payment-method breakdown of the sales report: each method
    is listed once, a method is listed exactly when a sale of the report
    used it, its count is the number of those sales, its percentage is
    above 0 and at most 100, and the counts add up to the number of sales.
    Without a report the breakdown is empty. *)
Theorem payment_method_stats_count_the_sales :
  forall reportData : option ReportData,
    let sold := reportSales reportData in
    let rows := getPaymentMethodStats reportData in
    NoDup (map key rows) /\
    (forall method, In method (map key rows) <->
       exists sale, In sale sold /\ Sale.paymentMethod sale = method) /\
    (forall row, In row rows ->
       count row
       = ofNat (occurrences samePayment Sale.paymentMethod (key row) sold) /\
       gtb (percentage row) zero = true /\
       leb (percentage row) (of_Z 100) = true) /\
    sigma (map count rows) = ofNat (List.length sold).
Proof.
  intros reportData. cbv zeta. rewrite getPaymentMethodStats_eq.
  apply (stats_correct _ _ samePayment Sale.paymentMethod samePayment_eq).
Qed.

(** X20.  The status breakdown of the sales report: each status is listed
    once, a status is listed exactly when a sale of the report has it, its
    count is the number of those sales, its percentage is above 0 and at
    most 100, and the counts add up to the number of sales.  Without a
    report the breakdown is empty. *)
Theorem status_stats_count_the_sales :
  forall reportData : option ReportData,
    let sold := reportSales reportData in
    let rows := getStatusStats reportData in
    NoDup (map key rows) /\
    (forall status, In status (map key rows) <->
       exists sale, In sale sold /\ Sale.status sale = status) /\
    (forall row, In row rows ->
       count row = ofNat (occurrences sameStatus Sale.status (key row) sold) /\
       gtb (percentage row) zero = true /\
       leb (percentage row) (of_Z 100) = true) /\
    sigma (map count rows) = ofNat (List.length sold).
Proof.
  intros reportData. cbv zeta. rewrite getStatusStats_eq.
  apply (stats_correct _ _ sameStatus Sale.status sameStatus_eq).
Qed.

End Report.

(** * The further properties at sample inputs *)

Section Instances.
Import JS.

Lemma saleEntry_accepted (z : Z) (q : string) :
  parseInt q = of_Z z -> (0 < z <= 10)%Z ->
  ~ saleRejection (Scenario.saleEntry q).
Proof.
  intros Hq Hz [H | [H | (sel & E & H)]].
  - discriminate H.
  - apply H. change (positiveInteger (parseInt q)). rewrite Hq.
    apply positiveInteger_of_Z. lia.
  - injection E as <-.
    change (gtb (parseInt q) (of_Z 10) = true) in H.
    rewrite Hq, gtb_of_Z in H. apply Z.ltb_lt in H. lia.
Qed.

Lemma remove_line_drops_that_line_witness :
  (Sale.items Scenario.saleA = Some [Sample.lineA1; Sample.lineA2] /\
   Sale.items (NewSale.handleRemoveItem 0 Scenario.saleA)
   = Some [Sample.lineA2])
  /\
  (Purchase.items Scenario.purchaseC = Some [Sample.lineC] /\
   Purchase.items (EditPurchase.handleRemoveItem 0 Scenario.purchaseC)
   = Some []).
Proof.
  split; (split; [reflexivity|]).
  - exact (proj1 (proj1 remove_line_drops_that_line 0%nat Scenario.saleA
                        [Sample.lineA1; Sample.lineA2] eq_refl)).
  - exact (proj1 (proj2 remove_line_drops_that_line 0%nat Scenario.purchaseC
                        [Sample.lineC] eq_refl)).
Defined.

Lemma add_then_remove_restores_lines_witness :
  (~ saleRejection (Scenario.saleEntry "3") /\
   Sale.items
     (NewSale.handleRemoveItem 0
        (NewSale.formData (NewSale.handleAddItem (Scenario.saleEntry "3"))))
   = Some [])
  /\
  (EditPurchase.selectedItem Sample.purchaseTyped = Some Scenario.widget /\
   Purchase.items
     (EditPurchase.handleRemoveItem 0
        (EditPurchase.formData
           (EditPurchase.handleAddItem Sample.purchaseTyped)))
   = Some []).
Proof.
  assert (H : ~ saleRejection (Scenario.saleEntry "3"))
    by (apply (saleEntry_accepted 3); [reflexivity | lia]).
  split.
  - split; [exact H|].
    exact (proj1 add_then_remove_restores_lines (Scenario.saleEntry "3") H).
  - split; [reflexivity|].
    exact (proj2 add_then_remove_restores_lines Sample.purchaseTyped
                 Scenario.widget eq_refl).
Defined.

Lemma sale_subtotal_follows_lines_witness :
  (~ saleRejection (Scenario.saleEntry "3") /\
   exists sel old,
     NewSale.selectedItem (Scenario.saleEntry "3") = Some sel /\
     Sale.subtotal
       (NewSale.recalcTotals (NewSale.formData (Scenario.saleEntry "3")))
     = Some old /\
     Sale.subtotal
       (NewSale.recalcTotals
          (NewSale.formData (NewSale.handleAddItem (Scenario.saleEntry "3"))))
     = Some (add old (mul (parseInt "3") (Item.price sel))))
  /\
  (Sale.items Scenario.saleA = Some ([Sample.lineA1] ++ [Sample.lineA2])%list /\
   exists rest,
     Sale.items (NewSale.handleRemoveItem 1 Scenario.saleA)
     = Some [Sample.lineA1] /\
     Sale.subtotal
       (NewSale.recalcTotals (NewSale.handleRemoveItem 1 Scenario.saleA))
     = Some rest /\
     Sale.subtotal (NewSale.recalcTotals Scenario.saleA)
     = Some (add rest (mul (of_Z 1) (parseFloat "5.00")))).
Proof.
  assert (H : ~ saleRejection (Scenario.saleEntry "3"))
    by (apply (saleEntry_accepted 3); [reflexivity | lia]).
  split.
  - split; [exact H|].
    exact (proj1 sale_subtotal_follows_lines (Scenario.saleEntry "3") H).
  - split; [reflexivity|].
    exact (proj2 sale_subtotal_follows_lines Scenario.saleA
                 [Sample.lineA1] Sample.lineA2 eq_refl).
Defined.

Lemma purchase_subtotal_follows_lines_witness :
  (EditPurchase.selectedItem Sample.purchaseTyped = Some Scenario.widget /\
   exists old,
     Purchase.subtotal
       (EditPurchase.recalcTotals (EditPurchase.formData Sample.purchaseTyped))
     = Some old /\
     Purchase.subtotal
       (EditPurchase.recalcTotals
          (EditPurchase.formData
             (EditPurchase.handleAddItem Sample.purchaseTyped)))
     = Some (add old
                 (parseFloat (EditPurchase.totalCost Sample.purchaseTyped))))
  /\
  (Purchase.items Scenario.purchaseC = Some ([] ++ [Sample.lineC])%list /\
   exists rest,
     Purchase.items (EditPurchase.handleRemoveItem 0 Scenario.purchaseC)
     = Some [] /\
     Purchase.subtotal
       (EditPurchase.recalcTotals
          (EditPurchase.handleRemoveItem 0 Scenario.purchaseC))
     = Some rest /\
     Purchase.subtotal (EditPurchase.recalcTotals Scenario.purchaseC)
     = Some (add rest (parseFloat "25"))).
Proof.
  split.
  - split; [reflexivity|].
    exact (proj1 purchase_subtotal_follows_lines Sample.purchaseTyped
                 Scenario.widget eq_refl).
  - split; [reflexivity|].
    exact (proj2 purchase_subtotal_follows_lines Scenario.purchaseC
                 [] Sample.lineC eq_refl).
Defined.

Lemma offered_item_added_with_preset_quantity_witness :
  (nth_error
     (NewSale.availableItems
        (NewSaleFlow.fetchItemsDone Sample.catalogue NewSale.initialState)) 0
   = Some Scenario.widget /\
   gtb (of_Z 1) (Item.quantity Scenario.widget) = false /\
   NewSale.error
     (NewSale.handleAddItem
        (NewSaleFlow.handle (NewSaleFlow.PickItem 0)
           (NewSaleFlow.fetchItemsDone Sample.catalogue NewSale.initialState)))
   = None /\
   Sale.items
     (NewSale.formData
        (NewSale.handleAddItem
           (NewSaleFlow.handle (NewSaleFlow.PickItem 0)
              (NewSaleFlow.fetchItemsDone Sample.catalogue
                                          NewSale.initialState))))
   = Some [SaleItem.mk (RefId "w1") (of_Z 1) (Item.price Scenario.widget)])
  /\
  (nth_error
     (NewSale.availableItems
        (NewSaleFlow.fetchItemsDone [Sample.ribbon] NewSale.initialState)) 0
   = Some Sample.ribbon /\
   gtb (of_Z 1) (Item.quantity Sample.ribbon) = true /\
   NewSale.error
     (NewSale.handleAddItem
        (NewSaleFlow.handle (NewSaleFlow.PickItem 0)
           (NewSaleFlow.fetchItemsDone [Sample.ribbon] NewSale.initialState)))
   = Some "Only 0.5 items available in stock" /\
   NewSale.formData
     (NewSale.handleAddItem
        (NewSaleFlow.handle (NewSaleFlow.PickItem 0)
           (NewSaleFlow.fetchItemsDone [Sample.ribbon] NewSale.initialState)))
   = NewSale.initialFormData).
Proof.
  assert (Hw : nth_error
                 (NewSale.availableItems
                    (NewSaleFlow.fetchItemsDone Sample.catalogue
                                                NewSale.initialState)) 0
               = Some Scenario.widget) by reflexivity.
  assert (Hr : nth_error
                 (NewSale.availableItems
                    (NewSaleFlow.fetchItemsDone [Sample.ribbon]
                                                NewSale.initialState)) 0
               = Some Sample.ribbon) by reflexivity.
  split.
  - split; [exact Hw|]. split; [reflexivity|].
    exact (proj1 (proj2 (proj2 (offered_item_added_with_preset_quantity
                                  Sample.catalogue NewSale.initialState 0%nat
                                  Scenario.widget Hw)))
                 eq_refl).
  - split; [exact Hr|]. split; [reflexivity|].
    exact (proj2 (proj2 (proj2 (offered_item_added_with_preset_quantity
                                  [Sample.ribbon] NewSale.initialState 0%nat
                                  Sample.ribbon Hr)))
                 eq_refl).
Defined.

Lemma stock_ceiling_is_per_line_witness :
  NewSale.selectedItem (Scenario.saleEntry "10") = Some Scenario.widget /\
  ~ saleRejection (Scenario.saleEntry "10") /\
  Item.quantity Scenario.widget = of_Z 10 /\
  Sale.items
    (NewSale.formData
       (NewSale.handleAddItem
          (NewSale.setSelectedQuantity
             (NewSale.handleSelectItem Scenario.widget
                (NewSale.handleAddItem (Scenario.saleEntry "10")))
             "10")))
  = Some [SaleItem.mk (RefId "w1") (of_Z 10) (Item.price Scenario.widget);
          SaleItem.mk (RefId "w1") (of_Z 10) (Item.price Scenario.widget)].
Proof.
  assert (H : ~ saleRejection (Scenario.saleEntry "10"))
    by (apply (saleEntry_accepted 10); [reflexivity | lia]).
  split; [reflexivity|]. split; [exact H|]. split; [reflexivity|].
  exact (stock_ceiling_is_per_line (Scenario.saleEntry "10") Scenario.widget
                                   eq_refl H).
Defined.

Lemma purchase_added_line_is_priced_witness :
  EditPurchase.selectedItem Sample.purchaseTyped = Some Scenario.widget /\
  EditPurchase.costPerUnit Sample.purchaseTyped <> EmptyString /\
  exists line old,
    Purchase.items
      (EditPurchase.formData
         (EditPurchase.handleAddItem
            (EditPurchase.updateTotalCost Sample.purchaseTyped)))
    = Some [line] /\
    PurchaseItem.costPerUnit line = parseFloat "2.50" /\
    PurchaseItem.totalCost line = mul (parseInt "4") (parseFloat "2.50") /\
    Purchase.subtotal
      (EditPurchase.recalcTotals (EditPurchase.formData Sample.purchaseTyped))
    = Some old /\
    Purchase.subtotal
      (EditPurchase.recalcTotals
         (EditPurchase.formData
            (EditPurchase.handleAddItem
               (EditPurchase.updateTotalCost Sample.purchaseTyped))))
    = Some (add old (mul (parseInt "4") (parseFloat "2.50"))).
Proof.
  assert (H : EditPurchase.costPerUnit Sample.purchaseTyped <> EmptyString)
    by discriminate.
  split; [reflexivity|]. split; [exact H|].
  exact (purchase_added_line_is_priced Sample.purchaseTyped Scenario.widget
                                       eq_refl H).
Defined.

Lemma tag_add_and_remove_witness :
  (JSString.trim (NewInventoryItem.currentTag (Sample.tagTyped ["new"] "  "))
   = EmptyString /\
   NewInventoryItem.handleAddTag (Sample.tagTyped ["new"] "  ")
   = Sample.tagTyped ["new"] "  ")
  /\
  (In (JSString.trim (NewInventoryItem.currentTag
                        (Sample.tagTyped ["new"] "new ")))
      (NewInventoryItem.tagsOrEmpty
         (NewInventoryItem.formData (Sample.tagTyped ["new"] "new "))) /\
   NewInventoryItem.formData
     (NewInventoryItem.handleAddTag (Sample.tagTyped ["new"] "new "))
   = NewInventoryItem.formData (Sample.tagTyped ["new"] "new "))
  /\
  (Item.tags (NewInventoryItem.formData (Sample.tagTyped ["new"] " sale "))
   = Some ["new"] /\
   JSString.trim (NewInventoryItem.currentTag
                    (Sample.tagTyped ["new"] " sale ")) = "sale" /\
   ~ In "sale" ["new"] /\
   Item.tags
     (NewInventoryItem.formData
        (NewInventoryItem.handleAddTag (Sample.tagTyped ["new"] " sale ")))
   = Some ["new"; "sale"] /\
   NewInventoryItem.currentTag
     (NewInventoryItem.handleAddTag (Sample.tagTyped ["new"] " sale "))
   = EmptyString /\
   Item.tags
     (NewInventoryItem.formData
        (NewInventoryItem.handleRemoveTag "sale"
           (NewInventoryItem.handleAddTag (Sample.tagTyped ["new"] " sale "))))
   = Some ["new"]).
Proof.
  assert (Hnin : ~ In "sale" ["new"]) by (intros [H|[]]; discriminate H).
  split; [|split].
  - split; [reflexivity|].
    exact (proj1 tag_add_and_remove (Sample.tagTyped ["new"] "  ") eq_refl).
  - split; [now left|].
    exact (proj1 (proj2 tag_add_and_remove) (Sample.tagTyped ["new"] "new ")
                 (or_introl eq_refl)).
  - split; [reflexivity|]. split; [reflexivity|]. split; [exact Hnin|].
    apply (proj1 (proj2 (proj2 tag_add_and_remove))
                 (Sample.tagTyped ["new"] " sale ") ["new"] eq_refl).
    + discriminate.
    + exact Hnin.
Defined.

Lemma validated_item_has_usable_numbers_witness :
  NewInventoryItem.validateForm
    (NewInventoryItem.handleChange NewInventoryItem.Fprice "2.5"
       (NewInventoryItem.handleChange NewInventoryItem.Fquantity "3"
          Sample.itemNamed)) = None /\
  leb zero
      (Item.quantity
         (NewInventoryItem.handleChange NewInventoryItem.Fprice "2.5"
            (NewInventoryItem.handleChange NewInventoryItem.Fquantity "3"
               Sample.itemNamed))) = true /\
  leb zero
      (Item.price
         (NewInventoryItem.handleChange NewInventoryItem.Fprice "2.5"
            (NewInventoryItem.handleChange NewInventoryItem.Fquantity "3"
               Sample.itemNamed))) = true.
Proof.
  assert (H : NewInventoryItem.validateForm
                (NewInventoryItem.handleChange NewInventoryItem.Fprice "2.5"
                   (NewInventoryItem.handleChange NewInventoryItem.Fquantity
                      "3" Sample.itemNamed)) = None) by reflexivity.
  split; [exact H|].
  exact (proj2 (proj2 (proj2 (proj2 (proj2
           (validated_item_has_usable_numbers Sample.itemNamed "3" "2.5"
                                              H)))))).
Defined.

Lemma plainText_widget : plainItem Scenario.widget.
Proof.
  unfold plainItem. cbn. repeat split; try reflexivity.
  intros tags H. discriminate H.
Qed.

Lemma search_finds_item_by_fragment_witness :
  plainText "WID" /\
  plainItem Scenario.widget /\
  Item.name Scenario.widget = (EmptyString ++ "Wid" ++ "get")%string /\
  sameLetters "Wid" "WID" /\
  In Scenario.widget
     (InventoryList.filteredItems None None "WID" Sample.catalogue).
Proof.
  assert (Hp : plainText "WID") by (cbn; repeat split; reflexivity).
  assert (Hs : sameLetters "Wid" "WID") by (cbn; repeat split; reflexivity).
  split; [exact Hp|]. split; [exact plainText_widget|].
  split; [reflexivity|]. split; [exact Hs|].
  apply (proj2 (search_finds_item_by_fragment None None "WID" Sample.catalogue
                  Scenario.widget (or_introl eq_refl)
                  ltac:(discriminate) Hp plainText_widget)).
  split; [now left|]. left.
  exists EmptyString, "Wid", "get". split; [reflexivity | exact Hs].
Defined.

Lemma route_filter_behaviour_witness :
  (InventoryList.filteredItems (Some EmptyString) (Some "parts") EmptyString
                               Sample.catalogue
   = Sample.catalogue)
  /\
  (InventoryList.filteredItems (Some "category") (Some "PART") "flour"
                               Sample.catalogue
   = InventoryList.filteredItems (Some "category") (Some "PART") EmptyString
                                 Sample.catalogue)
  /\
  (In "category" itemKeys /\
   plainText "PART" /\
   InventoryList.property Scenario.widget "category"
   = InventoryList.VString (EmptyString ++ "part" ++ "s")%string /\
   sameLetters "part" "PART" /\
   In Scenario.widget
      (InventoryList.filteredItems (Some "category") (Some "PART") "flour"
                                   Sample.catalogue)).
Proof.
  assert (Hk : In "category" itemKeys) by (cbn; tauto).
  assert (Hp : plainText "PART") by (cbn; repeat split; reflexivity).
  assert (Hv : plainValue (InventoryList.property Scenario.widget "category"))
    by (cbn; repeat split; reflexivity).
  assert (Hs : sameLetters "part" "PART") by (cbn; repeat split; reflexivity).
  split; [|split].
  - apply (proj1 route_filter_behaviour). right; left. reflexivity.
  - apply (proj1 (proj2 route_filter_behaviour)); discriminate.
  - split; [exact Hk|]. split; [exact Hp|]. split; [reflexivity|].
    split; [exact Hs|].
    apply (proj2 (proj2 (proj2 route_filter_behaviour)
                    "category" "PART" "flour" Sample.catalogue
                    Scenario.widget Hk ltac:(discriminate) Hp Hv)).
    split; [now left|].
    exists EmptyString, "part", "s". split; [reflexivity | exact Hs].
Defined.

End Instances.
